(** * TunDevice: a shallow embedding of [tuntap.cc]

    The native add-on wraps a kernel TUN interface.  Two kernel interfaces
    are compiled conditionally ([#ifdef __APPLE__]): the utun control socket
    of Darwin and the [/dev/net/tun] ioctl interface of Linux.  The model
    keeps both and selects with a [Platform] argument.

    The kernel, libuv and N-API are outside the file: every call that leaves
    the add-on is answered by an oracle that sees the whole history of calls,
    and every such call is appended to a trace.  The value of [errno] is part
    of the state, because the code reads it after calls that did not set it. *)

From Stdlib Require Import ZArith List String Ascii Bool Lia.
From Stdlib Require Import Init.Byte Strings.Byte.
Import ListNotations.
Local Open Scope Z_scope.

Notation "a +++ b" := (String.append a b) (at level 60, right associativity).

(** ** Values exchanged with JavaScript *)

Inductive JsValue : Type :=
| JsUndefined
| JsNull
| JsBoolean (b : bool)
| JsNumber (n : Z)
| JsString (s : string)          (* the string, written in UTF-8 *)
| JsBuffer (data : list byte)
| JsFunction (f : nat).

Inductive ErrKind : Type := JsError | JsTypeError.

(** What the JavaScript caller observes: a returned value, or a pending
    exception ([ThrowAsJavaScriptException]; the value returned next to it is
    not observable), or nothing any more because the process was aborted. *)
Inductive Outcome : Type :=
| Returned (v : JsValue)
| Thrown (k : ErrKind) (msg : string)
| Aborted.

(** [info[0]]: N-API yields [undefined] past the last argument. *)
Definition info0 (info : list JsValue) : JsValue :=
  match info with
  | v :: _ => v
  | [] => JsUndefined
  end.

Definition IsString (v : JsValue) : bool :=
  match v with JsString _ => true | _ => false end.
Definition IsNumber (v : JsValue) : bool :=
  match v with JsNumber _ => true | _ => false end.
Definition IsBuffer (v : JsValue) : bool :=
  match v with JsBuffer _ => true | _ => false end.
Definition IsFunction (v : JsValue) : bool :=
  match v with JsFunction _ => true | _ => false end.

(** [Napi::Number::Uint32Value]; numbers are modelled by their integral value. *)
Definition Uint32Value (v : JsValue) : Z :=
  match v with
  | JsNumber n => n mod 2 ^ 32
  | _ => 0
  end.

(** ** Platform and constants of the system headers *)

Inductive Platform : Type := Darwin | Linux.

Definition EAGAIN (p : Platform) : Z :=
  match p with Darwin => 35 | Linux => 11 end.
Definition EWOULDBLOCK (p : Platform) : Z := EAGAIN p.
Definition EBUSY : Z := 16.
Definition O_NONBLOCK (p : Platform) : Z :=
  match p with Darwin => 4 | Linux => 2048 end.
(** "For IPv6, the protocol family is AF_INET6 (30 on macOS)". *)
Definition AF_INET6 : Z := 30.
Definition IFF_TUN : Z := 1.
Definition IFF_NO_PI : Z := 4096.
Definition IFNAMSIZ : nat := 16.
Definition UV_READABLE : Z := 1.
Definition INT_MIN : Z := - 2 ^ 31.
Definition INT_MAX : Z := 2 ^ 31 - 1.

(** ** Calls that leave the add-on *)

Inductive Call : Type :=
| Csocket                                        (* socket(PF_SYSTEM, SOCK_DGRAM, SYSPROTO_CONTROL) *)
| Cioctl_CTLIOCGINFO (fd : Z)
| Cconnect (fd : Z) (sc_id : Z) (sc_unit : Z)
| Cgetsockopt_IFNAME (fd : Z)
| Cstat_dev_net_tun
| Copen_dev_net_tun
| Cioctl_TUNSETIFF (fd : Z) (ifr_name : string) (ifr_flags : Z)
| Cfcntl_GETFL (fd : Z)
| Cfcntl_SETFL (fd : Z) (flags : Z)
| Cread (fd : Z) (count : Z)
| Cwrite (fd : Z) (buf : list byte)
| Cclose (fd : Z)
| Ctsfn_New (t : nat) (callback : nat)
| Ctsfn_Release (t : nat)
| Ctsfn_BlockingCall (t : nat) (payload : list byte)
| Cnew_uv_poll (h : nat)
| Cuv_poll_init (h : nat) (fd : Z)
| Cuv_poll_start (h : nat)
| Cuv_poll_stop (h : nat)
| Cdelete_uv_poll (h : nat)
| Cfprintf_stderr (msg : string).

(** The answer to a call: its return value, the value it stores in [errno]
    (if it stores one), and what it writes through its out-parameters. *)
Record Reply : Type := mkReply {
  r_ret : Z;
  r_errno : option Z;
  r_bytes : list byte;
  r_str : string;
  r_id : Z
}.

Record Event : Type := mkEvent {
  ev_call : Call;
  ev_ret : Z;
  ev_errno : Z      (* errno once the call has returned *)
}.

Definition Oracle : Type := list Event -> Call -> Reply.

(** ** Process-wide state *)

Record World : Type := mkWorld {
  kernel : Oracle;
  strerror : Z -> string;
  uv_strerror : Z -> string;
  trace : list Event;
  errno : Z;
  g_shutdown_requested : bool;
  g_active_devices : list nat;
  next_id : nat
}.

Definition reply (c : Call) (w : World) : Reply := kernel w (trace w) c.

Definition errno_after (c : Call) (w : World) : Z :=
  match r_errno (reply c w) with
  | Some e => e
  | None => errno w
  end.

Definition event (c : Call) (w : World) : Event :=
  mkEvent c (r_ret (reply c w)) (errno_after c w).

(** The world once call [c] has returned. *)
Definition next (c : Call) (w : World) : World :=
  mkWorld (kernel w) (strerror w) (uv_strerror w)
          (trace w ++ [event c w]) (errno_after c w)
          (g_shutdown_requested w) (g_active_devices w) (next_id w).

(** Allocation of a fresh object identity ([make_unique],
    [ThreadSafeFunction::New]). *)
Definition bump (w : World) : World :=
  mkWorld (kernel w) (strerror w) (uv_strerror w) (trace w) (errno w)
          (g_shutdown_requested w) (g_active_devices w) (S (next_id w)).

(** ** FileDescriptor: the RAII wrapper *)

Module FileDescriptor.

Definition is_valid (fd : Z) : bool := 0 <=? fd.

(** [~FileDescriptor()] *)
Definition destroy (fd : Z) (w : World) : World :=
  if 0 <=? fd then next (Cclose fd) w else w.

(** [release()]: the old value and the new content. *)
Definition release (fd : Z) : Z * Z := (fd, -1).

(** [reset(fd)]: closes what is held, then stores the argument. *)
Definition reset (fd : Z) (new_fd : Z) (w : World) : Z * World :=
  (new_fd, if 0 <=? fd then next (Cclose fd) w else w).

(** [operator=(FileDescriptor&&)] for two distinct objects: the new content
    of the target, the new content of the source, the world. *)
Definition move_assign (fd : Z) (other : Z) (w : World) : Z * Z * World :=
  (other, -1, if 0 <=? fd then next (Cclose fd) w else w).

End FileDescriptor.

(** ** The device *)

Record TunDevice : Type := mkTunDevice {
  fd_ : Z;
  name_ : string;
  is_open_ : bool;
  poll_handle_ : option nat;
  tsfn_ : option nat
}.

(** [TunDevice::TunDevice] *)
Definition TunDevice_new (info : list JsValue) : TunDevice :=
  mkTunDevice (-1)
    (match info with
     | JsString s :: _ => s
     | _ => EmptyString
     end)
    false None None.

(** [RegisterDevice] and [UnregisterDevice]; [this] is the device's address. *)
Definition RegisterDevice (this : nat) (w : World) : World :=
  mkWorld (kernel w) (strerror w) (uv_strerror w) (trace w) (errno w)
          (g_shutdown_requested w) (g_active_devices w ++ [this]) (next_id w).

Definition UnregisterDevice (this : nat) (w : World) : World :=
  mkWorld (kernel w) (strerror w) (uv_strerror w) (trace w) (errno w)
          (g_shutdown_requested w)
          (filter (fun d => negb (Nat.eqb d this)) (g_active_devices w))
          (next_id w).

(** [StopPolling] *)
Definition StopPolling (d : TunDevice) (w : World) : TunDevice * World :=
  let w1 :=
    match poll_handle_ d with
    | Some h => next (Cdelete_uv_poll h) (next (Cuv_poll_stop h) w)
    | None => w
    end in
  let w2 :=
    match tsfn_ d with
    | Some t => next (Ctsfn_Release t) w1
    | None => w1
    end in
  (mkTunDevice (fd_ d) (name_ d) (is_open_ d) None None, w2).

(** [CloseInternal]: [is_open_.exchange(false)] guards the teardown. *)
Definition CloseInternal (d : TunDevice) (w : World) : TunDevice * World :=
  if is_open_ d then
    let '(d1, w1) := StopPolling (mkTunDevice (fd_ d) (name_ d) false
                                     (poll_handle_ d) (tsfn_ d)) w in
    let '(fd', w2) := FileDescriptor.reset (fd_ d1) (-1) w1 in
    (mkTunDevice fd' (name_ d1) (is_open_ d1) (poll_handle_ d1) (tsfn_ d1), w2)
  else (d, w).

(** [Close] *)
Definition Close (d : TunDevice) (w : World) : Outcome * TunDevice * World :=
  let '(d1, w1) := CloseInternal d w in
  (Returned (JsBoolean true), d1, w1).

(** [~TunDevice]: [CloseInternal], then the members' destructors; only
    [fd_]'s does anything. *)
Definition Destroy (d : TunDevice) (w : World) : World :=
  let '(d1, w1) := CloseInternal d w in
  FileDescriptor.destroy (fd_ d1) w1.

(** ** [Napi::String::New]: the bytes of a [std::string] read as UTF-8

    Well-formed sequences are kept; every maximal ill-formed part, a sequence
    cut short by the end of the string included, becomes U+FFFD. *)

(** U+FFFD in UTF-8. *)
Definition replacement : string :=
  String (ascii_of_nat 239) (String (ascii_of_nat 191)
    (String (ascii_of_nat 189) EmptyString)).

(** Inside a sequence: how many bytes are still to come, the range the next
    one must lie in, and the bytes read so far. *)
Definition Utf8State : Type := option (nat * nat * nat * string).

Definition utf8_lead (b : ascii) : string * Utf8State :=
  let n := nat_of_ascii b in
  let start k lo hi := (EmptyString, Some (k, lo, hi, String b EmptyString)) in
  if Nat.ltb n 128 then (String b EmptyString, None)
  else if Nat.leb 194 n && Nat.leb n 223 then start 1%nat 128%nat 191%nat
  else if Nat.eqb n 224 then start 2%nat 160%nat 191%nat
  else if Nat.leb 225 n && Nat.leb n 236 then start 2%nat 128%nat 191%nat
  else if Nat.eqb n 237 then start 2%nat 128%nat 159%nat
  else if Nat.leb 238 n && Nat.leb n 239 then start 2%nat 128%nat 191%nat
  else if Nat.eqb n 240 then start 3%nat 144%nat 191%nat
  else if Nat.leb 241 n && Nat.leb n 243 then start 3%nat 128%nat 191%nat
  else if Nat.eqb n 244 then start 3%nat 128%nat 143%nat
  else (replacement, None).

Definition utf8_step (st : Utf8State) (b : ascii) : string * Utf8State :=
  match st with
  | None => utf8_lead b
  | Some (k, lo, hi, seen) =>
      let n := nat_of_ascii b in
      if Nat.leb lo n && Nat.leb n hi then
        match k with
        | S (S k') =>
            (EmptyString, Some (S k', 128%nat, 191%nat, seen +++ String b EmptyString))
        | _ => (seen +++ String b EmptyString, None)
        end
      else
        let '(out, st') := utf8_lead b in (replacement +++ out, st')
  end.

Fixpoint utf8_scan (s : string) (st : Utf8State) : string :=
  match s with
  | EmptyString =>
      match st with
      | None => EmptyString
      | Some _ => replacement
      end
  | String b r =>
      let '(out, st') := utf8_step st b in out +++ utf8_scan r st'
  end.

Definition utf8_to_js (s : string) : string := utf8_scan s None.

(** [GetName], [GetFd] *)
Definition GetName (d : TunDevice) : Outcome :=
  Returned (JsString (utf8_to_js (name_ d))).
Definition GetFd (d : TunDevice) : Outcome := Returned (JsNumber (fd_ d)).

(** ** Strings of the C library *)

(** The C string held in a buffer: what precedes the first NUL. *)
Fixpoint c_str (s : string) : string :=
  match s with
  | EmptyString => EmptyString
  | String c r => if Ascii.eqb c zero then EmptyString else String c (c_str r)
  end.

Fixpoint string_take (n : nat) (s : string) : string :=
  match n, s with
  | S n', String c r => String c (string_take n' r)
  | _, _ => EmptyString
  end.

(** [s.substr(pos)] for [pos <= s.size()]. *)
Fixpoint substr (pos : nat) (s : string) : string :=
  match pos, s with
  | S p, String _ r => substr p r
  | _, _ => s
  end.

(** [s.find(pre) == 0] *)
Fixpoint starts_with (pre s : string) : bool :=
  match pre with
  | EmptyString => true
  | String a pre' =>
      match s with
      | EmptyString => false
      | String b s' => Ascii.eqb a b && starts_with pre' s'
      end
  end.

Definition isspace (c : ascii) : bool :=
  let n := nat_of_ascii c in
  Nat.eqb n 32 || (Nat.leb 9 n && Nat.leb n 13).

Fixpoint skip_space (s : string) : string :=
  match s with
  | String c r => if isspace c then skip_space r else s
  | EmptyString => EmptyString
  end.

Definition digit_of (c : ascii) : option Z :=
  let n := Z.of_nat (nat_of_ascii c) in
  if (48 <=? n) && (n <=? 57) then Some (n - 48) else None.

(** The longest decimal prefix; [None] when there is no digit. *)
Fixpoint read_digits (s : string) (acc : option Z) : option Z :=
  match s with
  | String c r =>
      match digit_of c with
      | Some v =>
          read_digits r (Some (10 * match acc with Some a => a | None => 0 end + v))
      | None => acc
      end
  | EmptyString => acc
  end.

(** [std::stoi]: [None] stands for both exceptions ([invalid_argument],
    [out_of_range]). *)
Definition stoi (s : string) : option Z :=
  let s1 := skip_space s in
  let '(neg, s2) :=
    match s1 with
    | String "-" r => (true, r)
    | String "+" r => (false, r)
    | _ => (false, s1)
    end in
  match read_digits s2 None with
  | None => None
  | Some v =>
      let x := if neg : bool then - v else v in
      if (INT_MIN <=? x) && (x <=? INT_MAX) then Some x else None
  end.

(** [int] addition as the hardware does it. *)
Definition wrap_int (z : Z) : Z := (z + 2 ^ 31) mod 2 ^ 32 - 2 ^ 31.

(** "Parse utun number if provided, otherwise use a default": the value of
    [utun_unit] before the connect. *)
Definition utun_unit_of (name : string) : Z :=
  if negb (String.eqb name EmptyString) && starts_with "utun" name then
    match stoi (substr 4 name) with
    | Some v => wrap_int (v + 1)
    | None => 0
    end
  else 0.

(** ** Open *)

(** An error return while [temp_fd] is in scope: the exception is raised
    first, the temporary's destructor runs on the way out. *)
Definition open_fail (msg : string) (temp_fd : Z) (d : TunDevice) (w : World)
  : Outcome * TunDevice * World :=
  (Thrown JsError msg, d, FileDescriptor.destroy temp_fd w).

Definition set_name (d : TunDevice) (n : string) : TunDevice :=
  mkTunDevice (fd_ d) n (is_open_ d) (poll_handle_ d) (tsfn_ d).

Definition no_utun_msg : string := "Could not find an available utun device".
Definition connect_msg : string := "Failed to connect to utun control socket: ".

(** "Find the first available unit": the [for] loop over [sc.sc_unit];
    [None] is [connected == true]. *)
Fixpoint scan_units (fuel : nat) (sc_unit : Z) (fd sc_id : Z) (w : World)
  : option string * World :=
  match fuel with
  | O => (Some no_utun_msg, w)
  | S fuel' =>
      if sc_unit <? 255 then
        let c := Cconnect fd sc_id sc_unit in
        let w1 := next c w in
        if r_ret (reply c w) =? 0 then (None, w1)
        else if negb (errno w1 =? EBUSY) then
          (Some (connect_msg +++ strerror w1 (errno w1)), w1)
        else scan_units fuel' (sc_unit + 1) fd sc_id w1
      else (Some no_utun_msg, w)
  end.

(** The connect of lines 233-261: the requested unit, or the scan. *)
Definition connect_utun (name : string) (fd sc_id : Z) (w : World)
  : option string * World :=
  let utun_unit := utun_unit_of name in
  if 0 <? utun_unit then
    let c := Cconnect fd sc_id utun_unit in
    let w1 := next c w in
    if r_ret (reply c w) <? 0 then
      (Some ("Failed to connect to utun control socket with specified unit: "
               +++ strerror w1 (errno w1)), w1)
    else (None, w1)
  else scan_units 254 1 fd sc_id w.

(** "Set non-blocking mode" and "Transfer ownership to member variable". *)
Definition open_finish (p : Platform) (temp_fd : Z) (d : TunDevice) (w : World)
  : Outcome * TunDevice * World :=
  let c1 := Cfcntl_GETFL temp_fd in
  let flags := r_ret (reply c1 w) in
  let w1 := next c1 w in
  if flags <? 0 then
    open_fail ("Failed to get file descriptor flags: " +++ strerror w1 (errno w1))
              temp_fd d w1
  else
    let c2 := Cfcntl_SETFL temp_fd (Z.lor flags (O_NONBLOCK p)) in
    let w2 := next c2 w1 in
    if r_ret (reply c2 w1) <? 0 then
      open_fail ("Failed to set non-blocking mode: " +++ strerror w2 (errno w2))
                temp_fd d w2
    else
      let '(fd', temp', w3) := FileDescriptor.move_assign (fd_ d) temp_fd w2 in
      (Returned (JsBoolean true),
       mkTunDevice fd' (name_ d) true (poll_handle_ d) (tsfn_ d),
       FileDescriptor.destroy temp' w3).

Definition open_darwin (d : TunDevice) (w : World) : Outcome * TunDevice * World :=
  let temp_fd := r_ret (reply Csocket w) in
  let w1 := next Csocket w in
  if negb (FileDescriptor.is_valid temp_fd) then
    open_fail ("Failed to create control socket: " +++ strerror w1 (errno w1))
              temp_fd d w1
  else
    let c2 := Cioctl_CTLIOCGINFO temp_fd in
    let w2 := next c2 w1 in
    if r_ret (reply c2 w1) <? 0 then
      open_fail ("Failed to get utun control info: " +++ strerror w2 (errno w2))
                temp_fd d w2
    else
      let sc_id := r_id (reply c2 w1) in
      match connect_utun (name_ d) temp_fd sc_id w2 with
      | (Some msg, w3) => open_fail msg temp_fd d w3
      | (None, w3) =>
          let c4 := Cgetsockopt_IFNAME temp_fd in
          let w4 := next c4 w3 in
          if r_ret (reply c4 w3) <? 0 then
            open_fail ("Failed to get utun interface name: "
                         +++ strerror w4 (errno w4)) temp_fd d w4
          else
            open_finish Darwin temp_fd
              (set_name d (c_str (r_str (reply c4 w3)))) w4
      end.

Definition no_tun_msg : string :=
  "TUN/TAP device not available: /dev/net/tun does not exist. "
  +++ "Please ensure the TUN/TAP kernel module is loaded (modprobe tun).".

Definition open_linux (d : TunDevice) (w : World) : Outcome * TunDevice * World :=
  let w1 := next Cstat_dev_net_tun w in
  if negb (r_ret (reply Cstat_dev_net_tun w) =? 0) then
    (Thrown JsError no_tun_msg, d, w1)
  else
    let temp_fd := r_ret (reply Copen_dev_net_tun w1) in
    let w2 := next Copen_dev_net_tun w1 in
    if negb (FileDescriptor.is_valid temp_fd) then
      open_fail ("Failed to open /dev/net/tun: " +++ strerror w2 (errno w2)
                   +++ ". This usually means you don't have sufficient permissions. "
                   +++ "Try running with sudo or add your user to the 'tun' group.")
                temp_fd d w2
    else
      let ifr_name :=
        if negb (String.eqb (name_ d) EmptyString)
        then string_take (IFNAMSIZ - 1) (c_str (name_ d))
        else EmptyString in
      let c3 := Cioctl_TUNSETIFF temp_fd ifr_name (Z.lor IFF_TUN IFF_NO_PI) in
      let w3 := next c3 w2 in
      if r_ret (reply c3 w2) <? 0 then
        open_fail ("Failed to configure TUN device: " +++ strerror w3 (errno w3))
                  temp_fd d w3
      else
        open_finish Linux temp_fd (set_name d (c_str (r_str (reply c3 w2)))) w3.

(** [TunDevice::Open] *)
Definition Open (p : Platform) (d : TunDevice) (w : World)
  : Outcome * TunDevice * World :=
  if is_open_ d then (Returned (JsBoolean true), d, w)
  else if g_shutdown_requested w then
    (Thrown JsError "Shutdown in progress", d, w)
  else
    match p with
    | Darwin => open_darwin d w
    | Linux => open_linux d w
    end.

(** ** Buffers *)

(** A buffer after the kernel stored [data] at its start. *)
Definition overwrite (buf data : list byte) : list byte :=
  let written := firstn (List.length buf) data in
  written ++ skipn (List.length written) buf.

(** The content of a zero-filled buffer of [size] bytes once [read] has
    returned [r]: the kernel stores [r_ret r] bytes. *)
Definition buffer_after_read (size : Z) (r : Reply) : list byte :=
  overwrite (repeat x00 (Z.to_nat size))
            (firstn (Z.to_nat (r_ret r)) (r_bytes r)).

Definition byte_of_Z (z : Z) : byte :=
  match Byte.of_N (Z.to_N (z mod 256)) with
  | Some b => b
  | None => x00
  end.

(** The four bytes [memcpy] finds in [htonl(v)]. *)
Definition htonl_bytes (v : Z) : list byte :=
  [byte_of_Z (Z.shiftr v 24); byte_of_Z (Z.shiftr v 16);
   byte_of_Z (Z.shiftr v 8); byte_of_Z v].

Definition would_block (p : Platform) (e : Z) : bool :=
  (e =? EAGAIN p) || (e =? EWOULDBLOCK p).

Definition device_usable (d : TunDevice) : bool :=
  is_open_ d && FileDescriptor.is_valid (fd_ d).

(** ** Read *)

Definition read_darwin (d : TunDevice) (buffer_size : Z) (w : World)
  : Outcome * World :=
  let c := Cread (fd_ d) (buffer_size + 4) in
  let r := reply c w in
  let w1 := next c w in
  let tmp_buffer := buffer_after_read (buffer_size + 4) r in
  let bytes_read := r_ret r in
  if bytes_read <=? 0 then
    if would_block Darwin (errno w1) then (Returned (JsBuffer []), w1)
    else (Thrown JsError ("Read error: " +++ strerror w1 (errno w1)), w1)
  else if 4 <? bytes_read then
    (Returned (JsBuffer (firstn (Z.to_nat (bytes_read - 4)) (skipn 4 tmp_buffer))), w1)
  else (Returned (JsBuffer []), w1).

Definition read_linux (d : TunDevice) (buffer_size : Z) (w : World)
  : Outcome * World :=
  let c := Cread (fd_ d) buffer_size in
  let r := reply c w in
  let w1 := next c w in
  let data := buffer_after_read buffer_size r in
  let bytes_read := r_ret r in
  if bytes_read <? 0 then
    if would_block Linux (errno w1) then (Returned (JsBuffer []), w1)
    else (Thrown JsError ("Read error: " +++ strerror w1 (errno w1)), w1)
  else (Returned (JsBuffer (firstn (Z.to_nat bytes_read) data)), w1).

(** "Read buffer size": 4096 unless the first argument is a number. *)
Definition buffer_size_of (info : list JsValue) : Z :=
  if (0 <? Z.of_nat (List.length info)) && IsNumber (info0 info)
  then Uint32Value (info0 info) else 4096.

(** [TunDevice::Read] *)
Definition Read (p : Platform) (d : TunDevice) (info : list JsValue) (w : World)
  : Outcome * World :=
  if negb (is_open_ d) || negb (FileDescriptor.is_valid (fd_ d)) then
    (Thrown JsError "Device not open", w)
  else if g_shutdown_requested w then (Returned (JsBuffer []), w)
  else
    let buffer_size := buffer_size_of info in
    match p with
    | Darwin => read_darwin d buffer_size w
    | Linux => read_linux d buffer_size w
    end.

(** ** Write *)

Definition write_darwin (d : TunDevice) (data : list byte) (w : World)
  : Outcome * World :=
  let tmp_buffer := htonl_bytes AF_INET6 ++ data in
  let c := Cwrite (fd_ d) tmp_buffer in
  let bytes_written := r_ret (reply c w) in
  let w1 := next c w in
  if bytes_written <? 0 then
    (Thrown JsError ("Write error: " +++ strerror w1 (errno w1)), w1)
  else
    (Returned (JsNumber (if 4 <? bytes_written then bytes_written - 4 else 0)), w1).

Definition write_linux (d : TunDevice) (data : list byte) (w : World)
  : Outcome * World :=
  let c := Cwrite (fd_ d) data in
  let bytes_written := r_ret (reply c w) in
  let w1 := next c w in
  if bytes_written <? 0 then
    (Thrown JsError ("Write error: " +++ strerror w1 (errno w1)), w1)
  else (Returned (JsNumber bytes_written), w1).

(** [TunDevice::Write] *)
Definition Write (p : Platform) (d : TunDevice) (info : list JsValue) (w : World)
  : Outcome * World :=
  if negb (is_open_ d) || negb (FileDescriptor.is_valid (fd_ d)) then
    (Thrown JsError "Device not open", w)
  else if g_shutdown_requested w then
    (Thrown JsError "Shutdown in progress", w)
  else
    match info with
    | JsBuffer data :: _ =>
        match p with
        | Darwin => write_darwin d data w
        | Linux => write_linux d data w
        end
    | _ => (Thrown JsTypeError "Expected buffer as first argument", w)
    end.

(** ** Polling *)

Definition set_tsfn (d : TunDevice) (t : option nat) : TunDevice :=
  mkTunDevice (fd_ d) (name_ d) (is_open_ d) (poll_handle_ d) t.

Definition set_poll_handle (d : TunDevice) (h : option nat) : TunDevice :=
  mkTunDevice (fd_ d) (name_ d) (is_open_ d) h (tsfn_ d).

(** [TunDevice::StartPolling]; on the two error returns the [unique_ptr]
    frees the handle, and [tsfn_] keeps the new function. *)
Definition StartPolling (d : TunDevice) (info : list JsValue) (w : World)
  : Outcome * TunDevice * World :=
  if negb (is_open_ d) || negb (FileDescriptor.is_valid (fd_ d)) then
    (Thrown JsError "Device not open", d, w)
  else
    match info0 info with
    | JsFunction cb =>
        let '(d1, w1) := StopPolling d w in
        let t := next_id w1 in
        let w2 := next (Ctsfn_New t cb) (bump w1) in
        let d2 := set_tsfn d1 (Some t) in
        let h := next_id w2 in
        let w3 := next (Cnew_uv_poll h) (bump w2) in
        let c4 := Cuv_poll_init h (fd_ d2) in
        let w4 := next c4 w3 in
        if negb (r_ret (reply c4 w3) =? 0) then
          (Thrown JsError "Failed to initialize poll handle", d2,
           next (Cdelete_uv_poll h) w4)
        else
          let c5 := Cuv_poll_start h in
          let w5 := next c5 w4 in
          if negb (r_ret (reply c5 w4) =? 0) then
            (Thrown JsError "Failed to start polling", d2,
             next (Cdelete_uv_poll h) w5)
          else (Returned JsUndefined, set_poll_handle d2 (Some h), w5)
    | _ => (Thrown JsTypeError "Expected function as first argument", d, w)
    end.

Definition newline : string := String (ascii_of_nat 10) EmptyString.

(** How a callback of the loop ends: it returns, or the process is aborted. *)
Inductive Completion : Type :=
| Completed (w : World)
| ProcessAborted (w : World).

Definition world_of (c : Completion) : World :=
  match c with
  | Completed w | ProcessAborted w => w
  end.

(** [tsfn_.BlockingCall(...)]: on an empty [ThreadSafeFunction] N-API checks
    its argument and aborts. *)
Definition BlockingCall (tsfn : option nat) (payload : list byte) (w : World)
  : Completion :=
  match tsfn with
  | Some t => Completed (next (Ctsfn_BlockingCall t payload) w)
  | None => ProcessAborted w
  end.

(** [TunDevice::PollCallback], run by the loop with [handle->data == self]. *)
Definition PollCallback (p : Platform) (self : TunDevice) (status events : Z)
                        (w : World) : Completion :=
  if status <? 0 then
    Completed
      (next (Cfprintf_stderr ("tuntap poll error: " +++ uv_strerror w status +++ newline)) w)
  else if Z.land events UV_READABLE =? 0 then Completed w
  else if negb (is_open_ self) || negb (FileDescriptor.is_valid (fd_ self))
  then Completed w
  else
    let c := Cread (fd_ self) 4096 in
    let r := reply c w in
    let w1 := next c w in
    let buffer := buffer_after_read 4096 r in
    let bytes_read := r_ret r in
    if bytes_read <=? 0 then
      if negb (would_block p (errno w1))
      then Completed
             (next (Cfprintf_stderr
                      ("tuntap read error: " +++ strerror w1 (errno w1) +++ newline)) w1)
      else Completed w1
    else
      match p with
      | Darwin =>
          if 4 <? bytes_read then
            BlockingCall (tsfn_ self)
              (firstn (Z.to_nat (bytes_read - 4)) (skipn 4 buffer)) w1
          else Completed w1
      | Linux =>
          BlockingCall (tsfn_ self) (firstn (Z.to_nat bytes_read) buffer) w1
      end.

(** ** Sequences of calls on one device *)

Inductive Op : Type :=
| OpOpen
| OpClose
| OpRead (info : list JsValue)
| OpWrite (info : list JsValue)
| OpGetName
| OpGetFd
| OpStartPolling (info : list JsValue)
| OpPoll (status events : Z).

Definition step (p : Platform) (o : Op) (d : TunDevice) (w : World)
  : Outcome * TunDevice * World :=
  match o with
  | OpOpen => Open p d w
  | OpClose => Close d w
  | OpRead info => let '(r, w1) := Read p d info w in (r, d, w1)
  | OpWrite info => let '(r, w1) := Write p d info w in (r, d, w1)
  | OpGetName => (GetName d, d, w)
  | OpGetFd => (GetFd d, d, w)
  | OpStartPolling info => StartPolling d info w
  | OpPoll status events =>
      (* the loop runs the callback of a started handle only *)
      match poll_handle_ d with
      | Some _ =>
          match PollCallback p d status events w with
          | Completed w1 => (Returned JsUndefined, d, w1)
          | ProcessAborted w1 => (Aborted, d, w1)
          end
      | None => (Returned JsUndefined, d, w)
      end
  end.

Definition is_aborted (r : Outcome) : bool :=
  match r with Aborted => true | _ => false end.

(** The outcomes, in order, and the final state; nothing runs once the
    process is aborted. *)
Fixpoint run (p : Platform) (ops : list Op) (d : TunDevice) (w : World)
  : list Outcome * TunDevice * World :=
  match ops with
  | [] => ([], d, w)
  | o :: rest =>
      let '(r, d1, w1) := step p o d w in
      if is_aborted r then ([r], d1, w1)
      else
        let '(rs, d2, w2) := run p rest d1 w1 in
        (r :: rs, d2, w2)
  end.


(** ** Measures on traces *)

Definition events_since (w w' : World) : list Event :=
  skipn (List.length (trace w)) (trace w').

Definition closes (fd : Z) (e : Event) : bool :=
  match ev_call e with
  | Cclose g => g =? fd
  | _ => false
  end.

Definition acquires (fd : Z) (e : Event) : bool :=
  match ev_call e with
  | Csocket | Copen_dev_net_tun => (0 <=? ev_ret e) && (ev_ret e =? fd)
  | _ => false
  end.

(** How many times [close(fd)] was called. *)
Definition close_count (fd : Z) (tr : list Event) : nat :=
  List.length (filter (closes fd) tr).

(** How many times the kernel handed out [fd] ([socket], [open]). *)
Definition acquire_count (fd : Z) (tr : list Event) : nat :=
  List.length (filter (acquires fd) tr).

(** Handles of number [fd] handed out and not closed. *)
Definition held (fd : Z) (tr : list Event) : Z :=
  Z.of_nat (acquire_count fd tr) - Z.of_nat (close_count fd tr).

Definition held_delta (fd : Z) (e : Event) : Z :=
  (if acquires fd e then 1 else 0) - (if closes fd e then 1 else 0).

Definition remove_id (x : nat) (l : list nat) : list nat :=
  filter (fun y => negb (Nat.eqb y x)) l.

(** Thread-safe functions created and not yet released, oldest first. *)
Definition tsfn_step (live : list nat) (e : Event) : list nat :=
  match ev_call e with
  | Ctsfn_New t _ => live ++ [t]
  | Ctsfn_Release t => remove_id t live
  | _ => live
  end.
Definition live_tsfns (tr : list Event) : list nat := fold_left tsfn_step tr [].

(** Poll handles allocated and not yet deleted. *)
Definition poll_step (live : list nat) (e : Event) : list nat :=
  match ev_call e with
  | Cnew_uv_poll h => live ++ [h]
  | Cdelete_uv_poll h => remove_id h live
  | _ => live
  end.
Definition live_polls (tr : list Event) : list nat := fold_left poll_step tr [].

(** Poll handles started on the loop and not yet stopped or deleted. *)
Definition active_step (act : list nat) (e : Event) : list nat :=
  match ev_call e with
  | Cuv_poll_start h => if ev_ret e =? 0 then act ++ [h] else act
  | Cuv_poll_stop h | Cdelete_uv_poll h => remove_id h act
  | _ => act
  end.
Definition active_polls (tr : list Event) : list nat := fold_left active_step tr [].

(** ** Sample kernels, for evaluating the add-on *)

Definition ok_reply (ret : Z) : Reply := mkReply ret None [] EmptyString 0.
Definition err_reply (e : Z) : Reply := mkReply (-1) (Some e) [] EmptyString 0.

(** A kernel with nothing to read: units 1 and 2 of utun are busy, the
    interface is named after the request or "tun0", [read] would block. *)
Definition quiet_kernel (p : Platform) : Oracle :=
  fun _ c =>
    match c with
    | Csocket | Copen_dev_net_tun => ok_reply 5
    | Cioctl_CTLIOCGINFO _ => mkReply 0 None [] EmptyString 7
    | Cconnect _ _ u => if u <? 3 then err_reply EBUSY else ok_reply 0
    | Cgetsockopt_IFNAME _ => mkReply 0 None [] "utun2" 0
    | Cioctl_TUNSETIFF _ n _ =>
        mkReply 0 None []
                (if String.eqb (c_str n) EmptyString then "tun0" else c_str n) 0
    | Cfcntl_GETFL _ => ok_reply 2
    | Cread _ _ => err_reply (EAGAIN p)
    | Cwrite _ buf => ok_reply (Z.of_nat (List.length buf))
    | _ => ok_reply 0
    end.

(** The same kernel, except that [read] returns 0 and leaves [errno] alone. *)
Definition eof_kernel (p : Platform) : Oracle :=
  fun tr c =>
    match c with
    | Cread _ _ => ok_reply 0
    | _ => quiet_kernel p tr c
    end.

(** The same kernel, except that [F_GETFL] fails with [EBADF]. *)
Definition getfl_fails_kernel (p : Platform) : Oracle :=
  fun tr c =>
    match c with
    | Cfcntl_GETFL _ => err_reply 9
    | _ => quiet_kernel p tr c
    end.

(** A kernel on which every utun unit is busy but unit 255. *)
Definition unit255_kernel : Oracle :=
  fun tr c =>
    match c with
    | Cconnect _ _ u => if u =? 255 then ok_reply 0 else err_reply EBUSY
    | _ => quiet_kernel Darwin tr c
    end.

(** A kernel that delivers one framed packet on every [read]. *)
Definition packet_kernel (p : Platform) (packet : list byte) : Oracle :=
  fun tr c =>
    match c with
    | Cread _ _ => mkReply (Z.of_nat (List.length packet)) None packet EmptyString 0
    | _ => quiet_kernel p tr c
    end.

Definition sample_strerror (e : Z) : string :=
  if e =? 9 then "Bad file descriptor"
  else if e =? 16 then "Resource busy"
  else "Unknown error".

Definition boot (k : Oracle) : World :=
  mkWorld k sample_strerror sample_strerror [] 0 false [] 0.

Definition shutting_down (w : World) : World :=
  mkWorld (kernel w) (strerror w) (uv_strerror w) (trace w) (errno w) true
          (g_active_devices w) (next_id w).

(** An open device as [Open] leaves it on the sample kernels. *)
Definition open_device : TunDevice := mkTunDevice 5 "tun0" true None None.

(** ** Vocabulary for statements about traces *)



(** The two errors of "Set non-blocking mode". *)
Definition nonblocking_failure (msg : string) : bool :=
  starts_with "Failed to get file descriptor flags: " msg
  || starts_with "Failed to set non-blocking mode: " msg.

(** "On failure raises error, no state change", read literally. *)
Definition failed_open_changes_nothing : Prop :=
  forall p d w k msg d' w',
    is_open_ d = false ->
    Open p d w = (Thrown k msg, d', w') ->
    d' = d.

(** "A device's handle is valid if and only if [is_open_] is true": the
    handle is a descriptor while the device is open and -1 otherwise. *)
Definition handle_invariant (d : TunDevice) : Prop :=
  if is_open_ d then 0 <= fd_ d else fd_ d = -1.

Definition closed_ok : Outcome := Returned (JsBoolean true).

Definition option_list {A : Type} (o : option A) : list A :=
  match o with
  | Some x => [x]
  | None => []
  end.

(** The device's fields name every live channel and registration. *)
Definition polling_invariant (d : TunDevice) (w : World) : Prop :=
  live_tsfns (trace w) = option_list (tsfn_ d) /\
  live_polls (trace w) = option_list (poll_handle_ d) /\
  active_polls (trace w) = option_list (poll_handle_ d).

(** At most one channel and one registration. *)
Definition at_most_one_live (tr : list Event) : Prop :=
  (List.length (live_tsfns tr) <= 1)%nat /\
  (List.length (live_polls tr) <= 1)%nat /\
  (List.length (active_polls tr) <= 1)%nat.

(** [P] holds of the trace at every moment from [w] to [w']. *)
Definition always_between (P : list Event -> Prop) (w w' : World) : Prop :=
  forall tr1 tr2, trace w' = trace w ++ tr1 ++ tr2 -> P (trace w ++ tr1).

Definition polling_ok : Outcome := Returned JsUndefined.

(** The three lists of live objects of a trace. *)
Definition live_state (tr : list Event) (tsfns polls active : list nat) : Prop :=
  live_tsfns tr = tsfns /\ live_polls tr = polls /\ active_polls tr = active.

(** What no operation of the device touches: the kernel, the C library and
    the two globals. *)
Definition frame (w w' : World) : Prop :=
  kernel w' = kernel w /\ strerror w' = strerror w /\
  g_shutdown_requested w' = g_shutdown_requested w /\
  g_active_devices w' = g_active_devices w.

Definition names_interface (c : Call) : bool :=
  match c with
  | Cgetsockopt_IFNAME _ | Cioctl_TUNSETIFF _ _ _ => true
  | _ => false
  end.

(** A kernel whose successful name query (utun) and configure ioctl (Linux)
    leave a non-empty interface name in the caller's buffer. *)
Definition kernel_names_interfaces (k : Oracle) : Prop :=
  forall tr c, names_interface c = true -> 0 <= r_ret (k tr c) ->
               c_str (r_str (k tr c)) <> EmptyString.



(** The calls that create or release a channel or a registration. *)
Definition touches_polling (c : Call) : bool :=
  match c with
  | Ctsfn_New _ _ | Ctsfn_Release _ | Cnew_uv_poll _
  | Cuv_poll_start _ | Cuv_poll_stop _ | Cdelete_uv_poll _ => true
  | _ => false
  end.

(** The same channels and registrations are live in [w'] as in [w]. *)
Definition same_live (w w' : World) : Prop :=
  live_tsfns (trace w') = live_tsfns (trace w) /\
  live_polls (trace w') = live_polls (trace w) /\
  active_polls (trace w') = active_polls (trace w).

(** A loop on which no handle can be started. *)
Definition no_poll_kernel : Oracle :=
  fun tr c =>
    match c with
    | Cuv_poll_start _ => ok_reply (-22)
    | _ => quiet_kernel Linux tr c
    end.

(** What [StopPolling] calls, in order. *)
Definition stop_calls (d : TunDevice) : list Call :=
  match poll_handle_ d with
  | Some h => [Cuv_poll_stop h; Cdelete_uv_poll h]
  | None => []
  end
  ++ match tsfn_ d with
     | Some t => [Ctsfn_Release t]
     | None => []
     end.

(** ** Vocabulary for the further properties *)

(** From [w] to [w'] the trace grew by calls that satisfy [P]. *)
Definition adds (P : Call -> Prop) (w w' : World) : Prop :=
  exists evs, trace w' = trace w ++ evs /\ Forall (fun e => P (ev_call e)) evs.

(** The calls [Open] may make on platform [p] for device [d]. *)
Definition open_call (p : Platform) (d : TunDevice) (c : Call) : Prop :=
  match c with
  | Csocket | Cioctl_CTLIOCGINFO _ | Cgetsockopt_IFNAME _ => p = Darwin
  | Cconnect _ _ sc_unit => p = Darwin /\ 1 <= sc_unit
  | Cstat_dev_net_tun | Copen_dev_net_tun => p = Linux
  | Cioctl_TUNSETIFF _ ifr_name ifr_flags =>
      p = Linux /\
      ifr_name = string_take 15 (c_str (name_ d)) /\
      (String.length ifr_name <= 15)%nat /\
      ifr_flags = 4097
  | Cfcntl_GETFL _ | Cclose _ => True
  | Cfcntl_SETFL _ flags => Z.land flags (O_NONBLOCK p) = O_NONBLOCK p
  | _ => False
  end.

(** The calls of [Read], [Write], [StartPolling] and [PollCallback] on [d]. *)
Definition io_call (d : TunDevice) (c : Call) : Prop :=
  match c with
  | Cread fd count => fd = fd_ d /\ 0 <= count
  | Cwrite fd _ => fd = fd_ d
  | Cuv_poll_init _ fd => fd = fd_ d
  | Ctsfn_New _ _ | Ctsfn_Release _ | Ctsfn_BlockingCall _ _
  | Cnew_uv_poll _ | Cuv_poll_start _ | Cuv_poll_stop _ | Cdelete_uv_poll _
  | Cfprintf_stderr _ => True
  | _ => False
  end.

Definition is_open_or_close (o : Op) : bool :=
  match o with OpOpen | OpClose => true | _ => false end.

Definition is_open_op (o : Op) : bool :=
  match o with OpOpen => true | _ => false end.

(** The decimal numeral with the digits [ds], most significant first. *)
Fixpoint digits_string (ds : list nat) : string :=
  match ds with
  | [] => EmptyString
  | n :: rest => String (ascii_of_nat (48 + n)) (digits_string rest)
  end.

Definition digits_value (ds : list nat) : Z :=
  fold_left (fun a n => 10 * a + Z.of_nat n) ds 0.

(** The calls of "Set non-blocking mode" and of the hand-over of the handle. *)
Definition finish_call (p : Platform) (c : Call) : Prop :=
  match c with
  | Cfcntl_GETFL _ | Cclose _ => True
  | Cfcntl_SETFL _ flags => Z.land flags (O_NONBLOCK p) = O_NONBLOCK p
  | _ => False
  end.

Definition no_open (ops : list Op) : bool :=
  forallb (fun o => negb (is_open_op o)) ops.

(** "A poll registration exists only while the device is open." *)
Definition polling_only_while_open (d : TunDevice) : Prop :=
  is_open_ d = false -> poll_handle_ d = None /\ tsfn_ d = None.

(** A kernel without the tunnel device node. *)
Definition no_tun_kernel : Oracle :=
  fun tr c =>
    match c with
    | Cstat_dev_net_tun => err_reply 2
    | _ => quiet_kernel Linux tr c
    end.

(** A kernel that refuses to open the tunnel device node. *)
Definition no_permission_kernel : Oracle :=
  fun tr c =>
    match c with
    | Copen_dev_net_tun => err_reply 13
    | _ => quiet_kernel Linux tr c
    end.

Definition permission_hint : string :=
  ". This usually means you don't have sufficient permissions. "
  +++ "Try running with sudo or add your user to the 'tun' group.".

(** A device that polls: [open_device] after a [StartPolling] with the
    JavaScript function 10, on the kernel [k] from boot. *)
Definition polling_start (k : Oracle) : Outcome * TunDevice * World :=
  StartPolling open_device [JsFunction 10] (boot k).

Definition polling_device (k : Oracle) : TunDevice := snd (fst (polling_start k)).

Definition polling_world (k : Oracle) : World := snd (polling_start k).

(** Every character is below 128. *)
Fixpoint seven_bit (s : string) : bool :=
  match s with
  | EmptyString => true
  | String b r => Nat.ltb (nat_of_ascii b) 128 && seven_bit r
  end.

(** A step of [Open] that failed, the connect phase apart: [socket], [open],
    the ioctls, [getsockopt] and [fcntl] fail with a negative return, [stat]
    with a non-zero one. *)
Definition step_failed (e : Event) : bool :=
  match ev_call e with
  | Csocket | Copen_dev_net_tun | Cioctl_CTLIOCGINFO _ | Cgetsockopt_IFNAME _
  | Cioctl_TUNSETIFF _ _ _ | Cfcntl_GETFL _ | Cfcntl_SETFL _ _ => ev_ret e <? 0
  | Cstat_dev_net_tun => negb (ev_ret e =? 0)
  | _ => false
  end.

(** The two calls of "Set non-blocking mode". *)
Definition sets_nonblocking (c : Call) : bool :=
  match c with
  | Cfcntl_GETFL _ | Cfcntl_SETFL _ _ => true
  | _ => false
  end.

(** From [w] to [w'] the trace grew by events that satisfy [P]. *)
Definition grows_by (P : Event -> Prop) (w w' : World) : Prop :=
  exists evs, trace w' = trace w ++ evs /\ Forall P evs.

(** [d'] is [d] under the name the kernel stored at a successful name query
    (utun) or configure ioctl (Linux) made between [w] and [w']. *)
Definition renamed_by_kernel (d d' : TunDevice) (w w' : World) : Prop :=
  exists (w0 : World) (c : Call) (pre post : list Event),
    names_interface c = true /\ kernel w0 = kernel w /\
    trace w0 = trace w ++ pre /\ trace w' = trace w0 ++ event c w0 :: post /\
    0 <= r_ret (reply c w0) /\
    d' = set_name d (c_str (r_str (reply c w0))).

(** [remove_id] of an identity that may be absent. *)
Definition remove_opt (o : option nat) (l : list nat) : list nat :=
  match o with
  | Some x => remove_id x l
  | None => l
  end.

(** Allocation hands out identities nothing else has: every handle and
    function that the device names or that is live was numbered before the
    next one to come. *)
Definition ids_fresh (d : TunDevice) (w : World) : Prop :=
  Forall (fun i => (i < next_id w)%nat)
         (option_list (tsfn_ d) ++ option_list (poll_handle_ d) ++
          live_tsfns (trace w) ++ live_polls (trace w) ++ active_polls (trace w)).

(** The calls of successive [StartPolling] calls with the callbacks [cbs] on
    device [d], the first of which allocates the identities [n] and [n + 1]:
    each one stops and releases what the device holds, then creates a
    function and a handle and starts the handle on the device's descriptor. *)
Fixpoint restart_calls (d : TunDevice) (n : nat) (cbs : list nat) : list Call :=
  match cbs with
  | [] => []
  | cb :: rest =>
      stop_calls d
      ++ [Ctsfn_New n cb; Cnew_uv_poll (S n);
          Cuv_poll_init (S n) (fd_ d); Cuv_poll_start (S n)]
      ++ restart_calls (set_poll_handle (set_tsfn d (Some n)) (Some (S n)))
                       (S (S n)) rest
  end.

(** A kernel whose configure ioctl succeeds and leaves [ifr_name] empty. *)
Definition nameless_kernel : Oracle :=
  fun tr c =>
    match c with
    | Cioctl_TUNSETIFF _ _ _ => ok_reply 0
    | _ => quiet_kernel Linux tr c
    end.


(** The identity a call brings into use, if any, is below [n]. *)
Definition call_id_below (n : nat) (c : Call) : Prop :=
  match c with
  | Ctsfn_New i _ | Cnew_uv_poll i | Cuv_poll_start i => (i < n)%nat
  | _ => True
  end.

(** Everything live in the trace is numbered below [n]. *)
Definition live_below (n : nat) (tr : list Event) : Prop :=
  Forall (fun i => (i < n)%nat) (live_tsfns tr) /\
  Forall (fun i => (i < n)%nat) (live_polls tr) /\
  Forall (fun i => (i < n)%nat) (active_polls tr).


(** * Properties *)

(** ** What a call changes in the world *)

Lemma trace_next c w : trace (next c w) = trace w ++ [event c w].
Proof. reflexivity. Qed.

Lemma events_since_refl w : events_since w w = [].
Proof. unfold events_since. apply skipn_all. Qed.

Lemma events_since_app w w' evs :
  trace w' = trace w ++ evs -> events_since w w' = evs.
Proof.
  intros H. unfold events_since. rewrite H.
  rewrite skipn_app, skipn_all, Nat.sub_diag. reflexivity.
Qed.

Lemma events_since_next c w : events_since w (next c w) = [event c w].
Proof. apply events_since_app. reflexivity. Qed.

Lemma device_usable_true d :
  device_usable d = true ->
  is_open_ d = true /\ FileDescriptor.is_valid (fd_ d) = true.
Proof. unfold device_usable. intros H. apply andb_prop in H. exact H. Qed.

Lemma usable_guard d :
  device_usable d = true ->
  negb (is_open_ d) || negb (FileDescriptor.is_valid (fd_ d)) = false.
Proof.
  intros H. destruct (device_usable_true d H) as [Ho Hv].
  rewrite Ho, Hv. reflexivity.
Qed.

(** ** Only a callback of the loop can end in an abort *)

(** Case split on what a callback of the loop does to the device: nothing
    when no poll handle is registered, else one run of [PollCallback]. *)
Ltac poll_cases :=
  match goal with
  | |- context [poll_handle_ ?d] =>
      destruct (poll_handle_ d);
      [match goal with
       | |- context [PollCallback ?p ?d ?s ?e ?w] =>
           destruct (PollCallback p d s e w)
       end |]
  end; cbn [fst snd].

Lemma step_poll_keeps_device p status events d w :
  snd (fst (step p (OpPoll status events) d w)) = d.
Proof. cbn [step]. poll_cases; reflexivity. Qed.


Lemma open_darwin_never_aborts d w d' w' :
  open_darwin d w = (Aborted, d', w') -> False.
Proof.
  unfold open_darwin, open_finish, open_fail, FileDescriptor.move_assign.
  repeat match goal with
         | |- context [if ?b then _ else _] => destruct b
         | |- context [connect_utun ?n ?f ?i ?w2] =>
             destruct (connect_utun n f i w2) as [[m |] w3]
         end; discriminate.
Qed.

Lemma open_linux_never_aborts d w d' w' :
  open_linux d w = (Aborted, d', w') -> False.
Proof.
  unfold open_linux, open_finish, open_fail, FileDescriptor.move_assign.
  repeat match goal with
         | |- context [if ?b then _ else _] => destruct b
         end; discriminate.
Qed.


Lemma StartPolling_never_aborts d info w :
  is_aborted (fst (fst (StartPolling d info w))) = false.
Proof.
  unfold StartPolling.
  destruct (negb (is_open_ d) || negb (FileDescriptor.is_valid (fd_ d)));
    [reflexivity |].
  destruct (info0 info); try reflexivity.
  cbn [StopPolling].
  repeat match goal with
         | |- context [if ?b then _ else _] => destruct b
         end; reflexivity.
Qed.

(** ** Shutdown *)

(** C4.  While the shutdown flag is set: [Open] on a device that is not open
    throws "Shutdown in progress" and changes nothing; [Write] on an open
    device throws the same error without reaching the kernel; [Read] on an
    open device returns a zero-length buffer and does not throw. *)
Theorem shutdown_gates_operations (p : Platform) (w : World) :
  g_shutdown_requested w = true ->
  (forall d, is_open_ d = false ->
     Open p d w = (Thrown JsError "Shutdown in progress", d, w)) /\
  (forall d info, device_usable d = true ->
     Write p d info w = (Thrown JsError "Shutdown in progress", w)) /\
  (forall d info, device_usable d = true ->
     Read p d info w = (Returned (JsBuffer []), w)).
Proof.
  intros Hs. repeat split.
  - intros d Hd. unfold Open. rewrite Hd, Hs. reflexivity.
  - intros d info Hu. unfold Write. rewrite (usable_guard d Hu), Hs. reflexivity.
  - intros d info Hu. unfold Read. rewrite (usable_guard d Hu), Hs. reflexivity.
Qed.

Lemma shutdown_gates_operations_witness :
  Open Linux (TunDevice_new []) (shutting_down (boot (quiet_kernel Linux)))
    = (Thrown JsError "Shutdown in progress", TunDevice_new [],
       shutting_down (boot (quiet_kernel Linux))) /\
  Write Linux open_device [JsBuffer [x01]] (shutting_down (boot (quiet_kernel Linux)))
    = (Thrown JsError "Shutdown in progress",
       shutting_down (boot (quiet_kernel Linux))) /\
  Read Linux open_device [] (shutting_down (boot (quiet_kernel Linux)))
    = (Returned (JsBuffer []), shutting_down (boot (quiet_kernel Linux))).
Proof.
  destruct (shutdown_gates_operations Linux
              (shutting_down (boot (quiet_kernel Linux))) eq_refl)
    as [Ho [Hw Hr]].
  split; [apply Ho; reflexivity | split].
  - apply (Hw open_device [JsBuffer [x01]]). reflexivity.
  - apply (Hr open_device []). reflexivity.
Defined.

(** ** Read on the ioctl-based path *)

(** C10.  On Linux an open device, outside shutdown, turns a [read] that
    returns 0 into a zero-length buffer; an exception is thrown only when
    [read] returned a negative count, and a negative count with a would-block
    [errno] still gives a zero-length buffer. *)
Theorem read_linux_zero_is_empty (d : TunDevice) (info : list JsValue) (w : World) :
  device_usable d = true ->
  g_shutdown_requested w = false ->
  let c := Cread (fd_ d) (buffer_size_of info) in
  (r_ret (reply c w) = 0 ->
     Read Linux d info w = (Returned (JsBuffer []), next c w)) /\
  (forall k msg, fst (Read Linux d info w) = Thrown k msg -> r_ret (reply c w) < 0) /\
  (r_ret (reply c w) < 0 -> would_block Linux (errno_after c w) = true ->
     Read Linux d info w = (Returned (JsBuffer []), next c w)).
Proof.
  intros Hu Hs c. unfold Read. rewrite (usable_guard d Hu), Hs.
  unfold read_linux. fold c. cbn [errno next].
  repeat split.
  - intros H0. rewrite H0. reflexivity.
  - intros k msg. destruct (r_ret (reply c w) <? 0) eqn:E.
    + intros _. apply Z.ltb_lt. exact E.
    + discriminate.
  - intros Hneg Hwb. apply Z.ltb_lt in Hneg. rewrite Hneg, Hwb. reflexivity.
Qed.

Lemma read_linux_zero_is_empty_witness :
  Read Linux open_device [] (boot (eof_kernel Linux))
    = (Returned (JsBuffer []),
       next (Cread 5 4096) (boot (eof_kernel Linux))).
Proof.
  destruct (read_linux_zero_is_empty open_device [] (boot (eof_kernel Linux))
              eq_refl eq_refl) as [Hzero _].
  apply Hzero. reflexivity.
Defined.

(** ** Framing on the utun path *)

Lemma htonl_AF_INET6 : htonl_bytes AF_INET6 = [x00; x00; x00; x1e].
Proof. reflexivity. Qed.

(** C2.  On Darwin, for an open device outside shutdown, [Write] of a buffer
    of N bytes makes exactly one call, [write(fd_, frame, N + 4)], whose frame
    is the four bytes 00 00 00 1e (AF_INET6 in network order) followed by the
    payload unchanged; when the call returns a count [n >= 0] the result is
    [n - 4], or 0 when [n <= 4]; a negative return throws. *)
Theorem write_darwin_frames_payload
    (d : TunDevice) (payload : list byte) (rest : list JsValue) (w : World) :
  device_usable d = true ->
  g_shutdown_requested w = false ->
  let frame := htonl_bytes AF_INET6 ++ payload in
  let c := Cwrite (fd_ d) frame in
  let n := r_ret (reply c w) in
  let result := Write Darwin d (JsBuffer payload :: rest) w in
  firstn 4 frame = [x00; x00; x00; x1e] /\
  skipn 4 frame = payload /\
  List.length frame = (List.length payload + 4)%nat /\
  events_since w (snd result) = [event c w] /\
  (0 <= n -> fst result = Returned (JsNumber (if n <=? 4 then 0 else n - 4))) /\
  (n < 0 -> fst result
            = Thrown JsError ("Write error: " +++ strerror w (errno_after c w))).
Proof.
  intros Hu Hs frame c n result.
  assert (Hres : result =
                 if n <? 0
                 then (Thrown JsError ("Write error: " +++ strerror w (errno_after c w)),
                       next c w)
                 else (Returned (JsNumber (if 4 <? n then n - 4 else 0)), next c w)).
  { unfold result, Write. rewrite (usable_guard d Hu), Hs. reflexivity. }
  repeat split.
  - unfold frame. rewrite Nat.add_comm. reflexivity.
  - rewrite Hres. destruct (n <? 0); apply events_since_next.
  - intros Hn. rewrite Hres.
    destruct (n <? 0) eqn:E; [apply Z.ltb_lt in E; lia |].
    cbn [fst]. destruct (4 <? n) eqn:E4, (n <=? 4) eqn:E4'; try reflexivity.
    + apply Z.ltb_lt in E4. apply Z.leb_le in E4'. lia.
    + apply Z.ltb_ge in E4. apply Z.leb_gt in E4'. lia.
  - intros Hn. rewrite Hres. apply Z.ltb_lt in Hn. rewrite Hn. reflexivity.
Qed.

Lemma write_darwin_frames_payload_witness :
  events_since (boot (quiet_kernel Darwin))
    (snd (Write Darwin open_device [JsBuffer [x60; x00; x00]]
            (boot (quiet_kernel Darwin))))
    = [mkEvent (Cwrite 5 [x00; x00; x00; x1e; x60; x00; x00]) 7 0] /\
  fst (Write Darwin open_device [JsBuffer [x60; x00; x00]]
         (boot (quiet_kernel Darwin)))
    = Returned (JsNumber 3).
Proof.
  destruct (write_darwin_frames_payload open_device [x60; x00; x00] []
              (boot (quiet_kernel Darwin)) eq_refl eq_refl)
    as [_ [_ [_ [Hev [Hok _]]]]].
  split; [exact Hev | apply Hok; vm_compute; discriminate].
Defined.

Lemma skipn_repeat_sub {A} (x : A) (n m : nat) :
  skipn n (repeat x m) = repeat x (m - n).
Proof.
  revert m. induction n as [| n IH]; intros m.
  - rewrite Nat.sub_0_r. reflexivity.
  - destruct m as [| m]; [reflexivity | apply IH].
Qed.

(** The bytes of a zero-filled buffer once the kernel stored a whole
    datagram that fits. *)
Lemma buffer_after_read_fits (size : Z) (r : Reply) :
  r_ret r = Z.of_nat (List.length (r_bytes r)) ->
  r_ret r <= size ->
  buffer_after_read size r
    = r_bytes r ++ repeat x00 (Z.to_nat size - List.length (r_bytes r)).
Proof.
  intros Hlen Hfit. unfold buffer_after_read, overwrite.
  rewrite Hlen, Nat2Z.id, firstn_all, repeat_length.
  rewrite firstn_all2 by lia.
  f_equal. apply skipn_repeat_sub.
Qed.

(** Reads on Darwin that carry a payload: the first four bytes are dropped
    and exactly the payload is returned. *)
Lemma read_darwin_strips_header
    (d : TunDevice) (info : list JsValue) (w : World) (header payload : list byte) :
  device_usable d = true ->
  g_shutdown_requested w = false ->
  let c := Cread (fd_ d) (buffer_size_of info + 4) in
  r_bytes (reply c w) = header ++ payload ->
  List.length header = 4%nat ->
  (0 < List.length payload)%nat ->
  r_ret (reply c w) = 4 + Z.of_nat (List.length payload) ->
  Z.of_nat (List.length payload) <= buffer_size_of info ->
  Read Darwin d info w = (Returned (JsBuffer payload), next c w).
Proof.
  intros Hu Hs c Hb Hh Hp Hr Hfit.
  unfold Read. rewrite (usable_guard d Hu), Hs.
  unfold read_darwin. fold c.
  destruct (r_ret (reply c w) <=? 0) eqn:E0; [apply Z.leb_le in E0; lia |].
  destruct (4 <? r_ret (reply c w)) eqn:E4; [| apply Z.ltb_ge in E4; lia].
  rewrite buffer_after_read_fits.
  - rewrite Hb, Hr, <- app_assoc.
    rewrite skipn_app, <- Hh, skipn_all, Nat.sub_diag. cbn [app skipn].
    replace (Z.to_nat (4 + Z.of_nat (List.length payload) - 4))
      with (List.length payload) by lia.
    rewrite firstn_app, firstn_all, Nat.sub_diag. cbn [firstn].
    rewrite app_nil_r. reflexivity.
  - rewrite Hb, Hr, length_app, Hh. lia.
  - lia.
Qed.

(** Reads on Darwin of one to four bytes give a zero-length buffer. *)
Lemma read_darwin_header_only (d : TunDevice) (info : list JsValue) (w : World) :
  device_usable d = true ->
  g_shutdown_requested w = false ->
  let c := Cread (fd_ d) (buffer_size_of info + 4) in
  0 < r_ret (reply c w) <= 4 ->
  Read Darwin d info w = (Returned (JsBuffer []), next c w).
Proof.
  intros Hu Hs c Hr.
  unfold Read. rewrite (usable_guard d Hu), Hs.
  unfold read_darwin. fold c.
  destruct (r_ret (reply c w) <=? 0) eqn:E0; [apply Z.leb_le in E0; lia |].
  destruct (4 <? r_ret (reply c w)) eqn:E4; [apply Z.ltb_lt in E4; lia |].
  reflexivity.
Qed.

(** A failed read on Darwin: a would-block [errno] gives a zero-length
    buffer, any other [errno] is surfaced. *)
Lemma read_darwin_failure (d : TunDevice) (info : list JsValue) (w : World) :
  device_usable d = true ->
  g_shutdown_requested w = false ->
  let c := Cread (fd_ d) (buffer_size_of info + 4) in
  r_ret (reply c w) < 0 ->
  Read Darwin d info w
  = if would_block Darwin (errno_after c w)
    then (Returned (JsBuffer []), next c w)
    else (Thrown JsError ("Read error: " +++ strerror w (errno_after c w)), next c w).
Proof.
  intros Hu Hs c Hr.
  unfold Read. rewrite (usable_guard d Hu), Hs.
  unfold read_darwin. fold c.
  destruct (r_ret (reply c w) <=? 0) eqn:E0; [| apply Z.leb_gt in E0; lia].
  reflexivity.
Qed.

(** C3 (where the code departs from it).  On Darwin a [read] that returns 0
    enters the error branch ([bytes_read <= 0]) and is judged by whatever
    [errno] holds: unless that is the would-block value, [Read] throws
    "Read error: ..." instead of returning a zero-length buffer. *)
Theorem read_darwin_zero_throws (d : TunDevice) (info : list JsValue) (w : World) :
  device_usable d = true ->
  g_shutdown_requested w = false ->
  let c := Cread (fd_ d) (buffer_size_of info + 4) in
  r_ret (reply c w) = 0 ->
  would_block Darwin (errno_after c w) = false ->
  Read Darwin d info w
  = (Thrown JsError ("Read error: " +++ strerror w (errno_after c w)), next c w).
Proof.
  intros Hu Hs c Hr Hwb.
  unfold Read. rewrite (usable_guard d Hu), Hs.
  unfold read_darwin. fold c. rewrite Hr. cbn [Z.leb Z.compare errno next].
  rewrite Hwb. reflexivity.
Qed.

Lemma read_darwin_zero_throws_witness :
  Read Darwin open_device [] (boot (eof_kernel Darwin))
  = (Thrown JsError "Read error: Unknown error",
     next (Cread 5 4100) (boot (eof_kernel Darwin))).
Proof.
  apply (read_darwin_zero_throws open_device [] (boot (eof_kernel Darwin))
           eq_refl eq_refl eq_refl eq_refl).
Defined.

(** X22.  What the poll callback hands to the thread-safe function on
    Darwin: when the kernel stored a datagram of more than four bytes, the
    datagram without its first four bytes; nothing when it stored four or
    fewer. *)
Lemma poll_darwin_delivery (self : TunDevice) (t : nat) (w : World) :
  device_usable self = true ->
  tsfn_ self = Some t ->
  let c := Cread (fd_ self) 4096 in
  let datagram := r_bytes (reply c w) in
  r_ret (reply c w) = Z.of_nat (List.length datagram) ->
  0 < r_ret (reply c w) <= 4096 ->
  PollCallback Darwin self 0 UV_READABLE w
  = if 4 <? r_ret (reply c w)
    then Completed (next (Ctsfn_BlockingCall t (skipn 4 datagram)) (next c w))
    else Completed (next c w).
Proof.
  intros Hu Ht c datagram Hlen Hn. unfold PollCallback.
  cbn [Z.ltb Z.compare Z.land UV_READABLE Pos.land Z.eqb].
  rewrite (usable_guard self Hu). fold c.
  destruct (r_ret (reply c w) <=? 0) eqn:E0; [apply Z.leb_le in E0; lia |].
  destruct (4 <? r_ret (reply c w)) eqn:E4; [| reflexivity].
  apply Z.ltb_lt in E4. rewrite Ht. unfold BlockingCall.
  rewrite buffer_after_read_fits by (exact Hlen || lia).
  fold datagram. rewrite skipn_app.
  replace (4 - List.length datagram)%nat with 0%nat by lia.
  cbn [skipn]. rewrite firstn_app.
  replace (Z.to_nat (r_ret (reply c w) - 4))
    with (List.length (skipn 4 datagram)) by (rewrite length_skipn; lia).
  rewrite firstn_all, Nat.sub_diag. cbn [firstn]. rewrite app_nil_r. reflexivity.
Qed.

(** ** The scan for a free utun unit *)


Example utun_unit_of_empty : utun_unit_of "" = 0.
Proof. reflexivity. Qed.

Example utun_unit_of_utun3 : utun_unit_of "utun3" = 4.
Proof. reflexivity. Qed.

Example utun_unit_of_other : utun_unit_of "tun3" = 0.
Proof. reflexivity. Qed.

Example utun_unit_of_no_digits : utun_unit_of "utunX" = 0.
Proof. reflexivity. Qed.

(** The fuel of [scan_units] never cuts the loop short: when it runs out the
    loop guard [sc_unit < 255] fails as well. *)
Lemma scan_units_fuel (fuel extra : nat) (u fd sc_id : Z) (w : World) :
  u + Z.of_nat fuel = 255 ->
  scan_units (fuel + extra) u fd sc_id w = scan_units fuel u fd sc_id w.
Proof.
  revert u w. induction fuel as [| fuel IH]; intros u w Hu.
  - replace u with 255 by lia. destruct extra; reflexivity.
  - cbn [Nat.add scan_units].
    rewrite (IH (u + 1) (next (Cconnect fd sc_id u) w)) by lia. reflexivity.
Qed.




(** A connect phase that fails is fatal to [Open]: the message is thrown,
    the device is untouched and the control socket is closed. *)
Lemma connect_failure_fails_open (d : TunDevice) (w : World) (msg : string) :
  is_open_ d = false ->
  g_shutdown_requested w = false ->
  let temp_fd := r_ret (reply Csocket w) in
  let c2 := Cioctl_CTLIOCGINFO temp_fd in
  let w2 := next c2 (next Csocket w) in
  let sc_id := r_id (reply c2 (next Csocket w)) in
  0 <= temp_fd ->
  0 <= r_ret (reply c2 (next Csocket w)) ->
  fst (connect_utun (name_ d) temp_fd sc_id w2) = Some msg ->
  Open Darwin d w
  = (Thrown JsError msg, d,
     next (Cclose temp_fd) (snd (connect_utun (name_ d) temp_fd sc_id w2))).
Proof.
  intros Hc Hs temp_fd c2 w2 sc_id Hfd Hctl Hmsg.
  unfold Open. rewrite Hc, Hs. unfold open_darwin, open_fail.
  fold temp_fd. fold c2. fold w2. fold sc_id.
  unfold FileDescriptor.is_valid, FileDescriptor.destroy.
  assert (Hv : (0 <=? temp_fd) = true) by (apply Z.leb_le; exact Hfd).
  rewrite Hv. cbn [negb].
  assert (Hl : (r_ret (reply c2 (next Csocket w)) <? 0) = false)
    by (apply Z.ltb_ge; exact Hctl).
  rewrite Hl.
  destruct (connect_utun (name_ d) temp_fd sc_id w2) as [[m |] w3];
    cbn [fst snd] in *; [| discriminate].
  injection Hmsg as ->. reflexivity.
Qed.

(** On the sample kernel units 1 and 2 are busy and unit 3 connects. *)
Example scan_on_quiet_kernel :
  map ev_call (trace (snd (connect_utun "" 5 7 (boot (quiet_kernel Darwin)))))
    = [Cconnect 5 7 1; Cconnect 5 7 2; Cconnect 5 7 3] /\
  fst (connect_utun "" 5 7 (boot (quiet_kernel Darwin))) = None.
Proof. split; reflexivity. Qed.

(** Unit 255 is outside the scan: when it is the only free unit the scan
    fails after 254 attempts. *)
Example scan_stops_before_255 :
  fst (connect_utun "" 5 7 (boot unit255_kernel)) = Some no_utun_msg /\
  List.length (trace (snd (connect_utun "" 5 7 (boot unit255_kernel)))) = 254%nat.
Proof. split; vm_compute; reflexivity. Qed.

(** ** Open: what a failure leaves behind *)

Lemma held_snoc (fd : Z) (tr : list Event) (e : Event) :
  held fd (tr ++ [e]) = held fd tr + held_delta fd e.
Proof.
  unfold held, held_delta, acquire_count, close_count.
  rewrite !filter_app, !length_app. cbn [filter].
  destruct (acquires fd e), (closes fd e); cbn [List.length]; lia.
Qed.

Lemma held_next (fd : Z) (c : Call) (w : World) :
  held fd (trace (next c w)) = held fd (trace w) + held_delta fd (event c w).
Proof. rewrite trace_next. apply held_snoc. Qed.

(** The temporary's destructor gives back what [socket] or [open] handed out. *)
Lemma held_destroy (fd temp_fd : Z) (w : World) :
  held fd (trace (FileDescriptor.destroy temp_fd w))
  = held fd (trace w) - (if (0 <=? temp_fd) && (temp_fd =? fd) then 1 else 0).
Proof.
  unfold FileDescriptor.destroy. destruct (0 <=? temp_fd); cbn [andb].
  - rewrite held_next. unfold held_delta. cbn [acquires closes event ev_call].
    destruct (temp_fd =? fd); lia.
  - lia.
Qed.

Lemma scan_units_message (fd sc_id : Z) (fuel : nat) :
  forall (u : Z) (w : World) (msg : string),
    fst (scan_units fuel u fd sc_id w) = Some msg ->
    msg = no_utun_msg \/ exists s, msg = connect_msg +++ s.
Proof.
  induction fuel as [| fuel IH]; intros u w msg; cbn [scan_units].
  - intros H. injection H as <-. left. reflexivity.
  - destruct (u <? 255); [| intros H; injection H as <-; left; reflexivity].
    destruct (r_ret (reply (Cconnect fd sc_id u) w) =? 0); [discriminate |].
    destruct (negb (errno (next (Cconnect fd sc_id u) w) =? EBUSY)).
    + intros H. injection H as <-. right. eexists. reflexivity.
    + apply IH.
Qed.

Lemma scan_units_held (fd sc_id f : Z) (fuel : nat) :
  forall (u : Z) (w : World),
    held f (trace (snd (scan_units fuel u fd sc_id w))) = held f (trace w).
Proof.
  induction fuel as [| fuel IH]; intros u w; cbn [scan_units]; [reflexivity |].
  destruct (u <? 255); [| reflexivity].
  assert (H1 : held f (trace (next (Cconnect fd sc_id u) w)) = held f (trace w)).
  { rewrite held_next. unfold held_delta. cbn. lia. }
  destruct (r_ret (reply (Cconnect fd sc_id u) w) =? 0); [exact H1 |].
  destruct (negb (errno (next (Cconnect fd sc_id u) w) =? EBUSY)); [exact H1 |].
  rewrite IH. exact H1.
Qed.

Lemma connect_utun_held (name : string) (fd sc_id f : Z) (w : World) :
  held f (trace (snd (connect_utun name fd sc_id w))) = held f (trace w).
Proof.
  unfold connect_utun. destruct (0 <? utun_unit_of name).
  - assert (H1 : forall c, c = Cconnect fd sc_id (utun_unit_of name) ->
                           held f (trace (next c w)) = held f (trace w)).
    { intros c ->. rewrite held_next. unfold held_delta. cbn. lia. }
    destruct (r_ret (reply (Cconnect fd sc_id (utun_unit_of name)) w) <? 0);
      apply H1; reflexivity.
  - apply scan_units_held.
Qed.

Lemma connect_utun_message (name : string) (fd sc_id : Z) (w : World) (msg : string) :
  fst (connect_utun name fd sc_id w) = Some msg ->
  msg <> EmptyString /\ nonblocking_failure msg = false.
Proof.
  unfold connect_utun. destruct (0 <? utun_unit_of name).
  - destruct (r_ret (reply (Cconnect fd sc_id (utun_unit_of name)) w) <? 0);
      [| discriminate].
    intros H. injection H as <-. split; [discriminate | reflexivity].
  - intros H. apply scan_units_message in H. destruct H as [-> | [s ->]].
    + split; [discriminate | reflexivity].
    + split; [discriminate | reflexivity].
Qed.

(** What [open_finish] leaves when it throws. *)
Lemma open_finish_failure p temp_fd d w k msg d' w' :
  0 <= temp_fd ->
  open_finish p temp_fd d w = (Thrown k msg, d', w') ->
  k = JsError /\ msg <> EmptyString /\ d' = d /\
  nonblocking_failure msg = true /\
  forall fd, held fd (trace w') = held fd (trace w) - (if temp_fd =? fd then 1 else 0).
Proof.
  intros Hfd. unfold open_finish, open_fail.
  assert (Hv : (0 <=? temp_fd) = true) by (apply Z.leb_le; exact Hfd).
  destruct (r_ret (reply (Cfcntl_GETFL temp_fd) w) <? 0).
  - intros H. injection H as <- <- <- <-.
    repeat apply conj; try reflexivity; try discriminate.
    intros fd. rewrite held_destroy, held_next, Hv. unfold held_delta. cbn. lia.
  - match goal with |- context [if ?b then _ else _] => destruct b end.
    + intros H. injection H as <- <- <- <-.
      repeat apply conj; try reflexivity; try discriminate.
      intros fd. rewrite held_destroy, !held_next, Hv. unfold held_delta. cbn. lia.
    + cbn. discriminate.
Qed.

Lemma held_socket (fd : Z) (c : Call) (w : World) :
  c = Csocket \/ c = Copen_dev_net_tun ->
  held fd (trace (next c w))
  = held fd (trace w)
    + (if (0 <=? r_ret (reply c w)) && (r_ret (reply c w) =? fd) then 1 else 0).
Proof.
  intros [-> | ->]; rewrite held_next; unfold held_delta;
    cbn [acquires closes event ev_call ev_ret]; lia.
Qed.

Lemma open_darwin_failure d w k msg d' w' :
  open_darwin d w = (Thrown k msg, d', w') ->
  k = JsError /\ msg <> EmptyString /\
  is_open_ d' = is_open_ d /\ fd_ d' = fd_ d /\
  poll_handle_ d' = poll_handle_ d /\ tsfn_ d' = tsfn_ d /\
  (forall fd, held fd (trace w') = held fd (trace w)) /\
  (nonblocking_failure msg = false -> d' = d).
Proof.
  unfold open_darwin, open_fail.
  set (temp_fd := r_ret (reply Csocket w)).
  assert (Hsock : forall fd, held fd (trace (next Csocket w))
                    = held fd (trace w)
                      + (if (0 <=? temp_fd) && (temp_fd =? fd) then 1 else 0)).
  { intros fd. apply held_socket. left. reflexivity. }
  unfold FileDescriptor.is_valid.
  destruct (0 <=? temp_fd) eqn:Hv; cbn [negb].
  2:{ intros H. injection H as <- <- <- <-.
      repeat apply conj; try reflexivity; try discriminate.
      intros fd. rewrite held_destroy, Hsock, Hv. cbn [andb]. lia. }
  set (c2 := Cioctl_CTLIOCGINFO temp_fd).
  assert (H2 : forall fd, held fd (trace (next c2 (next Csocket w)))
                 = held fd (trace w) + (if temp_fd =? fd then 1 else 0)).
  { intros fd. rewrite held_next, Hsock. unfold held_delta. cbn. lia. }
  destruct (r_ret (reply c2 (next Csocket w)) <? 0).
  { intros H. injection H as <- <- <- <-.
    repeat apply conj; try reflexivity; try discriminate.
    intros fd. rewrite held_destroy, H2, Hv. cbn [andb]. lia. }
  destruct (connect_utun (name_ d) temp_fd
              (r_id (reply c2 (next Csocket w))) (next c2 (next Csocket w)))
    as [[m |] w3] eqn:Ec.
  { pose proof (connect_utun_message _ _ _ _ m (f_equal fst Ec)) as [Hm1 Hm2].
    intros H. injection H as <- <- <- <-.
    repeat apply conj; try reflexivity; try assumption.
    intros fd. rewrite held_destroy, Hv. cbn [andb].
    pose proof (connect_utun_held (name_ d) temp_fd
                  (r_id (reply c2 (next Csocket w))) fd
                  (next c2 (next Csocket w))) as Hh.
    rewrite Ec in Hh. cbn [snd] in Hh. rewrite Hh, H2. lia. }
  assert (H3 : forall fd, held fd (trace w3)
                 = held fd (trace w) + (if temp_fd =? fd then 1 else 0)).
  { intros fd.
    pose proof (connect_utun_held (name_ d) temp_fd
                  (r_id (reply c2 (next Csocket w))) fd
                  (next c2 (next Csocket w))) as Hh.
    rewrite Ec in Hh. cbn [snd] in Hh. rewrite Hh. apply H2. }
  set (c4 := Cgetsockopt_IFNAME temp_fd).
  assert (H4 : forall fd, held fd (trace (next c4 w3))
                 = held fd (trace w) + (if temp_fd =? fd then 1 else 0)).
  { intros fd. rewrite held_next, H3. unfold held_delta. cbn. lia. }
  destruct (r_ret (reply c4 w3) <? 0).
  { intros H. injection H as <- <- <- <-.
    repeat apply conj; try reflexivity; try discriminate.
    intros fd. rewrite held_destroy, H4, Hv. cbn [andb]. lia. }
  intros H. apply open_finish_failure in H; [| apply Z.leb_le; exact Hv].
  destruct H as (Hk & Hmsg & -> & Hnb & Hheld).
  repeat apply conj; try reflexivity; try assumption.
  - intros fd. rewrite Hheld, H4. lia.
  - rewrite Hnb. discriminate.
Qed.

Lemma open_linux_failure d w k msg d' w' :
  open_linux d w = (Thrown k msg, d', w') ->
  k = JsError /\ msg <> EmptyString /\
  is_open_ d' = is_open_ d /\ fd_ d' = fd_ d /\
  poll_handle_ d' = poll_handle_ d /\ tsfn_ d' = tsfn_ d /\
  (forall fd, held fd (trace w') = held fd (trace w)) /\
  (nonblocking_failure msg = false -> d' = d).
Proof.
  unfold open_linux, open_fail.
  set (w1 := next Cstat_dev_net_tun w).
  assert (H1 : forall fd, held fd (trace w1) = held fd (trace w)).
  { intros fd. unfold w1. rewrite held_next. unfold held_delta. cbn. lia. }
  destruct (negb (r_ret (reply Cstat_dev_net_tun w) =? 0)).
  { intros H. injection H as <- <- <- <-.
    repeat apply conj; try reflexivity; try discriminate. exact H1. }
  set (temp_fd := r_ret (reply Copen_dev_net_tun w1)).
  assert (Hopen : forall fd, held fd (trace (next Copen_dev_net_tun w1))
                    = held fd (trace w)
                      + (if (0 <=? temp_fd) && (temp_fd =? fd) then 1 else 0)).
  { intros fd. rewrite <- H1. apply held_socket. right. reflexivity. }
  unfold FileDescriptor.is_valid.
  destruct (0 <=? temp_fd) eqn:Hv; cbn [negb].
  2:{ intros H. injection H as <- <- <- <-.
      repeat apply conj; try reflexivity; try discriminate.
      intros fd. rewrite held_destroy, Hopen, Hv. cbn [andb]. lia. }
  match goal with
  | |- context [Cioctl_TUNSETIFF temp_fd ?n ?f] => set (c3 := Cioctl_TUNSETIFF temp_fd n f)
  end.
  assert (H3 : forall fd, held fd (trace (next c3 (next Copen_dev_net_tun w1)))
                 = held fd (trace w) + (if temp_fd =? fd then 1 else 0)).
  { intros fd. rewrite held_next, Hopen. unfold held_delta. cbn. lia. }
  destruct (r_ret (reply c3 (next Copen_dev_net_tun w1)) <? 0).
  { intros H. injection H as <- <- <- <-.
    repeat apply conj; try reflexivity; try discriminate.
    intros fd. rewrite held_destroy, H3, Hv. cbn [andb]. lia. }
  intros H. apply open_finish_failure in H; [| apply Z.leb_le; exact Hv].
  destruct H as (Hk & Hmsg & -> & Hnb & Hheld).
  repeat apply conj; try reflexivity; try assumption.
  - intros fd. rewrite Hheld, H3. lia.
  - rewrite Hnb. discriminate.
Qed.


(** When [Open] on a device that is not open throws, the exception is an
    [Error] with a non-empty message, [is_open_] is still false, [fd_] and
    the poll fields are what they were, and every handle the kernel handed
    out during the call has been closed again.  The device is unchanged as a
    whole, name included, for every failure up to and including the name
    query (Darwin) or the configure ioctl (Linux); the statement leaves the
    name open for the two failures of "Set non-blocking mode". *)
Lemma failed_open_leaves_device_closed
    (p : Platform) (d : TunDevice) (w : World)
    (k : ErrKind) (msg : string) (d' : TunDevice) (w' : World) :
  is_open_ d = false ->
  Open p d w = (Thrown k msg, d', w') ->
  k = JsError /\ msg <> EmptyString /\
  is_open_ d' = false /\ fd_ d' = fd_ d /\
  poll_handle_ d' = poll_handle_ d /\ tsfn_ d' = tsfn_ d /\
  (forall fd, held fd (trace w') = held fd (trace w)) /\
  (nonblocking_failure msg = false -> d' = d).
Proof.
  intros Hclosed. unfold Open. rewrite Hclosed.
  destruct (g_shutdown_requested w).
  - intros H. injection H as <- <- <- <-.
    repeat apply conj; try reflexivity; try discriminate. exact Hclosed.
  - assert (Hgen : open_darwin d w = (Thrown k msg, d', w') \/
                   open_linux d w = (Thrown k msg, d', w') ->
                   k = JsError /\ msg <> EmptyString /\
                   is_open_ d' = is_open_ d /\ fd_ d' = fd_ d /\
                   poll_handle_ d' = poll_handle_ d /\ tsfn_ d' = tsfn_ d /\
                   (forall fd, held fd (trace w') = held fd (trace w)) /\
                   (nonblocking_failure msg = false -> d' = d)).
    { intros [H | H]; [apply open_darwin_failure | apply open_linux_failure];
        exact H. }
    intros H.
    destruct Hgen as (Hk & Hm & Ho & Hrest); [destruct p; [left | right]; exact H |].
    rewrite Hclosed in Ho. repeat apply conj; assumption || apply Hrest.
Qed.

Lemma failed_open_leaves_device_closed_witness :
  is_open_ (TunDevice_new [JsString "probe0"]) = false /\
  fd_ (snd (fst (Open Linux (TunDevice_new [JsString "probe0"])
                   (boot (getfl_fails_kernel Linux))))) = -1 /\
  held 5 (trace (snd (Open Linux (TunDevice_new [JsString "probe0"])
                        (boot (getfl_fails_kernel Linux))))) = 0.
Proof.
  destruct (Open Linux (TunDevice_new [JsString "probe0"])
              (boot (getfl_fails_kernel Linux))) as [[o d'] w'] eqn:E.
  assert (Ho : o = Thrown JsError
                 "Failed to get file descriptor flags: Bad file descriptor").
  { apply (f_equal (fun x => fst (fst x))) in E. vm_compute in E. symmetry. exact E. }
  subst o.
  destruct (failed_open_leaves_device_closed Linux
              (TunDevice_new [JsString "probe0"])
              (boot (getfl_fails_kernel Linux)) _ _ _ _ eq_refl E)
    as (_ & _ & _ & Hfd & _ & _ & Hheld & _).
  cbn [fst snd]. split; [reflexivity | split; [exact Hfd | apply Hheld]].
Defined.

(** "No state change" fails: on Linux, when [F_GETFL] fails after the
    configure ioctl succeeded, [Open] throws and the device's name has become
    the kernel's "tun0". *)
Lemma failed_open_changes_name : ~ failed_open_changes_nothing.
Proof.
  intros H.
  specialize (H Linux (TunDevice_new []) (boot (getfl_fails_kernel Linux))
                JsError "Failed to get file descriptor flags: Bad file descriptor"%string
                (mkTunDevice (-1) "tun0" false None None)
                (snd (Open Linux (TunDevice_new [])
                        (boot (getfl_fails_kernel Linux))))
                eq_refl eq_refl).
  discriminate H.
Qed.

(** The same on Darwin: the name query succeeded, [F_GETFL] failed. *)
Example failed_open_changes_name_darwin :
  let '(o, d', _) := Open Darwin (TunDevice_new []) (boot (getfl_fails_kernel Darwin)) in
  o = Thrown JsError "Failed to get file descriptor flags: Bad file descriptor" /\
  name_ d' = "utun2"%string /\ is_open_ d' = false /\ fd_ d' = -1.
Proof. vm_compute. repeat split. Qed.

(** ** Close *)

Lemma close_count_next (g : Z) (c : Call) (w : World) :
  close_count g (trace (next c w))
  = (close_count g (trace w) + (if closes g (event c w) then 1 else 0))%nat.
Proof.
  rewrite trace_next. unfold close_count. rewrite filter_app, length_app.
  cbn [filter]. destruct (closes g (event c w)); reflexivity.
Qed.

Lemma StopPolling_close_count (g : Z) (d : TunDevice) (w : World) :
  close_count g (trace (snd (StopPolling d w))) = close_count g (trace w).
Proof.
  unfold StopPolling. cbn [snd].
  destruct (tsfn_ d), (poll_handle_ d);
    rewrite ?close_count_next; cbn [closes event ev_call]; lia.
Qed.

Lemma CloseInternal_closed (d : TunDevice) (w : World) :
  is_open_ d = false -> CloseInternal d w = (d, w).
Proof. intros H. unfold CloseInternal. rewrite H. reflexivity. Qed.

(** An open device: the teardown closes [fd_] once and nothing else. *)
Lemma CloseInternal_open (d : TunDevice) (w : World) :
  is_open_ d = true ->
  0 <= fd_ d ->
  fst (CloseInternal d w) = mkTunDevice (-1) (name_ d) false None None /\
  forall g, close_count g (trace (snd (CloseInternal d w)))
            = (close_count g (trace w) + (if (g =? fd_ d)%Z then 1 else 0))%nat.
Proof.
  intros Ho Hfd. unfold CloseInternal. rewrite Ho.
  unfold FileDescriptor.reset.
  assert (Hv : (0 <=? fd_ d) = true) by (apply Z.leb_le; exact Hfd).
  cbn [StopPolling fd_ name_ is_open_ poll_handle_ tsfn_ fst snd].
  rewrite Hv. split; [reflexivity |].
  intros g. rewrite close_count_next. cbn [closes event ev_call].
  rewrite (Z.eqb_sym (fd_ d) g). f_equal.
  apply (StopPolling_close_count g
           (mkTunDevice (fd_ d) (name_ d) false (poll_handle_ d) (tsfn_ d)) w).
Qed.

Lemma run_close_closed (p : Platform) (n : nat) (d : TunDevice) (w : World) :
  is_open_ d = false ->
  run p (repeat OpClose n) d w = (repeat closed_ok n, d, w).
Proof.
  intros Hd. induction n as [| n IH]; [reflexivity |].
  cbn [repeat run step]. unfold Close. rewrite (CloseInternal_closed d w Hd).
  rewrite IH. reflexivity.
Qed.

Lemma Destroy_closed (d : TunDevice) (w : World) :
  is_open_ d = false -> fd_ d = -1 -> Destroy d w = w.
Proof.
  intros Ho Hfd. unfold Destroy. rewrite (CloseInternal_closed d w Ho).
  unfold FileDescriptor.destroy. rewrite Hfd. reflexivity.
Qed.

(** C7.  [Close] always returns [true].  On a device that is not open
    (never opened, already closed, or left closed by a failed [Open]) it
    changes neither the device nor the world.  Over any number of [Close]
    calls followed by the destructor, [close] is called exactly once on the
    descriptor of a device that was open, and never on any other descriptor;
    the same count holds after the [Close] calls alone when there is at
    least one. *)
Theorem close_is_idempotent (p : Platform) (n : nat) (d : TunDevice) (w : World) :
  handle_invariant d ->
  let '(outs, d', w') := run p (repeat OpClose n) d w in
  let once g := if is_open_ d && (g =? fd_ d) then 1%nat else 0%nat in
  outs = repeat closed_ok n /\
  (is_open_ d = false -> d' = d /\ w' = w) /\
  ((0 < n)%nat -> is_open_ d' = false /\ fd_ d' = -1 /\
     forall g, close_count g (trace w') = (close_count g (trace w) + once g)%nat) /\
  (forall g, close_count g (trace (Destroy d' w'))
             = (close_count g (trace w) + once g)%nat).
Proof.
  intros Hinv. unfold handle_invariant in Hinv.
  destruct (is_open_ d) eqn:Ho.
  - (* open: the first call tears down, the others find the device closed *)
    destruct (CloseInternal_open d w Ho Hinv) as [Hd1 Hc1].
    destruct n as [| n].
    + cbn [repeat run]. repeat apply conj; try reflexivity.
      * discriminate.
      * intros Hn. inversion Hn.
      * intros g. unfold Destroy.
        destruct (CloseInternal d w) as [d1 w1]. cbn [fst snd] in Hd1, Hc1.
        subst d1. unfold FileDescriptor.destroy. cbn [fd_ Z.leb Z.compare].
        cbn [andb]. apply Hc1.
    + cbn [repeat run step]. unfold Close.
      destruct (CloseInternal d w) as [d1 w1]. cbn [fst snd] in Hd1, Hc1.
      rewrite (run_close_closed p n d1 w1) by (subst d1; reflexivity).
      cbn [andb]. repeat apply conj; try reflexivity.
      * discriminate.
      * intros _. subst d1. repeat apply conj; try reflexivity. exact Hc1.
      * intros g. rewrite Destroy_closed by (subst d1; reflexivity). apply Hc1.
  - rewrite (run_close_closed p n d w Ho). cbn [andb].
    repeat apply conj; try reflexivity.
    + intros _. split; reflexivity.
    + intros _. repeat apply conj; [exact Ho | exact Hinv | intros g; lia].
    + intros g. rewrite (Destroy_closed d w Ho Hinv). lia.
Qed.

Lemma close_is_idempotent_witness :
  close_count 5 (trace (Destroy
     (snd (fst (run Linux [OpClose; OpClose; OpClose] open_device
                  (boot (quiet_kernel Linux)))))
     (snd (run Linux [OpClose; OpClose; OpClose] open_device
             (boot (quiet_kernel Linux)))))) = 1%nat.
Proof.
  pose proof (close_is_idempotent Linux 3 open_device (boot (quiet_kernel Linux)))
    as H.
  cbn [repeat] in H.
  destruct (run Linux [OpClose; OpClose; OpClose] open_device
              (boot (quiet_kernel Linux))) as [[outs d'] w'].
  cbn [fst snd].
  destruct H as (_ & _ & _ & Hd); [vm_compute; discriminate |].
  apply (Hd 5).
Defined.

(** ** Polling *)

Lemma live_state_next (c : Call) (w : World) (a b x : list nat) :
  live_state (trace w) a b x ->
  live_state (trace (next c w))
             (tsfn_step a (event c w)) (poll_step b (event c w))
             (active_step x (event c w)).
Proof.
  intros (Ha & Hb & Hx). rewrite trace_next.
  unfold live_state, live_tsfns, live_polls, active_polls in *.
  rewrite !fold_left_app, Ha, Hb, Hx. repeat split.
Qed.

Lemma live_state_at_most_one (tr : list Event) (a b x : list nat) :
  live_state tr a b x ->
  (List.length a <= 1)%nat -> (List.length b <= 1)%nat -> (List.length x <= 1)%nat ->
  at_most_one_live tr.
Proof. intros (<- & <- & <-) Ha Hb Hx. repeat split; assumption. Qed.

Lemma always_between_refl (P : list Event -> Prop) (w : World) :
  P (trace w) -> always_between P w w.
Proof.
  intros HP tr1 tr2 H.
  assert (Hnil : tr1 ++ tr2 = []).
  { apply (app_inv_head (trace w)). rewrite app_nil_r. symmetry. exact H. }
  apply app_eq_nil in Hnil. destruct Hnil as [-> _].
  rewrite app_nil_r. exact HP.
Qed.

Lemma always_between_next (P : list Event -> Prop) (w w1 : World) (c : Call) :
  always_between P w w1 ->
  P (trace (next c w1)) ->
  always_between P w (next c w1).
Proof.
  intros Hal HP tr1 tr2 H.
  destruct tr2 as [| e tr2] using rev_ind.
  - rewrite app_nil_r in H. rewrite <- H. exact HP.
  - rewrite trace_next, !app_assoc in H. apply app_inj_tail in H.
    destruct H as [H _]. apply (Hal tr1 tr2). rewrite H, app_assoc. reflexivity.
Qed.

Lemma always_between_bump (P : list Event -> Prop) (w w1 : World) :
  always_between P w w1 -> always_between P w (bump w1).
Proof. intros H. exact H. Qed.

Lemma remove_id_same (x : nat) : remove_id x [x] = [].
Proof. unfold remove_id. cbn [filter]. rewrite Nat.eqb_refl. reflexivity. Qed.

(** One more call, with the lists of live objects it leaves. *)
Lemma advance (w0 w : World) (c : Call) (a b x : list nat) :
  always_between at_most_one_live w0 w ->
  live_state (trace w) a b x ->
  (List.length (tsfn_step a (event c w)) <= 1)%nat ->
  (List.length (poll_step b (event c w)) <= 1)%nat ->
  (List.length (active_step x (event c w)) <= 1)%nat ->
  always_between at_most_one_live w0 (next c w) /\
  live_state (trace (next c w))
             (tsfn_step a (event c w)) (poll_step b (event c w))
             (active_step x (event c w)).
Proof.
  intros Hal Hst Ha Hb Hx.
  pose proof (live_state_next c w a b x Hst) as Hn.
  split; [| exact Hn].
  apply always_between_next; [exact Hal |].
  apply (live_state_at_most_one _ _ _ _ Hn); assumption.
Qed.

(** [StopPolling] leaves nothing live. *)
Lemma StopPolling_releases (w0 : World) (d : TunDevice) (w : World) :
  polling_invariant d w ->
  always_between at_most_one_live w0 w ->
  fst (StopPolling d w) = mkTunDevice (fd_ d) (name_ d) (is_open_ d) None None /\
  live_state (trace (snd (StopPolling d w))) [] [] [] /\
  always_between at_most_one_live w0 (snd (StopPolling d w)).
Proof.
  intros Hinv Hal. unfold polling_invariant in Hinv. fold (live_state (trace w)
    (option_list (tsfn_ d)) (option_list (poll_handle_ d))
    (option_list (poll_handle_ d))) in Hinv.
  unfold StopPolling. cbn [fst snd]. split; [reflexivity |].
  assert (H1 : exists w1,
             w1 = match poll_handle_ d with
                  | Some h => next (Cdelete_uv_poll h) (next (Cuv_poll_stop h) w)
                  | None => w
                  end /\
             live_state (trace w1) (option_list (tsfn_ d)) [] [] /\
             always_between at_most_one_live w0 w1).
  { eexists. split; [reflexivity |].
    destruct (poll_handle_ d) as [h |]; [| split; assumption].
    cbn [option_list] in Hinv.
    destruct (advance w0 w (Cuv_poll_stop h) _ _ _ Hal Hinv) as [Hal1 Hst1];
      cbn [tsfn_step poll_step active_step event ev_call];
      rewrite ?remove_id_same; try (destruct (tsfn_ d); cbn; lia).
    cbn [tsfn_step poll_step active_step event ev_call] in Hst1.
    rewrite remove_id_same in Hst1.
    destruct (advance w0 _ (Cdelete_uv_poll h) _ _ _ Hal1 Hst1) as [Hal2 Hst2];
      cbn [tsfn_step poll_step active_step event ev_call];
      rewrite ?remove_id_same; try (destruct (tsfn_ d); cbn; lia).
    cbn [tsfn_step poll_step active_step event ev_call] in Hst2.
    rewrite remove_id_same in Hst2.
    split; assumption. }
  destruct H1 as (w1 & <- & Hst1 & Hal1).
  destruct (tsfn_ d) as [t |]; [| split; assumption].
  cbn [option_list] in Hst1.
  destruct (advance w0 w1 (Ctsfn_Release t) _ _ _ Hal1 Hst1) as [Hal2 Hst2];
    cbn [tsfn_step poll_step active_step event ev_call];
    rewrite ?remove_id_same; try (cbn; lia).
  cbn [tsfn_step poll_step active_step event ev_call] in Hst2.
  rewrite remove_id_same in Hst2.
  split; assumption.
Qed.

Ltac advance_with Hal Hst c Hal' Hst' :=
  match type of Hst with
  | live_state (trace ?w1) ?a ?b ?x =>
      destruct (advance _ w1 c a b x Hal Hst) as [Hal' Hst'];
      cbn [tsfn_step poll_step active_step event ev_call ev_ret app];
      rewrite ?remove_id_same; try (cbn; lia);
      cbn [tsfn_step poll_step active_step event ev_call ev_ret app] in Hst';
      rewrite ?remove_id_same in Hst'
  end.

(** One call of [StartPolling], successful or not. *)
Lemma StartPolling_step (w0 : World) (d : TunDevice) (info : list JsValue) (w : World) :
  device_usable d = true ->
  polling_invariant d w ->
  always_between at_most_one_live w0 w ->
  let '(o, d', w') := StartPolling d info w in
  device_usable d' = true /\
  polling_invariant d' w' /\
  always_between at_most_one_live w0 w' /\
  (o = polling_ok -> exists h t, poll_handle_ d' = Some h /\ tsfn_ d' = Some t).
Proof.
  intros Hu Hinv Hal. unfold StartPolling. rewrite (usable_guard d Hu).
  destruct (info0 info) as [| | b | n | s | data | cb];
    unfold polling_ok;
    try (cbv beta iota;
         split; [assumption | split; [assumption | split; [assumption | discriminate]]]).
  destruct (StopPolling_releases w0 d w Hinv Hal) as (Hd1 & Hst1 & Hal1).
  destruct (StopPolling d w) as [d1 w1]. cbn [fst snd] in Hd1, Hst1, Hal1.
  subst d1. cbn [fd_ set_tsfn].
  apply always_between_bump in Hal1.
  change (trace w1) with (trace (bump w1)) in Hst1.
  advance_with Hal1 Hst1 (Ctsfn_New (next_id w1) cb) Hal2 Hst2.
  set (w2 := next (Ctsfn_New (next_id w1) cb) (bump w1)) in *.
  apply always_between_bump in Hal2.
  change (trace w2) with (trace (bump w2)) in Hst2.
  advance_with Hal2 Hst2 (Cnew_uv_poll (next_id w2)) Hal3 Hst3.
  set (w3 := next (Cnew_uv_poll (next_id w2)) (bump w2)) in *.
  advance_with Hal3 Hst3 (Cuv_poll_init (next_id w2) (fd_ d)) Hal4 Hst4.
  set (w4 := next (Cuv_poll_init (next_id w2) (fd_ d)) w3) in *.
  destruct (negb (r_ret (reply (Cuv_poll_init (next_id w2) (fd_ d)) w3) =? 0)).
  { advance_with Hal4 Hst4 (Cdelete_uv_poll (next_id w2)) Hal5 Hst5.
    repeat apply conj; try assumption; try apply Hst5. discriminate. }
  destruct (r_ret (reply (Cuv_poll_start (next_id w2)) w4) =? 0) eqn:Estart;
    cbn [negb].
  - (* the handle is started and kept *)
    assert (Hlen : (List.length
                      (active_step [] (event (Cuv_poll_start (next_id w2)) w4))
                    <= 1)%nat).
    { cbn [active_step event ev_call ev_ret]. rewrite Estart. cbn. lia. }
    destruct (advance w0 w4 (Cuv_poll_start (next_id w2)) _ _ _ Hal4 Hst4)
      as [Hal5 Hst5]; try (cbn; lia); [exact Hlen |].
    cbn [tsfn_step poll_step active_step event ev_call ev_ret] in Hst5.
    rewrite Estart in Hst5.
    repeat apply conj; try assumption; try apply Hst5.
    intros _. eexists. eexists. split; reflexivity.
  - (* the start failed: the unique_ptr frees the handle *)
    assert (Hlen : (List.length
                      (active_step [] (event (Cuv_poll_start (next_id w2)) w4))
                    <= 1)%nat).
    { cbn [active_step event ev_call ev_ret]. rewrite Estart. cbn. lia. }
    destruct (advance w0 w4 (Cuv_poll_start (next_id w2)) _ _ _ Hal4 Hst4)
      as [Hal5 Hst5]; try (cbn; lia); [exact Hlen |].
    cbn [tsfn_step poll_step active_step event ev_call ev_ret] in Hst5.
    rewrite Estart in Hst5.
    advance_with Hal5 Hst5 (Cdelete_uv_poll (next_id w2)) Hal6 Hst6.
    repeat apply conj; try assumption; try apply Hst6. discriminate.
Qed.

Lemma run_StartPolling (p : Platform) (w0 : World) (infos : list (list JsValue)) :
  forall (d : TunDevice) (w : World),
    device_usable d = true ->
    polling_invariant d w ->
    always_between at_most_one_live w0 w ->
    let '(outs, d', w') := run p (map OpStartPolling infos) d w in
    device_usable d' = true /\
    polling_invariant d' w' /\
    always_between at_most_one_live w0 w' /\
    (infos <> [] -> Forall (fun o => o = polling_ok) outs ->
     exists h t, poll_handle_ d' = Some h /\ tsfn_ d' = Some t).
Proof.
  induction infos as [| info rest IH]; intros d w Hu Hinv Hal.
  - cbn [map run].
    split; [assumption | split; [assumption | split; [assumption |]]].
    intros Hne. contradiction Hne. reflexivity.
  - cbn [map run step].
    pose proof (StartPolling_step w0 d info w Hu Hinv Hal) as Hstep.
    pose proof (StartPolling_never_aborts d info w) as Hna.
    destruct (StartPolling d info w) as [[o d1] w1].
    cbn [fst] in Hna. rewrite Hna.
    destruct Hstep as (Hu1 & Hi1 & Ha1 & Hok).
    specialize (IH d1 w1 Hu1 Hi1 Ha1).
    destruct rest as [| info2 rest].
    + cbn [map run] in *.
      split; [assumption | split; [assumption | split; [assumption |]]].
      intros _ Hall. apply Hok. inversion Hall. assumption.
    + destruct (run p (map OpStartPolling (info2 :: rest)) d1 w1) as [[outs d2] w2].
      destruct IH as (Hu2 & Hi2 & Ha2 & Hok2).
      split; [assumption | split; [assumption | split; [assumption |]]].
      intros _ Hall. apply Hok2; [discriminate |]. inversion Hall. assumption.
Qed.

(** The process of one device.  On an open device whose fields name every
    live channel and registration, after one or more [StartPolling] calls that
    all succeeded the device holds one poll handle [h] and one thread-safe
    function [t];
    [h] is the only handle allocated and not deleted and the only one started
    and not stopped, [t] is the only function created and not released; and
    at every moment of the sequence at most one handle and at most one
    function was live, so each call released the previous ones before it
    created new ones. *)
Lemma restart_polling_keeps_one_registration
    (p : Platform) (infos : list (list JsValue)) (d : TunDevice) (w : World) :
  device_usable d = true ->
  polling_invariant d w ->
  infos <> [] ->
  let '(outs, d', w') := run p (map OpStartPolling infos) d w in
  Forall (fun o => o = polling_ok) outs ->
  (exists h t,
      poll_handle_ d' = Some h /\ tsfn_ d' = Some t /\
      live_polls (trace w') = [h] /\ active_polls (trace w') = [h] /\
      live_tsfns (trace w') = [t]) /\
  always_between at_most_one_live w w'.
Proof.
  intros Hu Hinv Hne.
  assert (Hal : always_between at_most_one_live w w).
  { apply always_between_refl. destruct Hinv as (Ht & Hp & Ha).
    unfold at_most_one_live. rewrite Ht, Hp, Ha.
    destruct (tsfn_ d), (poll_handle_ d); cbn; lia. }
  pose proof (run_StartPolling p w infos d w Hu Hinv Hal) as H.
  destruct (run p (map OpStartPolling infos) d w) as [[outs d'] w'].
  destruct H as (_ & (Ht & Hp & Ha) & Hal' & Hok).
  intros Hall. split; [| exact Hal'].
  destruct (Hok Hne Hall) as (h & t & Hh & Htt).
  exists h, t. rewrite Ht, Hp, Ha, Hh, Htt. repeat split.
Qed.

Lemma restart_polling_keeps_one_registration_witness :
  let '(_, d', w') :=
    run Linux (map OpStartPolling [[JsFunction 10]; [JsFunction 11]])
        open_device (boot (quiet_kernel Linux)) in
  (exists h t,
      poll_handle_ d' = Some h /\ tsfn_ d' = Some t /\
      live_polls (trace w') = [h] /\ active_polls (trace w') = [h] /\
      live_tsfns (trace w') = [t]) /\
  always_between at_most_one_live (boot (quiet_kernel Linux)) w'.
Proof.
  pose proof (restart_polling_keeps_one_registration Linux
                [[JsFunction 10]; [JsFunction 11]] open_device
                (boot (quiet_kernel Linux)) eq_refl) as H.
  destruct (run Linux (map OpStartPolling [[JsFunction 10]; [JsFunction 11]])
              open_device (boot (quiet_kernel Linux))) as [[outs d'] w'] eqn:E.
  apply H.
  - repeat split.
  - discriminate.
  - apply (f_equal (fun x => fst (fst x))) in E. vm_compute in E. subst outs.
    repeat constructor.
Defined.

(** The calls of a restart, in order: stop and free the old handle, release
    the old function, then create the new function and the new handle. *)
Example restart_order :
  let w1 := snd (StartPolling open_device [JsFunction 10] (boot (quiet_kernel Linux))) in
  let d1 := snd (fst (StartPolling open_device [JsFunction 10] (boot (quiet_kernel Linux)))) in
  map ev_call (events_since w1 (snd (StartPolling d1 [JsFunction 11] w1)))
  = [Cuv_poll_stop 1; Cdelete_uv_poll 1; Ctsfn_Release 0;
     Ctsfn_New 2 11; Cnew_uv_poll 3; Cuv_poll_init 3 5; Cuv_poll_start 3].
Proof. vm_compute. reflexivity. Qed.

(** ** Restarting: what is released and what is created *)

Lemma live_tsfns_next c w :
  live_tsfns (trace (next c w)) = tsfn_step (live_tsfns (trace w)) (event c w).
Proof. rewrite trace_next. unfold live_tsfns. rewrite fold_left_app. reflexivity. Qed.

Lemma live_polls_next c w :
  live_polls (trace (next c w)) = poll_step (live_polls (trace w)) (event c w).
Proof. rewrite trace_next. unfold live_polls. rewrite fold_left_app. reflexivity. Qed.

Lemma active_polls_next c w :
  active_polls (trace (next c w)) = active_step (active_polls (trace w)) (event c w).
Proof. rewrite trace_next. unfold active_polls. rewrite fold_left_app. reflexivity. Qed.

Lemma remove_id_idempotent (x : nat) (l : list nat) :
  remove_id x (remove_id x l) = remove_id x l.
Proof.
  unfold remove_id. induction l as [| y l IH]; [reflexivity |].
  cbn [filter]. destruct (negb (Nat.eqb y x)) eqn:E; [| exact IH].
  cbn [filter]. rewrite E, IH. reflexivity.
Qed.

Lemma remove_id_below (x : nat) (l : list nat) :
  Forall (fun i => (i < x)%nat) l -> remove_id x l = l.
Proof.
  unfold remove_id. induction 1 as [| y l Hy _ IH]; [reflexivity |].
  cbn [filter].
  assert (E : Nat.eqb y x = false) by (apply Nat.eqb_neq; lia).
  rewrite E, IH. reflexivity.
Qed.

Lemma remove_id_last (x : nat) (l : list nat) :
  Forall (fun i => (i < x)%nat) l -> remove_id x (l ++ [x]) = l.
Proof.
  intros H. unfold remove_id. rewrite filter_app. cbn [filter].
  rewrite Nat.eqb_refl. cbn [negb]. rewrite app_nil_r.
  apply (remove_id_below x l H).
Qed.

Lemma remove_opt_below (o : option nat) (n : nat) (l : list nat) :
  Forall (fun i => (i < n)%nat) l -> Forall (fun i => (i < n)%nat) (remove_opt o l).
Proof.
  intros H. destruct o as [x |]; [| exact H].
  cbn [remove_opt]. unfold remove_id. rewrite Forall_forall in *.
  intros i Hi. apply filter_In in Hi. apply H, Hi.
Qed.

(** [StopPolling]: its calls, and what is live after it. *)
Lemma StopPolling_effect (d : TunDevice) (w : World) :
  let w' := snd (StopPolling d w) in
  (exists evs, trace w' = trace w ++ evs /\ map ev_call evs = stop_calls d) /\
  next_id w' = next_id w /\
  live_tsfns (trace w') = remove_opt (tsfn_ d) (live_tsfns (trace w)) /\
  live_polls (trace w') = remove_opt (poll_handle_ d) (live_polls (trace w)) /\
  active_polls (trace w') = remove_opt (poll_handle_ d) (active_polls (trace w)).
Proof.
  cbv zeta. unfold StopPolling, stop_calls. cbn [snd].
  destruct (poll_handle_ d) as [h |], (tsfn_ d) as [t |]; cbn [remove_opt];
    rewrite ?live_tsfns_next, ?live_polls_next, ?active_polls_next;
    cbn [tsfn_step poll_step active_step event ev_call];
    rewrite ?remove_id_idempotent;
    (split; [| repeat split]).
  - eexists. rewrite !trace_next, <- !app_assoc. cbn [app].
    split; [reflexivity | reflexivity].
  - eexists. rewrite !trace_next, <- !app_assoc. cbn [app].
    split; [reflexivity | reflexivity].
  - eexists. rewrite !trace_next. split; [reflexivity | reflexivity].
  - exists []. rewrite app_nil_r. split; reflexivity.
Qed.

(** One [StartPolling] that succeeds: the previous handle is stopped and
    deleted and the previous function released, whatever else is live stays
    live, and the new function and handle are created and started. *)
Lemma StartPolling_success (d : TunDevice) (info : list JsValue) (w : World) :
  device_usable d = true ->
  fst (fst (StartPolling d info w)) = polling_ok ->
  let n := next_id w in
  let '(_, d', w') := StartPolling d info w in
  exists cb,
    info0 info = JsFunction cb /\
    (exists evs,
        trace w' = trace w ++ evs /\
        map ev_call evs
        = stop_calls d ++ [Ctsfn_New n cb; Cnew_uv_poll (S n);
                           Cuv_poll_init (S n) (fd_ d); Cuv_poll_start (S n)]) /\
    next_id w' = S (S n) /\
    d' = set_poll_handle (set_tsfn d (Some n)) (Some (S n)) /\
    live_tsfns (trace w') = remove_opt (tsfn_ d) (live_tsfns (trace w)) ++ [n] /\
    live_polls (trace w') = remove_opt (poll_handle_ d) (live_polls (trace w)) ++ [S n] /\
    active_polls (trace w')
    = remove_opt (poll_handle_ d) (active_polls (trace w)) ++ [S n].
Proof.
  intros Hu. cbv zeta. unfold StartPolling. rewrite (usable_guard d Hu).
  destruct (info0 info) as [| | b | m | s | data | cb];
    try (cbn [fst]; unfold polling_ok; discriminate).
  pose proof (StopPolling_effect d w) as Hstop. cbv zeta in Hstop.
  assert (Hd1 : fst (StopPolling d w)
                = mkTunDevice (fd_ d) (name_ d) (is_open_ d) None None)
    by reflexivity.
  destruct (StopPolling d w) as [d1 w1]. cbn [fst snd] in Hstop, Hd1. subst d1.
  destruct Hstop as ((evs & Htr & Hcalls) & Hid & Ht & Hp & Ha).
  cbn [set_tsfn set_poll_handle fd_ name_ is_open_ poll_handle_ tsfn_].
  change (next_id (next (Ctsfn_New (next_id w1) cb) (bump w1))) with (S (next_id w1)).
  rewrite Hid.
  set (n := next_id w).
  set (w2 := next (Ctsfn_New n cb) (bump w1)).
  set (w3 := next (Cnew_uv_poll (S n)) (bump w2)).
  set (c4 := Cuv_poll_init (S n) (fd_ d)).
  set (c5 := Cuv_poll_start (S n)).
  destruct (negb (r_ret (reply c4 w3) =? 0));
    [cbn [fst]; unfold polling_ok; discriminate |].
  destruct (r_ret (reply c5 (next c4 w3)) =? 0) eqn:E5; cbn [negb];
    [| cbn [fst]; unfold polling_ok; discriminate].
  intros _. exists cb. split; [reflexivity |].
  split; [| split; [change (S (S (next_id w1)) = S (S n)); rewrite Hid; reflexivity
                   | split; [reflexivity |]]].
  - exists (evs ++ [event (Ctsfn_New n cb) (bump w1); event (Cnew_uv_poll (S n)) (bump w2);
                    event c4 w3; event c5 (next c4 w3)]).
    split.
    + rewrite !trace_next. unfold w3. rewrite trace_next.
      change (trace (bump w2)) with (trace w2). unfold w2. rewrite trace_next.
      change (trace (bump w1)) with (trace w1). rewrite Htr, <- !app_assoc.
      reflexivity.
    + rewrite map_app, Hcalls. reflexivity.
  - subst c5 c4 w3 w2.
    rewrite !live_tsfns_next, !live_polls_next, !active_polls_next.
    cbn [tsfn_step poll_step active_step event ev_call ev_ret].
    rewrite E5.
    change (trace (bump (next (Ctsfn_New n cb) (bump w1))))
      with (trace (next (Ctsfn_New n cb) (bump w1))).
    rewrite !live_tsfns_next, !live_polls_next, !active_polls_next.
    cbn [tsfn_step poll_step active_step event ev_call ev_ret].
    change (trace (bump w1)) with (trace w1).
    rewrite Ht, Hp, Ha. repeat split.
Qed.

Lemma ids_fresh_parts (d : TunDevice) (w : World) :
  ids_fresh d w ->
  Forall (fun i => (i < next_id w)%nat) (live_tsfns (trace w)) /\
  Forall (fun i => (i < next_id w)%nat) (live_polls (trace w)) /\
  Forall (fun i => (i < next_id w)%nat) (active_polls (trace w)).
Proof.
  unfold ids_fresh. rewrite !Forall_app. intros (_ & _ & H1 & H2 & H3).
  repeat split; assumption.
Qed.

Lemma Forall_lt_weaken (n m : nat) (l : list nat) :
  (n <= m)%nat -> Forall (fun i => (i < n)%nat) l -> Forall (fun i => (i < m)%nat) l.
Proof.
  intros Hnm H. apply (Forall_impl _ (fun i (Hi : (i < n)%nat) => Nat.lt_le_trans _ _ _ Hi Hnm) H).
Qed.

(** Successive [StartPolling] calls that all succeed. *)
Lemma run_StartPolling_replaces (p : Platform) (infos : list (list JsValue)) :
  forall (d : TunDevice) (w : World),
    device_usable d = true ->
    ids_fresh d w ->
    infos <> [] ->
    let '(outs, d', w') := run p (map OpStartPolling infos) d w in
    Forall (fun o => o = polling_ok) outs ->
    exists cbs,
      map info0 infos = map JsFunction cbs /\
      (exists evs, trace w' = trace w ++ evs /\
                   map ev_call evs = restart_calls d (next_id w) cbs) /\
      next_id w' = (next_id w + 2 * List.length infos)%nat /\
      let t := (next_id w' - 2)%nat in
      d' = set_poll_handle (set_tsfn d (Some t)) (Some (S t)) /\
      live_tsfns (trace w') = remove_opt (tsfn_ d) (live_tsfns (trace w)) ++ [t] /\
      live_polls (trace w')
      = remove_opt (poll_handle_ d) (live_polls (trace w)) ++ [S t] /\
      active_polls (trace w')
      = remove_opt (poll_handle_ d) (active_polls (trace w)) ++ [S t].
Proof.
  induction infos as [| info rest IH]; intros d w Hu Hfresh Hne;
    [contradiction Hne; reflexivity |].
  cbn [map run step].
  pose proof (StartPolling_success d info w Hu) as Hstep. cbv zeta in Hstep.
  pose proof (StartPolling_never_aborts d info w) as Hna.
  destruct (StartPolling d info w) as [[o d1] w1].
  cbn [fst] in Hna, Hstep. rewrite Hna.
  destruct (ids_fresh_parts d w Hfresh) as (Ft & Fp & Fa).
  destruct rest as [| info2 rest].
  - cbn [map run]. intros Hall. inversion Hall as [| o' l' Ho _]; subst.
    destruct (Hstep eq_refl) as (cb & Hcb & (evs & Htr & Hcalls) & Hid & Hd & Ht & Hp & Ha).
    exists [cb]. cbn [map List.length restart_calls].
    split; [rewrite Hcb; reflexivity |].
    split; [exists evs; split; [exact Htr | rewrite Hcalls, app_nil_r; reflexivity] |].
    split; [lia |].
    cbv zeta. rewrite Hid. cbn [Nat.sub]. rewrite Nat.sub_0_r.
    repeat split; assumption.
  - specialize (IH d1 w1).
    destruct (run p (map OpStartPolling (info2 :: rest)) d1 w1) as [[outs d2] w2].
    intros Hall. inversion Hall as [| o' l' Ho Hrest]; subst.
    destruct (Hstep eq_refl) as (cb & Hcb & (evs & Htr & Hcalls) & Hid & Hd & Ht & Hp & Ha).
    subst d1.
    assert (Hu1 : device_usable
                    (set_poll_handle (set_tsfn d (Some (next_id w))) (Some (S (next_id w))))
                  = true) by exact Hu.
    assert (Hf1 : ids_fresh
                    (set_poll_handle (set_tsfn d (Some (next_id w))) (Some (S (next_id w))))
                    w1).
    { unfold ids_fresh. rewrite Hid, Ht, Hp, Ha.
      cbn [set_poll_handle set_tsfn tsfn_ poll_handle_ option_list app].
      repeat (apply Forall_cons; [lia |]).
      rewrite !Forall_app. repeat split;
        try (apply remove_opt_below, (Forall_lt_weaken (next_id w)); [lia | assumption]);
        repeat (apply Forall_cons; [lia |]); apply Forall_nil. }
    destruct (IH Hu1 Hf1 ltac:(discriminate) Hrest)
      as (cbs & Hcbs & (evs2 & Htr2 & Hcalls2) & Hid2 & Hd2 & Ht2 & Hp2 & Ha2).
    exists (cb :: cbs).
    split; [cbn [map]; rewrite Hcb, <- Hcbs; reflexivity |].
    split.
    { exists (evs ++ evs2). split; [rewrite Htr2, Htr, app_assoc; reflexivity |].
      rewrite map_app, Hcalls, Hcalls2, Hid. cbn [restart_calls].
      rewrite <- !app_assoc. reflexivity. }
    split; [rewrite Hid2, Hid; cbn [List.length]; lia |].
    cbv zeta in *.
    split; [rewrite Hd2; reflexivity |].
    cbn [set_poll_handle set_tsfn tsfn_ poll_handle_ remove_opt] in Ht2, Hp2, Ha2.
    rewrite Ht in Ht2. rewrite Hp in Hp2. rewrite Ha in Ha2.
    rewrite remove_id_last in Ht2
      by (apply remove_opt_below; exact Ft).
    rewrite remove_id_last in Hp2
      by (apply remove_opt_below, (Forall_lt_weaken (next_id w)); [lia | exact Fp]).
    rewrite remove_id_last in Ha2
      by (apply remove_opt_below, (Forall_lt_weaken (next_id w)); [lia | exact Fa]).
    repeat split; assumption.
Qed.

(** C8.  On an open device, one or more [StartPolling] calls that all
    succeed make exactly these calls, in this order: each call first stops
    and deletes the poll handle the device holds and releases its
    thread-safe function, and only then creates and starts new ones.
    Afterwards the device holds the function and the handle that the last
    call created; both are live, the handle started; everything the device
    held before and everything the earlier calls created is released; and
    what other devices hold is live as before. *)
Theorem restart_polling_replaces_registration
    (p : Platform) (infos : list (list JsValue)) (d : TunDevice) (w : World) :
  device_usable d = true ->
  ids_fresh d w ->
  infos <> [] ->
  let '(outs, d', w') := run p (map OpStartPolling infos) d w in
  Forall (fun o => o = polling_ok) outs ->
  exists cbs,
    map info0 infos = map JsFunction cbs /\
    map ev_call (events_since w w') = restart_calls d (next_id w) cbs /\
    let t := (next_id w + 2 * (List.length infos - 1))%nat in
    tsfn_ d' = Some t /\ poll_handle_ d' = Some (S t) /\
    live_tsfns (trace w') = remove_opt (tsfn_ d) (live_tsfns (trace w)) ++ [t] /\
    live_polls (trace w') = remove_opt (poll_handle_ d) (live_polls (trace w)) ++ [S t] /\
    active_polls (trace w')
    = remove_opt (poll_handle_ d) (active_polls (trace w)) ++ [S t].
Proof.
  intros Hu Hfresh Hne.
  pose proof (run_StartPolling_replaces p infos d w Hu Hfresh Hne) as H.
  destruct (run p (map OpStartPolling infos) d w) as [[outs d'] w'].
  intros Hall.
  destruct (H Hall) as (cbs & Hcbs & (evs & Htr & Hcalls) & Hid & Hd & Ht & Hp & Ha).
  exists cbs. split; [exact Hcbs |].
  split; [rewrite (events_since_app w w' evs Htr); exact Hcalls |].
  cbv zeta in *.
  assert (Hlen : (0 < List.length infos)%nat)
    by (destruct infos; [contradiction Hne; reflexivity | cbn; lia]).
  replace (next_id w + 2 * (List.length infos - 1))%nat with (next_id w' - 2)%nat by lia.
  rewrite Hd. repeat split; assumption.
Qed.

Lemma restart_polling_replaces_registration_witness :
  let w := polling_world (quiet_kernel Linux) in
  let '(_, d', w') :=
    run Linux (map OpStartPolling [[JsFunction 11]; [JsFunction 12]])
        (polling_device (quiet_kernel Linux)) w in
  map ev_call (events_since w w')
  = [Cuv_poll_stop 1; Cdelete_uv_poll 1; Ctsfn_Release 0;
     Ctsfn_New 2 11; Cnew_uv_poll 3; Cuv_poll_init 3 5; Cuv_poll_start 3;
     Cuv_poll_stop 3; Cdelete_uv_poll 3; Ctsfn_Release 2;
     Ctsfn_New 4 12; Cnew_uv_poll 5; Cuv_poll_init 5 5; Cuv_poll_start 5] /\
  tsfn_ d' = Some 4%nat /\ poll_handle_ d' = Some 5%nat /\
  live_tsfns (trace w') = [4%nat] /\ live_polls (trace w') = [5%nat] /\
  active_polls (trace w') = [5%nat].
Proof.
  cbv zeta.
  pose proof (restart_polling_replaces_registration Linux
                [[JsFunction 11]; [JsFunction 12]]
                (polling_device (quiet_kernel Linux))
                (polling_world (quiet_kernel Linux)) eq_refl) as H.
  destruct (run Linux (map OpStartPolling [[JsFunction 11]; [JsFunction 12]])
              (polling_device (quiet_kernel Linux))
              (polling_world (quiet_kernel Linux))) as [[outs d'] w'] eqn:E.
  destruct H as (cbs & Hcbs & Hcalls & Ht & Hp & Hlt & Hlp & Hla).
  - vm_compute. repeat constructor.
  - discriminate.
  - apply (f_equal (fun x => fst (fst x))) in E. vm_compute in E. subst outs.
    repeat constructor.
  - assert (Hc : cbs = [11%nat; 12%nat]).
    { destruct cbs as [| a [| b [| c cbs]]]; try discriminate Hcbs.
      injection Hcbs as <- <-. reflexivity. }
    subst cbs.
    split; [exact Hcalls | split; [exact Ht | split; [exact Hp |]]].
    split; [exact Hlt | split; [exact Hlp | exact Hla]].
Defined.

(** ** What the operations leave alone *)

Lemma frame_refl w : frame w w.
Proof. repeat split. Qed.

Lemma frame_trans w1 w2 w3 : frame w1 w2 -> frame w2 w3 -> frame w1 w3.
Proof.
  intros (A1 & A2 & A3 & A4) (B1 & B2 & B3 & B4).
  repeat split; congruence.
Qed.

Lemma frame_next c w : frame w (next c w).
Proof. repeat split. Qed.

Lemma frame_bump w : frame w (bump w).
Proof. repeat split. Qed.

Lemma frame_destroy fd w : frame w (FileDescriptor.destroy fd w).
Proof.
  unfold FileDescriptor.destroy. destruct (0 <=? fd);
    [apply frame_next | apply frame_refl].
Qed.

Lemma frame_scan_units fd sc_id fuel :
  forall u w, frame w (snd (scan_units fuel u fd sc_id w)).
Proof.
  induction fuel as [| fuel IH]; intros u w; cbn [scan_units];
    [apply frame_refl |].
  destruct (u <? 255); [| apply frame_refl].
  destruct (r_ret (reply (Cconnect fd sc_id u) w) =? 0); [apply frame_next |].
  destruct (negb (errno (next (Cconnect fd sc_id u) w) =? EBUSY));
    [apply frame_next |].
  apply (frame_trans _ (next (Cconnect fd sc_id u) w)); [apply frame_next | apply IH].
Qed.

Lemma frame_connect_utun name fd sc_id w :
  frame w (snd (connect_utun name fd sc_id w)).
Proof.
  unfold connect_utun. destruct (0 <? utun_unit_of name).
  - destruct (r_ret (reply (Cconnect fd sc_id (utun_unit_of name)) w) <? 0);
      apply frame_next.
  - apply frame_scan_units.
Qed.

Ltac frame_chain :=
  repeat first
    [ apply frame_refl
    | apply frame_next
    | apply frame_bump
    | apply frame_destroy
    | match goal with
      | |- frame ?w (next ?c ?w1) => apply (frame_trans w w1); [| apply frame_next]
      | |- frame ?w (bump ?w1) => apply (frame_trans w w1); [| apply frame_bump]
      | |- frame ?w (FileDescriptor.destroy ?fd ?w1) =>
          apply (frame_trans w w1); [| apply frame_destroy]
      end ].

Lemma frame_open_finish p temp_fd d w :
  frame w (snd (open_finish p temp_fd d w)).
Proof.
  unfold open_finish, open_fail, FileDescriptor.move_assign.
  repeat match goal with
         | |- context [if ?b then _ else _] => destruct b
         end; cbn [snd]; frame_chain.
Qed.

Lemma frame_open_darwin d w : frame w (snd (open_darwin d w)).
Proof.
  unfold open_darwin, open_fail.
  destruct (negb (FileDescriptor.is_valid (r_ret (reply Csocket w))));
    [cbn [snd]; frame_chain |].
  match goal with |- context [if ?b then _ else _] => destruct b end;
    [cbn [snd]; frame_chain |].
  match goal with
  | |- context [connect_utun ?n ?f ?i ?w2] =>
      pose proof (frame_connect_utun n f i w2) as Hc;
      destruct (connect_utun n f i w2) as [[m |] w3]
  end; cbn [snd] in Hc.
  - cbn [snd]. apply (frame_trans _ w3); [| apply frame_destroy].
    eapply frame_trans; [| exact Hc]. frame_chain.
  - assert (H3 : frame w w3) by (eapply frame_trans; [| exact Hc]; frame_chain).
    match goal with |- context [if ?b then _ else _] => destruct b end.
    + cbn [snd]. apply (frame_trans _ w3); [exact H3 | frame_chain].
    + eapply frame_trans; [| apply frame_open_finish].
      apply (frame_trans _ w3); [exact H3 | frame_chain].
Qed.

Lemma frame_open_linux d w : frame w (snd (open_linux d w)).
Proof.
  unfold open_linux, open_fail.
  destruct (negb (r_ret (reply Cstat_dev_net_tun w) =? 0));
    [cbn [snd]; frame_chain |].
  match goal with |- context [if ?b then _ else _] => destruct b end;
    [cbn [snd]; frame_chain |].
  match goal with |- context [if ?b then _ else _] => destruct b end;
    [cbn [snd]; frame_chain |].
  eapply frame_trans; [| apply frame_open_finish]. frame_chain.
Qed.

Lemma frame_Open p d w : frame w (snd (Open p d w)).
Proof.
  unfold Open. destruct (is_open_ d); [apply frame_refl |].
  destruct (g_shutdown_requested w); [apply frame_refl |].
  destruct p; [apply frame_open_darwin | apply frame_open_linux].
Qed.

Lemma frame_StopPolling d w : frame w (snd (StopPolling d w)).
Proof.
  unfold StopPolling. cbn [snd].
  destruct (tsfn_ d), (poll_handle_ d); frame_chain.
Qed.

Lemma frame_CloseInternal d w : frame w (snd (CloseInternal d w)).
Proof.
  unfold CloseInternal, FileDescriptor.reset.
  destruct (is_open_ d); [| apply frame_refl].
  cbn [StopPolling fd_ tsfn_ poll_handle_ snd].
  destruct (0 <=? fd_ d), (tsfn_ d), (poll_handle_ d); frame_chain.
Qed.

Lemma frame_Read p d info w : frame w (snd (Read p d info w)).
Proof.
  unfold Read, read_darwin, read_linux.
  destruct p;
    repeat match goal with
           | |- context [if ?b then _ else _] => destruct b
           end; cbn [snd]; frame_chain.
Qed.

Lemma frame_Write p d info w : frame w (snd (Write p d info w)).
Proof.
  unfold Write, write_darwin, write_linux.
  destruct info as [| [| | | | | data |] rest]; destruct p;
    repeat match goal with
           | |- context [if ?b then _ else _] => destruct b
           end; cbn [snd]; frame_chain.
Qed.

Lemma frame_StartPolling d info w : frame w (snd (StartPolling d info w)).
Proof.
  unfold StartPolling.
  destruct (negb (is_open_ d) || negb (FileDescriptor.is_valid (fd_ d)));
    [apply frame_refl |].
  destruct (info0 info); try apply frame_refl.
  pose proof (frame_StopPolling d w) as Hs.
  destruct (StopPolling d w) as [d1 w1]. cbn [snd] in Hs.
  repeat match goal with
         | |- context [if ?b then _ else _] => destruct b
         end; cbn [snd]; (eapply frame_trans; [exact Hs |]); frame_chain.
Qed.

Lemma frame_PollCallback p d status events w :
  frame w (world_of (PollCallback p d status events w)).
Proof.
  unfold PollCallback, BlockingCall.
  destruct p, (tsfn_ d);
    repeat match goal with
           | |- context [if ?b then _ else _] => destruct b
           end; cbn [world_of]; frame_chain.
Qed.

Lemma frame_step p o d w : frame w (snd (step p o d w)).
Proof.
  destruct o; cbn [step].
  - apply frame_Open.
  - unfold Close. pose proof (frame_CloseInternal d w) as H.
    destruct (CloseInternal d w). exact H.
  - pose proof (frame_Read p d info w) as H. destruct (Read p d info w). exact H.
  - pose proof (frame_Write p d info w) as H. destruct (Write p d info w). exact H.
  - apply frame_refl.
  - apply frame_refl.
  - apply frame_StartPolling.
  - destruct (poll_handle_ d); [| apply frame_refl].
    pose proof (frame_PollCallback p d status events w) as H.
    destruct (PollCallback p d status events w); exact H.
Qed.

Lemma frame_run p ops : forall d w, frame w (snd (run p ops d w)).
Proof.
  induction ops as [| o ops IH]; intros d w; cbn [run]; [apply frame_refl |].
  pose proof (frame_step p o d w) as H1.
  destruct (step p o d w) as [[r d1] w1]. cbn [snd] in H1.
  destruct (is_aborted r); [exact H1 |].
  pose proof (IH d1 w1) as H2.
  destruct (run p ops d1 w1) as [[rs d2] w2]. cbn [snd] in *.
  eapply frame_trans; eassumption.
Qed.

(** ** The handle and the name of an open device *)

Lemma open_finish_success p temp_fd d w v d' w' :
  open_finish p temp_fd d w = (Returned v, d', w') ->
  v = JsBoolean true /\ is_open_ d' = true /\ fd_ d' = temp_fd /\
  name_ d' = name_ d /\
  poll_handle_ d' = poll_handle_ d /\ tsfn_ d' = tsfn_ d.
Proof.
  unfold open_finish, open_fail, FileDescriptor.move_assign.
  repeat match goal with
         | |- context [if (r_ret ?r <? 0) then _ else _] => destruct (r_ret r <? 0)
         end; try discriminate.
  intros H. injection H as <- <- <-. repeat split.
Qed.

Lemma open_darwin_success d w v d' w' :
  open_darwin d w = (Returned v, d', w') ->
  v = JsBoolean true /\ is_open_ d' = true /\ 0 <= fd_ d' /\
  poll_handle_ d' = poll_handle_ d /\ tsfn_ d' = tsfn_ d /\
  (kernel_names_interfaces (kernel w) -> name_ d' <> EmptyString).
Proof.
  unfold open_darwin, open_fail, FileDescriptor.is_valid.
  set (temp_fd := r_ret (reply Csocket w)).
  destruct (0 <=? temp_fd) eqn:Hv; cbn [negb]; [| discriminate].
  set (c2 := Cioctl_CTLIOCGINFO temp_fd).
  destruct (r_ret (reply c2 (next Csocket w)) <? 0); [discriminate |].
  pose proof (frame_connect_utun (name_ d) temp_fd
                (r_id (reply c2 (next Csocket w))) (next c2 (next Csocket w)))
    as Hf.
  destruct (connect_utun (name_ d) temp_fd
              (r_id (reply c2 (next Csocket w))) (next c2 (next Csocket w)))
    as [[m |] w3]; [discriminate |].
  cbn [snd] in Hf. destruct Hf as (Hkern & _).
  set (c4 := Cgetsockopt_IFNAME temp_fd).
  destruct (r_ret (reply c4 w3) <? 0) eqn:E4; [discriminate |].
  intros H. apply open_finish_success in H.
  destruct H as (-> & Ho & Hfd & Hn & Hp & Ht).
  split; [reflexivity | split; [exact Ho | split; [| split; [exact Hp | split]]]].
  - rewrite Hfd. apply Z.leb_le. exact Hv.
  - exact Ht.
  - intros Hk. rewrite Hn. cbn [set_name name_]. unfold reply. rewrite Hkern.
    apply Hk; [reflexivity |].
    apply Z.ltb_ge in E4. unfold reply in E4. rewrite Hkern in E4. exact E4.
Qed.

Lemma open_linux_success d w v d' w' :
  open_linux d w = (Returned v, d', w') ->
  v = JsBoolean true /\ is_open_ d' = true /\ 0 <= fd_ d' /\
  poll_handle_ d' = poll_handle_ d /\ tsfn_ d' = tsfn_ d /\
  (kernel_names_interfaces (kernel w) -> name_ d' <> EmptyString).
Proof.
  unfold open_linux, open_fail, FileDescriptor.is_valid.
  destruct (negb (r_ret (reply Cstat_dev_net_tun w) =? 0)); [discriminate |].
  set (w1 := next Cstat_dev_net_tun w).
  set (temp_fd := r_ret (reply Copen_dev_net_tun w1)).
  destruct (0 <=? temp_fd) eqn:Hv; cbn [negb]; [| discriminate].
  match goal with
  | |- context [Cioctl_TUNSETIFF temp_fd ?n ?f] => set (c3 := Cioctl_TUNSETIFF temp_fd n f)
  end.
  destruct (r_ret (reply c3 (next Copen_dev_net_tun w1)) <? 0) eqn:E3;
    [discriminate |].
  intros H. apply open_finish_success in H.
  destruct H as (-> & Ho & Hfd & Hn & Hp & Ht).
  split; [reflexivity | split; [exact Ho | split; [| split; [exact Hp | split]]]].
  - rewrite Hfd. apply Z.leb_le. exact Hv.
  - exact Ht.
  - intros Hk. rewrite Hn. cbn [set_name name_].
    apply (Hk (trace (next Copen_dev_net_tun w1)) c3); [reflexivity |].
    apply Z.ltb_ge in E3. exact E3.
Qed.

(** [Open] never touches the poll fields. *)
Lemma Open_keeps_polling p d w :
  poll_handle_ (snd (fst (Open p d w))) = poll_handle_ d /\
  tsfn_ (snd (fst (Open p d w))) = tsfn_ d.
Proof.
  destruct (Open p d w) as [[o d'] w'] eqn:E. cbn [fst snd].
  unfold Open in E. destruct (is_open_ d) eqn:Ho.
  { injection E as <- <- <-. split; reflexivity. }
  destruct (g_shutdown_requested w).
  { injection E as <- <- <-. split; reflexivity. }
  destruct o as [v | k msg |], p.
  - apply open_darwin_success in E. split; apply E.
  - apply open_linux_success in E. split; apply E.
  - apply open_darwin_failure in E. split; apply E.
  - apply open_linux_failure in E. split; apply E.
  - apply open_darwin_never_aborts in E. destruct E.
  - apply open_linux_never_aborts in E. destruct E.
Qed.


Lemma StartPolling_keeps_device d info w :
  is_open_ (snd (fst (StartPolling d info w))) = is_open_ d /\
  fd_ (snd (fst (StartPolling d info w))) = fd_ d /\
  name_ (snd (fst (StartPolling d info w))) = name_ d.
Proof.
  unfold StartPolling.
  destruct (negb (is_open_ d) || negb (FileDescriptor.is_valid (fd_ d)));
    [repeat split |].
  destruct (info0 info); try solve [repeat split].
  cbn [StopPolling].
  repeat match goal with
         | |- context [if ?b then _ else _] => destruct b
         end; repeat split.
Qed.







(** ** [Napi::String::New] on the name *)






Lemma utf8_to_js_empty : utf8_to_js EmptyString = EmptyString.
Proof. reflexivity. Qed.

(** A name of 7-bit characters reaches JavaScript as it is. *)
Lemma utf8_to_js_seven_bit (s : string) :
  seven_bit s = true -> utf8_to_js s = s.
Proof.
  unfold utf8_to_js. induction s as [| b r IH]; intros H; [reflexivity |].
  cbn [seven_bit] in H. apply andb_prop in H. destruct H as [Hb Hr].
  cbn [utf8_scan utf8_step]. unfold utf8_lead. rewrite Hb.
  cbn [String.append]. rewrite (IH Hr). reflexivity.
Qed.







Example nameless_kernel_run :
  fst (fst (run Linux [OpOpen; OpGetName; OpGetFd] (TunDevice_new [])
              (boot nameless_kernel)))
  = [Returned (JsBoolean true); Returned (JsString EmptyString);
     Returned (JsNumber 5)].
Proof. reflexivity. Qed.

(** The end-to-end run of the specification on the sample kernel: open
    "probe0", write 20 bytes, read back nothing. *)
Example probe0_round :
  fst (fst (run Linux [OpOpen; OpGetName; OpWrite [JsBuffer (repeat x00 20)];
                       OpRead [JsNumber 4096]; OpClose; OpGetFd]
              (TunDevice_new [JsString "probe0"]) (boot (quiet_kernel Linux))))
  = [Returned (JsBoolean true); Returned (JsString "probe0");
     Returned (JsNumber 20); Returned (JsBuffer []);
     Returned (JsBoolean true); Returned (JsNumber (-1))].
Proof. vm_compute. reflexivity. Qed.

(** ** The polling invariant over a device's life *)

Lemma same_live_refl w : same_live w w.
Proof. repeat split. Qed.

Lemma same_live_trans w1 w2 w3 : same_live w1 w2 -> same_live w2 w3 -> same_live w1 w3.
Proof.
  intros (A1 & A2 & A3) (B1 & B2 & B3). repeat split; congruence.
Qed.

Lemma same_live_next c w : touches_polling c = false -> same_live w (next c w).
Proof.
  intros Hc. unfold same_live, live_tsfns, live_polls, active_polls.
  rewrite trace_next, !fold_left_app. cbn [fold_left].
  unfold tsfn_step, poll_step, active_step. cbn [event ev_call].
  destruct c; try discriminate Hc; repeat split.
Qed.

Lemma same_live_bump w : same_live w (bump w).
Proof. repeat split. Qed.

Lemma same_live_destroy fd w : same_live w (FileDescriptor.destroy fd w).
Proof.
  unfold FileDescriptor.destroy. destruct (0 <=? fd);
    [apply same_live_next; reflexivity | apply same_live_refl].
Qed.

Ltac live_chain :=
  repeat first
    [ apply same_live_refl
    | apply same_live_bump
    | apply same_live_destroy
    | apply same_live_next; reflexivity
    | match goal with
      | |- same_live ?w (next ?c ?w1) =>
          apply (same_live_trans w w1); [| apply same_live_next; reflexivity]
      | |- same_live ?w (FileDescriptor.destroy ?fd ?w1) =>
          apply (same_live_trans w w1); [| apply same_live_destroy]
      end ].

Lemma same_live_scan_units fd sc_id fuel :
  forall u w, same_live w (snd (scan_units fuel u fd sc_id w)).
Proof.
  induction fuel as [| fuel IH]; intros u w; cbn [scan_units];
    [apply same_live_refl |].
  destruct (u <? 255); [| apply same_live_refl].
  destruct (r_ret (reply (Cconnect fd sc_id u) w) =? 0); [live_chain |].
  destruct (negb (errno (next (Cconnect fd sc_id u) w) =? EBUSY)); [live_chain |].
  apply (same_live_trans _ (next (Cconnect fd sc_id u) w)); [live_chain | apply IH].
Qed.

Lemma same_live_connect_utun name fd sc_id w :
  same_live w (snd (connect_utun name fd sc_id w)).
Proof.
  unfold connect_utun. destruct (0 <? utun_unit_of name).
  - destruct (r_ret (reply (Cconnect fd sc_id (utun_unit_of name)) w) <? 0);
      live_chain.
  - apply same_live_scan_units.
Qed.

Lemma same_live_open_finish p temp_fd d w :
  same_live w (snd (open_finish p temp_fd d w)).
Proof.
  unfold open_finish, open_fail, FileDescriptor.move_assign.
  repeat match goal with
         | |- context [if ?b then _ else _] => destruct b
         end; cbn [snd]; live_chain.
Qed.

Lemma same_live_open_darwin d w : same_live w (snd (open_darwin d w)).
Proof.
  unfold open_darwin, open_fail.
  destruct (negb (FileDescriptor.is_valid (r_ret (reply Csocket w))));
    [cbn [snd]; live_chain |].
  match goal with |- context [if ?b then _ else _] => destruct b end;
    [cbn [snd]; live_chain |].
  match goal with
  | |- context [connect_utun ?n ?f ?i ?w2] =>
      pose proof (same_live_connect_utun n f i w2) as Hc;
      destruct (connect_utun n f i w2) as [[m |] w3]
  end; cbn [snd] in Hc.
  - cbn [snd]. apply (same_live_trans _ w3); [| apply same_live_destroy].
    eapply same_live_trans; [| exact Hc]. live_chain.
  - assert (H3 : same_live w w3)
      by (eapply same_live_trans; [| exact Hc]; live_chain).
    match goal with |- context [if ?b then _ else _] => destruct b end.
    + cbn [snd]. apply (same_live_trans _ w3); [exact H3 | live_chain].
    + eapply same_live_trans; [| apply same_live_open_finish].
      apply (same_live_trans _ w3); [exact H3 | live_chain].
Qed.

Lemma same_live_open_linux d w : same_live w (snd (open_linux d w)).
Proof.
  unfold open_linux, open_fail.
  destruct (negb (r_ret (reply Cstat_dev_net_tun w) =? 0));
    [cbn [snd]; live_chain |].
  match goal with |- context [if ?b then _ else _] => destruct b end;
    [cbn [snd]; live_chain |].
  match goal with |- context [if ?b then _ else _] => destruct b end;
    [cbn [snd]; live_chain |].
  eapply same_live_trans; [| apply same_live_open_finish]. live_chain.
Qed.

Lemma same_live_Open p d w : same_live w (snd (Open p d w)).
Proof.
  unfold Open. destruct (is_open_ d); [apply same_live_refl |].
  destruct (g_shutdown_requested w); [apply same_live_refl |].
  destruct p; [apply same_live_open_darwin | apply same_live_open_linux].
Qed.

Lemma same_live_Read p d info w : same_live w (snd (Read p d info w)).
Proof.
  unfold Read, read_darwin, read_linux.
  destruct p;
    repeat match goal with
           | |- context [if ?b then _ else _] => destruct b
           end; cbn [snd]; live_chain.
Qed.

Lemma same_live_Write p d info w : same_live w (snd (Write p d info w)).
Proof.
  unfold Write, write_darwin, write_linux.
  destruct info as [| [| | | | | data |] rest]; destruct p;
    repeat match goal with
           | |- context [if ?b then _ else _] => destruct b
           end; cbn [snd]; live_chain.
Qed.

Lemma same_live_PollCallback p d status events w :
  same_live w (world_of (PollCallback p d status events w)).
Proof.
  unfold PollCallback, BlockingCall.
  destruct p, (tsfn_ d);
    repeat match goal with
           | |- context [if ?b then _ else _] => destruct b
           end; cbn [world_of]; live_chain.
Qed.

Lemma polling_invariant_same_live d d' w w' :
  polling_invariant d w ->
  same_live w w' ->
  poll_handle_ d' = poll_handle_ d ->
  tsfn_ d' = tsfn_ d ->
  polling_invariant d' w'.
Proof.
  intros (Ht & Hp & Ha) (St & Sp & Sa) Eh Et.
  unfold polling_invariant. rewrite St, Sp, Sa, Eh, Et. repeat split; assumption.
Qed.

Lemma polling_invariant_at_most_one d w :
  polling_invariant d w -> at_most_one_live (trace w).
Proof.
  intros (Ht & Hp & Ha). unfold at_most_one_live. rewrite Ht, Hp, Ha.
  destruct (tsfn_ d), (poll_handle_ d); cbn; lia.
Qed.

(** Every operation keeps the device's fields in step with what is live. *)
Lemma step_polling_invariant p o d w :
  polling_invariant d w ->
  polling_invariant (snd (fst (step p o d w))) (snd (step p o d w)).
Proof.
  intros Hinv. destruct o; cbn [step].
  - apply (polling_invariant_same_live d _ w _ Hinv (same_live_Open p d w));
      apply Open_keeps_polling.
  - (* Close *)
    unfold Close, CloseInternal. destruct (is_open_ d); [| exact Hinv].
    pose proof (StopPolling_releases w
                  (mkTunDevice (fd_ d) (name_ d) false (poll_handle_ d) (tsfn_ d))
                  w Hinv
                  (always_between_refl _ _ (polling_invariant_at_most_one d w Hinv)))
      as (Hd & Hst & _).
    destruct (StopPolling
                (mkTunDevice (fd_ d) (name_ d) false (poll_handle_ d) (tsfn_ d)) w)
      as [d1 w1].
    cbn [fst snd] in Hd, Hst. subst d1.
    unfold FileDescriptor.reset. cbn [fst snd fd_].
    apply (polling_invariant_same_live
             (mkTunDevice (fd_ d) (name_ d) false None None) _ w1);
      [exact Hst | | reflexivity | reflexivity].
    destruct (0 <=? fd_ d); live_chain.
  - pose proof (same_live_Read p d info w) as Hs.
    destruct (Read p d info w) as [r w1]. cbn [fst snd] in *.
    apply (polling_invariant_same_live d d w w1 Hinv Hs); reflexivity.
  - pose proof (same_live_Write p d info w) as Hs.
    destruct (Write p d info w) as [r w1]. cbn [fst snd] in *.
    apply (polling_invariant_same_live d d w w1 Hinv Hs); reflexivity.
  - exact Hinv.
  - exact Hinv.
  - (* StartPolling *)
    unfold StartPolling at 1 2.
    destruct (negb (is_open_ d) || negb (FileDescriptor.is_valid (fd_ d))) eqn:Eg;
      [exact Hinv |].
    assert (Hu : device_usable d = true).
    { unfold device_usable. apply orb_false_iff in Eg. destruct Eg as [E1 E2].
      apply negb_false_iff in E1. apply negb_false_iff in E2.
      rewrite E1, E2. reflexivity. }
    pose proof (StartPolling_step w d info w Hu Hinv
                  (always_between_refl _ _ (polling_invariant_at_most_one d w Hinv)))
      as Hstep.
    unfold StartPolling in Hstep. rewrite Eg in Hstep.
    match goal with
    | |- polling_invariant (snd (fst ?x)) (snd ?x) =>
        destruct x as [[o d'] w']
    end.
    apply Hstep.
  - destruct (poll_handle_ d) eqn:Eh; [| exact Hinv].
    pose proof (same_live_PollCallback p d status events w) as Hs.
    destruct (PollCallback p d status events w) as [w1 | w1]; cbn [fst snd world_of] in *;
      apply (polling_invariant_same_live d d w w1 Hinv Hs); reflexivity.
Qed.

Lemma run_polling_invariant p ops :
  forall d w,
    polling_invariant d w ->
    polling_invariant (snd (fst (run p ops d w))) (snd (run p ops d w)).
Proof.
  induction ops as [| o ops IH]; intros d w Hinv; cbn [run]; [exact Hinv |].
  pose proof (step_polling_invariant p o d w Hinv) as H1.
  destruct (step p o d w) as [[r d1] w1]. cbn [fst snd] in H1.
  destruct (is_aborted r); [exact H1 |].
  pose proof (IH d1 w1 H1) as H2.
  destruct (run p ops d1 w1) as [[rs d2] w2]. exact H2.
Qed.

(** ** Identities stay fresh *)

Lemma remove_id_Forall (P : nat -> Prop) (x : nat) (l : list nat) :
  Forall P l -> Forall P (remove_id x l).
Proof.
  unfold remove_id. rewrite !Forall_forall. intros H i Hi.
  apply filter_In in Hi. apply H, Hi.
Qed.

Lemma snoc_below (n x : nat) (l : list nat) :
  Forall (fun i => (i < n)%nat) l -> (x < n)%nat ->
  Forall (fun i => (i < n)%nat) (l ++ [x]).
Proof.
  intros H Hx. apply Forall_app. split; [exact H |].
  constructor; [exact Hx | constructor].
Qed.

Lemma live_below_next (n : nat) (c : Call) (w : World) :
  live_below n (trace w) -> call_id_below n c -> live_below n (trace (next c w)).
Proof.
  intros (Ht & Hp & Ha) Hc. unfold live_below.
  rewrite live_tsfns_next, live_polls_next, active_polls_next.
  unfold tsfn_step, poll_step, active_step. cbn [event ev_call ev_ret].
  destruct c; cbn [call_id_below] in Hc;
    repeat split;
    try assumption;
    try (apply remove_id_Forall; assumption);
    try (apply snoc_below; assumption).
  destruct (r_ret (reply (Cuv_poll_start h) w) =? 0);
    [apply snoc_below; assumption | assumption].
Qed.

Lemma live_below_mono (n m : nat) (tr : list Event) :
  (n <= m)%nat -> live_below n tr -> live_below m tr.
Proof.
  intros Hnm (Ht & Hp & Ha).
  repeat split; apply (Forall_lt_weaken n m); assumption.
Qed.

Lemma ids_fresh_split (d : TunDevice) (w : World) :
  ids_fresh d w <->
  Forall (fun i => (i < next_id w)%nat) (option_list (tsfn_ d)) /\
  Forall (fun i => (i < next_id w)%nat) (option_list (poll_handle_ d)) /\
  live_below (next_id w) (trace w).
Proof. unfold ids_fresh, live_below. rewrite !Forall_app. tauto. Qed.

Lemma next_id_destroy fd w : next_id (FileDescriptor.destroy fd w) = next_id w.
Proof. unfold FileDescriptor.destroy. destruct (0 <=? fd); reflexivity. Qed.

Lemma next_id_scan_units fd sc_id fuel :
  forall u w, next_id (snd (scan_units fuel u fd sc_id w)) = next_id w.
Proof.
  induction fuel as [| fuel IH]; intros u w; cbn [scan_units]; [reflexivity |].
  repeat match goal with
         | |- context [if ?b then _ else _] => destruct b
         end; try reflexivity.
  rewrite IH. reflexivity.
Qed.

Lemma next_id_connect_utun name fd sc_id w :
  next_id (snd (connect_utun name fd sc_id w)) = next_id w.
Proof.
  unfold connect_utun.
  repeat match goal with
         | |- context [if ?b then _ else _] => destruct b
         end; try reflexivity.
  apply next_id_scan_units.
Qed.

Lemma next_id_open_finish p temp_fd d w :
  next_id (snd (open_finish p temp_fd d w)) = next_id w.
Proof.
  unfold open_finish, open_fail, FileDescriptor.move_assign, FileDescriptor.destroy.
  repeat match goal with
         | |- context [if ?b then _ else _] => destruct b
         end; reflexivity.
Qed.

Lemma next_id_Open p d w : next_id (snd (Open p d w)) = next_id w.
Proof.
  unfold Open. destruct (is_open_ d); [reflexivity |].
  destruct (g_shutdown_requested w); [reflexivity |].
  destruct p.
  - unfold open_darwin, open_fail.
    destruct (negb (FileDescriptor.is_valid (r_ret (reply Csocket w))));
      [cbn [snd]; rewrite next_id_destroy; reflexivity |].
    match goal with |- context [if ?b then _ else _] => destruct b end;
      [cbn [snd]; rewrite next_id_destroy; reflexivity |].
    match goal with
    | |- context [connect_utun ?n ?f ?i ?w2] =>
        pose proof (next_id_connect_utun n f i w2) as Hc;
        destruct (connect_utun n f i w2) as [[m |] w3]
    end; cbn [snd] in Hc.
    + cbn [snd]. rewrite next_id_destroy. exact Hc.
    + match goal with |- context [if ?b then _ else _] => destruct b end.
      * cbn [snd]. rewrite next_id_destroy. exact Hc.
      * rewrite next_id_open_finish. exact Hc.
  - unfold open_linux, open_fail.
    repeat match goal with
           | |- context [if ?b then _ else _] => destruct b
           end; cbn [snd];
      rewrite ?next_id_destroy, ?next_id_open_finish; reflexivity.
Qed.

Lemma next_id_Read p d info w : next_id (snd (Read p d info w)) = next_id w.
Proof.
  unfold Read, read_darwin, read_linux.
  destruct p;
    repeat match goal with
           | |- context [if ?b then _ else _] => destruct b
           end; reflexivity.
Qed.

Lemma next_id_Write p d info w : next_id (snd (Write p d info w)) = next_id w.
Proof.
  unfold Write, write_darwin, write_linux.
  destruct (negb (is_open_ d) || negb (FileDescriptor.is_valid (fd_ d)));
    [reflexivity |].
  destruct (g_shutdown_requested w); [reflexivity |].
  destruct info as [| [| | b | n | s | data | cb] rest]; try reflexivity.
  destruct p;
    repeat match goal with
           | |- context [if ?b then _ else _] => destruct b
           end; reflexivity.
Qed.

Lemma next_id_PollCallback p d status events w :
  next_id (world_of (PollCallback p d status events w)) = next_id w.
Proof.
  unfold PollCallback, BlockingCall.
  destruct p, (tsfn_ d);
    repeat match goal with
           | |- context [if ?b then _ else _] => destruct b
           end; reflexivity.
Qed.

Lemma ids_fresh_same_live d d' w w' :
  ids_fresh d w ->
  same_live w w' -> next_id w' = next_id w ->
  tsfn_ d' = tsfn_ d -> poll_handle_ d' = poll_handle_ d ->
  ids_fresh d' w'.
Proof.
  unfold ids_fresh. intros H (Ht & Hp & Ha) Hn Hdt Hdp.
  rewrite Ht, Hp, Ha, Hn, Hdt, Hdp. exact H.
Qed.

Lemma StopPolling_live_below (d : TunDevice) (w : World) :
  live_below (next_id w) (trace w) ->
  next_id (snd (StopPolling d w)) = next_id w /\
  live_below (next_id w) (trace (snd (StopPolling d w))).
Proof.
  intros (Ft & Fp & Fa).
  destruct (StopPolling_effect d w) as (_ & Hid & Ht & Hp & Ha).
  split; [exact Hid |]. unfold live_below. rewrite Ht, Hp, Ha.
  repeat split; apply remove_opt_below; assumption.
Qed.

Lemma StartPolling_ids_fresh d info w :
  ids_fresh d w ->
  ids_fresh (snd (fst (StartPolling d info w))) (snd (StartPolling d info w)).
Proof.
  intros Hfresh. unfold StartPolling.
  destruct (negb (is_open_ d) || negb (FileDescriptor.is_valid (fd_ d)));
    [exact Hfresh |].
  destruct (info0 info) as [| | b | m | s | data | cb]; try exact Hfresh.
  apply ids_fresh_split in Hfresh. destruct Hfresh as (_ & _ & Hlive).
  destruct (StopPolling_live_below d w Hlive) as (Hid & H1).
  assert (Hd1 : fst (StopPolling d w)
                = mkTunDevice (fd_ d) (name_ d) (is_open_ d) None None)
    by reflexivity.
  destruct (StopPolling d w) as [d1 w1]. cbn [fst snd] in Hid, H1, Hd1. subst d1.
  cbn [set_tsfn set_poll_handle fd_ name_ is_open_ poll_handle_ tsfn_].
  change (next_id (next (Ctsfn_New (next_id w1) cb) (bump w1))) with (S (next_id w1)).
  rewrite Hid. set (n := next_id w) in *.
  apply (live_below_mono n (S (S n))) in H1; [| lia].
  change (trace w1) with (trace (bump w1)) in H1.
  apply (live_below_next _ (Ctsfn_New n cb)) in H1; [| cbn; lia].
  set (w2 := next (Ctsfn_New n cb) (bump w1)) in *.
  change (trace w2) with (trace (bump w2)) in H1.
  apply (live_below_next _ (Cnew_uv_poll (S n))) in H1; [| cbn; lia].
  set (w3 := next (Cnew_uv_poll (S n)) (bump w2)) in *.
  apply (live_below_next _ (Cuv_poll_init (S n) (fd_ d))) in H1; [| exact I].
  set (w4 := next (Cuv_poll_init (S n) (fd_ d)) w3) in *.
  assert (Hn4 : next_id w4 = S (S n))
    by (change (S (S (next_id w1)) = S (S n)); rewrite Hid; reflexivity).
  assert (Hsome : forall i, (i < S (S n))%nat ->
            Forall (fun j => (j < S (S n))%nat) (option_list (Some i)))
    by (intros i Hi; constructor; [exact Hi | constructor]).
  destruct (negb (r_ret (reply (Cuv_poll_init (S n) (fd_ d)) w3) =? 0)).
  { cbn [fst snd]. apply ids_fresh_split.
    cbn [tsfn_ poll_handle_]. change (next_id (next (Cdelete_uv_poll (S n)) w4))
      with (next_id w4). rewrite Hn4.
    split; [apply Hsome; lia | split; [constructor |]].
    apply live_below_next; [exact H1 | exact I]. }
  apply (live_below_next _ (Cuv_poll_start (S n))) in H1; [| cbn; lia].
  destruct (negb (r_ret (reply (Cuv_poll_start (S n)) w4) =? 0)).
  { cbn [fst snd]. apply ids_fresh_split.
    cbn [tsfn_ poll_handle_].
    change (next_id (next (Cdelete_uv_poll (S n)) (next (Cuv_poll_start (S n)) w4)))
      with (next_id w4). rewrite Hn4.
    split; [apply Hsome; lia | split; [constructor |]].
    apply live_below_next; [exact H1 | exact I]. }
  cbn [fst snd]. apply ids_fresh_split.
  cbn [tsfn_ poll_handle_].
  change (next_id (next (Cuv_poll_start (S n)) w4)) with (next_id w4). rewrite Hn4.
  split; [apply Hsome; lia | split; [apply Hsome; lia | exact H1]].
Qed.

Lemma Close_ids_fresh d w :
  ids_fresh d w ->
  ids_fresh (snd (fst (Close d w))) (snd (Close d w)).
Proof.
  intros Hfresh. unfold Close, CloseInternal.
  destruct (is_open_ d); [| exact Hfresh].
  apply ids_fresh_split in Hfresh. destruct Hfresh as (_ & _ & Hlive).
  set (d0 := mkTunDevice (fd_ d) (name_ d) false (poll_handle_ d) (tsfn_ d)).
  destruct (StopPolling_live_below d0 w Hlive) as (Hid & H1).
  assert (Hd1 : fst (StopPolling d0 w)
                = mkTunDevice (fd_ d0) (name_ d0) (is_open_ d0) None None)
    by reflexivity.
  destruct (StopPolling d0 w) as [d1 w1]. cbn [fst snd] in Hid, H1, Hd1. subst d1.
  unfold FileDescriptor.reset. cbn [fst snd fd_ name_ is_open_ poll_handle_ tsfn_].
  apply ids_fresh_split. cbn [tsfn_ poll_handle_ option_list].
  split; [constructor | split; [constructor |]].
  destruct (0 <=? fd_ d0).
  - change (next_id (next (Cclose (fd_ d0)) w1)) with (next_id w1). rewrite Hid.
    apply live_below_next; [exact H1 | exact I].
  - rewrite Hid. exact H1.
Qed.

(** Every operation keeps identities fresh. *)
Lemma step_ids_fresh p o d w :
  ids_fresh d w ->
  ids_fresh (snd (fst (step p o d w))) (snd (step p o d w)).
Proof.
  intros Hfresh. destruct o; cbn [step].
  - apply (ids_fresh_same_live d _ w _ Hfresh (same_live_Open p d w)
             (next_id_Open p d w)); apply Open_keeps_polling.
  - apply Close_ids_fresh. exact Hfresh.
  - pose proof (same_live_Read p d info w) as Hs.
    pose proof (next_id_Read p d info w) as Hn.
    destruct (Read p d info w) as [r w1]. cbn [fst snd] in *.
    apply (ids_fresh_same_live d d w w1 Hfresh Hs Hn); reflexivity.
  - pose proof (same_live_Write p d info w) as Hs.
    pose proof (next_id_Write p d info w) as Hn.
    destruct (Write p d info w) as [r w1]. cbn [fst snd] in *.
    apply (ids_fresh_same_live d d w w1 Hfresh Hs Hn); reflexivity.
  - exact Hfresh.
  - exact Hfresh.
  - apply StartPolling_ids_fresh. exact Hfresh.
  - destruct (poll_handle_ d) eqn:Eh; [| exact Hfresh].
    pose proof (same_live_PollCallback p d status events w) as Hs.
    pose proof (next_id_PollCallback p d status events w) as Hn.
    destruct (PollCallback p d status events w) as [w1 | w1];
      cbn [fst snd world_of] in *;
      apply (ids_fresh_same_live d d w w1 Hfresh Hs Hn); reflexivity.
Qed.

Lemma run_ids_fresh p ops :
  forall d w,
    ids_fresh d w ->
    ids_fresh (snd (fst (run p ops d w))) (snd (run p ops d w)).
Proof.
  induction ops as [| o ops IH]; intros d w Hinv; cbn [run]; [exact Hinv |].
  pose proof (step_ids_fresh p o d w Hinv) as H1.
  destruct (step p o d w) as [[r d1] w1]. cbn [fst snd] in H1.
  destruct (is_aborted r); [exact H1 |].
  pose proof (IH d1 w1 H1) as H2.
  destruct (run p ops d1 w1) as [[rs d2] w2]. exact H2.
Qed.

(** A fresh device in a process that has not polled yet. *)
Lemma ids_fresh_new info w : trace w = [] -> ids_fresh (TunDevice_new info) w.
Proof. intros H. unfold ids_fresh. rewrite H. constructor. Qed.

(** ** The callback of the loop always has a channel *)





(** Without its function the callback does bring the process down: a
    device with a poll handle and no function, which no sequence of calls
    produces, aborts on the first packet. *)
Example callback_without_channel_aborts :
  fst (fst (run Linux [OpPoll 0 UV_READABLE; OpGetFd]
              (mkTunDevice 5 "tun0" true (Some 1%nat) None)
              (boot (packet_kernel Linux [x45; x00; x00]))))
  = [Aborted].
Proof. reflexivity. Qed.

(** A fresh device in a process that has not polled yet. *)
Lemma polling_invariant_new info k :
  polling_invariant (TunDevice_new info) (boot k).
Proof. repeat split. Qed.

(** ** The registry *)

Lemma registry_is_inert (p : Platform) (ops : list Op) (d : TunDevice) (w : World) :
  g_active_devices (snd (run p ops d w)) = g_active_devices w.
Proof. apply (frame_run p ops d w). Qed.

(** C6 (where the code departs from it).  [Open] succeeds on a fresh device
    and leaves it open, yet the registry is still empty: no path of [Open]
    calls [RegisterDevice]. *)
Theorem open_does_not_register :
  let '(o, d, w) := Open Linux (TunDevice_new [JsString "probe0"])
                         (boot (quiet_kernel Linux)) in
  o = Returned (JsBoolean true) /\ is_open_ d = true /\
  g_active_devices w = [] /\
  g_active_devices (RegisterDevice 1 (boot (quiet_kernel Linux))) = [1%nat].
Proof. vm_compute. repeat split. Qed.

(** * Further properties of the add-on *)

(** ** Calls on a device that is not open *)

Lemma CloseInternal_leaves_closed (d : TunDevice) (w : World) :
  is_open_ (fst (CloseInternal d w)) = false.
Proof.
  unfold CloseInternal. destruct (is_open_ d) eqn:Ho; [reflexivity | exact Ho].
Qed.

(** X1.  After [Close], whatever the device was, [Read], [Write] and
    [StartPolling] throw "Device not open" and a readiness event is ignored:
    none of them reaches the kernel, libuv or the callback.  The same holds
    for a device that was only constructed. *)
Theorem closed_device_rejects_io
    (p : Platform) (d : TunDevice) (w : World) (args : list JsValue) :
  let rejects d1 w1 :=
    Read p d1 args w1 = (Thrown JsError "Device not open", w1) /\
    Write p d1 args w1 = (Thrown JsError "Device not open", w1) /\
    StartPolling d1 args w1 = (Thrown JsError "Device not open", d1, w1) /\
    (forall status events, 0 <= status ->
       PollCallback p d1 status events w1 = Completed w1) in
  (let '(_, d1, w1) := Close d w in rejects d1 w1) /\
  rejects (TunDevice_new args) w.
Proof.
  assert (Hgen : forall d1 w1, is_open_ d1 = false ->
            Read p d1 args w1 = (Thrown JsError "Device not open", w1) /\
            Write p d1 args w1 = (Thrown JsError "Device not open", w1) /\
            StartPolling d1 args w1 = (Thrown JsError "Device not open", d1, w1) /\
            (forall status events, 0 <= status ->
               PollCallback p d1 status events w1 = Completed w1)).
  { intros d1 w1 Hc. unfold Read, Write, StartPolling, PollCallback.
    rewrite Hc. cbn [negb orb]. repeat split.
    intros status events Hs.
    destruct (status <? 0) eqn:E; [apply Z.ltb_lt in E; lia |].
    destruct (Z.land events UV_READABLE =? 0); reflexivity. }
  cbv zeta. split; [| apply Hgen; reflexivity].
  unfold Close. pose proof (CloseInternal_leaves_closed d w) as Hc.
  destruct (CloseInternal d w) as [d1 w1]. apply Hgen. exact Hc.
Qed.

(** ** Open on a device that is open *)

Lemma Open_returned_is_open p d w v d' w' :
  Open p d w = (Returned v, d', w') -> v = JsBoolean true /\ is_open_ d' = true.
Proof.
  unfold Open. destruct (is_open_ d) eqn:Ho.
  - intros H. injection H as <- <- <-. split; [reflexivity | exact Ho].
  - destruct (g_shutdown_requested w); [discriminate |].
    destruct p; intros H;
      [apply open_darwin_success in H | apply open_linux_success in H];
      split; apply H.
Qed.

(** X2.  Once [Open] has returned, it returned [true], and a further [Open]
    in any later world returns [true] without a call and without a change,
    also while the shutdown flag is set. *)
Theorem reopen_is_noop
    (p : Platform) (d : TunDevice) (w : World)
    (v : JsValue) (d' : TunDevice) (w' : World) :
  Open p d w = (Returned v, d', w') ->
  v = JsBoolean true /\
  forall later, Open p d' later = (Returned (JsBoolean true), d', later).
Proof.
  intros H. destruct (Open_returned_is_open p d w v d' w' H) as [Hv Ho].
  split; [exact Hv |]. intros later. unfold Open. rewrite Ho. reflexivity.
Qed.

Lemma reopen_is_noop_witness :
  let d' := snd (fst (Open Darwin (TunDevice_new []) (boot (quiet_kernel Darwin)))) in
  let w' := snd (Open Darwin (TunDevice_new []) (boot (quiet_kernel Darwin))) in
  Open Darwin d' (shutting_down w') = (Returned (JsBoolean true), d', shutting_down w').
Proof.
  cbv zeta.
  destruct (Open Darwin (TunDevice_new []) (boot (quiet_kernel Darwin)))
    as [[o d'] w'] eqn:E.
  cbn [fst snd].
  destruct o as [v | k msg |].
  - apply (reopen_is_noop Darwin _ _ v d' w' E).
  - apply (f_equal (fun x => fst (fst x))) in E. vm_compute in E. discriminate E.
  - apply (f_equal (fun x => fst (fst x))) in E. vm_compute in E. discriminate E.
Defined.

(** ** Write *)

(** X3.  On Linux, for an open device outside shutdown, [Write] of a buffer
    makes exactly one call, [write(fd_, payload)], with the payload as it is;
    a count [n >= 0] is returned as it is, also when it is short; a negative
    return throws "Write error: ...". *)
Theorem write_linux_passes_payload
    (d : TunDevice) (payload : list byte) (rest : list JsValue) (w : World) :
  device_usable d = true ->
  g_shutdown_requested w = false ->
  let c := Cwrite (fd_ d) payload in
  let n := r_ret (reply c w) in
  let result := Write Linux d (JsBuffer payload :: rest) w in
  snd result = next c w /\
  events_since w (snd result) = [event c w] /\
  (0 <= n -> fst result = Returned (JsNumber n)) /\
  (n < 0 -> fst result
            = Thrown JsError ("Write error: " +++ strerror w (errno_after c w))).
Proof.
  intros Hu Hs c n result.
  assert (Hres : result =
                 if n <? 0
                 then (Thrown JsError ("Write error: " +++ strerror w (errno_after c w)),
                       next c w)
                 else (Returned (JsNumber n), next c w)).
  { unfold result, Write. rewrite (usable_guard d Hu), Hs. reflexivity. }
  rewrite Hres. repeat split.
  - destruct (n <? 0); reflexivity.
  - destruct (n <? 0); apply events_since_next.
  - intros Hn. destruct (n <? 0) eqn:E; [apply Z.ltb_lt in E; lia | reflexivity].
  - intros Hn. apply Z.ltb_lt in Hn. rewrite Hn. reflexivity.
Qed.

Lemma write_linux_passes_payload_witness :
  events_since (boot (quiet_kernel Linux))
    (snd (Write Linux open_device [JsBuffer [x45; x00]] (boot (quiet_kernel Linux))))
    = [mkEvent (Cwrite 5 [x45; x00]) 2 0] /\
  fst (Write Linux open_device [JsBuffer [x45; x00]] (boot (quiet_kernel Linux)))
    = Returned (JsNumber 2).
Proof.
  destruct (write_linux_passes_payload open_device [x45; x00] []
              (boot (quiet_kernel Linux)) eq_refl eq_refl)
    as (_ & Hev & Hok & _).
  split; [exact Hev | apply Hok; vm_compute; discriminate].
Defined.

(** X4.  Whatever the platform, the device, the arguments and the kernel,
    [Write] makes at most one call, a [write] on the device's descriptor, and
    when it returns rather than throws, the value is a number [>= 0]: the
    count that call returned (less the header on Darwin). *)
Theorem write_outcome_shape
    (p : Platform) (d : TunDevice) (info : list JsValue) (w : World) :
  (events_since w (snd (Write p d info w)) = [] \/
   exists buf, events_since w (snd (Write p d info w)) = [event (Cwrite (fd_ d) buf) w]) /\
  (forall v, fst (Write p d info w) = Returned v ->
     exists n buf, v = JsNumber n /\ 0 <= n /\ n <= r_ret (reply (Cwrite (fd_ d) buf) w) /\
                   events_since w (snd (Write p d info w))
                   = [event (Cwrite (fd_ d) buf) w]).
Proof.
  unfold Write.
  destruct (negb (is_open_ d) || negb (FileDescriptor.is_valid (fd_ d))).
  { cbn [fst snd]. rewrite events_since_refl. split; [left; reflexivity | discriminate]. }
  destruct (g_shutdown_requested w).
  { cbn [fst snd]. rewrite events_since_refl. split; [left; reflexivity | discriminate]. }
  destruct info as [| [| | | | | data |] rest];
    try (cbn [fst snd]; rewrite events_since_refl;
         split; [left; reflexivity | discriminate]).
  destruct p; unfold write_darwin, write_linux.
  - set (c := Cwrite (fd_ d) (htonl_bytes AF_INET6 ++ data)).
    destruct (r_ret (reply c w) <? 0) eqn:E; cbn [fst snd];
      rewrite events_since_next.
    + split; [right; eexists; reflexivity | discriminate].
    + apply Z.ltb_ge in E. split; [right; eexists; reflexivity |].
      intros v Hv. injection Hv as <-.
      eexists. exists (htonl_bytes AF_INET6 ++ data). fold c.
      split; [reflexivity |].
      destruct (4 <? r_ret (reply c w)) eqn:E4.
      * apply Z.ltb_lt in E4. repeat split; lia.
      * repeat split; lia.
  - set (c := Cwrite (fd_ d) data).
    destruct (r_ret (reply c w) <? 0) eqn:E; cbn [fst snd];
      rewrite events_since_next.
    + split; [right; eexists; reflexivity | discriminate].
    + apply Z.ltb_ge in E. split; [right; eexists; reflexivity |].
      intros v Hv. injection Hv as <-.
      eexists. exists data. fold c. repeat split; lia.
Qed.

(** ** Polling: failures, teardown and delivery *)

Lemma events_since_next2 c1 c2 w :
  events_since w (next c2 (next c1 w)) = [event c1 w; event c2 (next c1 w)].
Proof.
  apply events_since_app. rewrite !trace_next, <- app_assoc. reflexivity.
Qed.

Lemma StartPolling_thrown_fields d info w k msg d' w' :
  device_usable d = true ->
  StartPolling d info w = (Thrown k msg, d', w') ->
  (k = JsTypeError /\ msg = "Expected function as first argument"%string /\
   IsFunction (info0 info) = false /\ d' = d /\ w' = w) \/
  (k = JsError /\
   (msg = "Failed to initialize poll handle"%string \/
    msg = "Failed to start polling"%string) /\
   IsFunction (info0 info) = true /\
   poll_handle_ d' = None /\
   tsfn_ d' = Some (next_id w) /\
   fd_ d' = fd_ d /\ name_ d' = name_ d /\ is_open_ d' = is_open_ d).
Proof.
  intros Hu. unfold StartPolling. rewrite (usable_guard d Hu).
  destruct (info0 info) as [| | b | n | s | data | cb];
    try (intros H; injection H as <- <- <- <-; left; repeat split).
  cbn [StopPolling set_tsfn set_poll_handle fd_ name_ is_open_ poll_handle_ tsfn_].
  assert (Hid : forall w0, next_id
            (match tsfn_ d with
             | Some t => next (Ctsfn_Release t) w0
             | None => w0
             end) = next_id w0) by (intros w0; destruct (tsfn_ d); reflexivity).
  assert (Hid2 : next_id
            (match poll_handle_ d with
             | Some h => next (Cdelete_uv_poll h) (next (Cuv_poll_stop h) w)
             | None => w
             end) = next_id w) by (destruct (poll_handle_ d); reflexivity).
  repeat match goal with
         | |- context [if ?b then _ else _] => destruct b
         end; intros H; try discriminate H;
    injection H as <- <- <- <-; right; cbn [poll_handle_ tsfn_ fd_ name_ is_open_];
    rewrite Hid, Hid2; repeat split; auto.
Qed.

(** X5.  When [StartPolling] throws on an open device whose fields name what
    is live, there are two cases.  A first argument that is not a function
    gives a [TypeError] and changes nothing: polling that was running keeps
    running.  A failure of [uv_poll_init] or [uv_poll_start] gives an [Error]
    after the previous registration and channel were released: the device is
    left with no poll handle, no handle is allocated or active, and the
    thread-safe function created by this call is still held and live. *)
Theorem start_polling_failure_outcomes
    (d : TunDevice) (info : list JsValue) (w : World)
    (k : ErrKind) (msg : string) (d' : TunDevice) (w' : World) :
  device_usable d = true ->
  polling_invariant d w ->
  StartPolling d info w = (Thrown k msg, d', w') ->
  (k = JsTypeError /\ IsFunction (info0 info) = false /\ d' = d /\ w' = w) \/
  (k = JsError /\ IsFunction (info0 info) = true /\
   poll_handle_ d' = None /\ tsfn_ d' = Some (next_id w) /\
   live_polls (trace w') = [] /\ active_polls (trace w') = [] /\
   live_tsfns (trace w') = [next_id w] /\
   device_usable d' = true).
Proof.
  intros Hu Hinv E.
  pose proof (StartPolling_step w d info w Hu Hinv
                (always_between_refl _ _ (polling_invariant_at_most_one d w Hinv)))
    as Hstep.
  rewrite E in Hstep. destruct Hstep as (Hu' & (Ht & Hp & Ha) & _).
  destruct (StartPolling_thrown_fields d info w k msg d' w' Hu E)
    as [(Hk & _ & Hf & Hd & Hw) | (Hk & _ & Hf & Hph & Hts & _)].
  - left. repeat split; assumption.
  - right. rewrite Hph in Hp, Ha. rewrite Hts in Ht.
    repeat split; assumption.
Qed.

Lemma start_polling_failure_outcomes_witness :
  let '(_, d', w') := StartPolling open_device [JsFunction 10] (boot no_poll_kernel) in
  poll_handle_ d' = None /\ tsfn_ d' = Some 0%nat /\
  live_tsfns (trace w') = [0%nat] /\ live_polls (trace w') = [].
Proof.
  destruct (StartPolling open_device [JsFunction 10] (boot no_poll_kernel))
    as [[o d'] w'] eqn:E.
  assert (Ho : o = Thrown JsError "Failed to start polling").
  { apply (f_equal (fun x => fst (fst x))) in E. vm_compute in E. symmetry. exact E. }
  subst o.
  destruct (start_polling_failure_outcomes open_device [JsFunction 10]
              (boot no_poll_kernel) _ _ d' w' eq_refl
              (conj eq_refl (conj eq_refl eq_refl)) E)
    as [(Hk & _) | (_ & _ & Hp & Ht & Hlp & _ & Hlt & _)].
  - discriminate Hk.
  - repeat split; assumption.
Defined.

(** X6.  [Close] on an open device stops polling before it gives up the
    descriptor: the calls it makes are, in this order, [uv_poll_stop] and the
    [delete] of the handle (if there is one), the release of the thread-safe
    function (if there is one), and last [close(fd_)].  The device is left
    closed with descriptor -1 and no poll fields, and nothing the device's
    fields named is still live. *)
Theorem close_stops_polling_before_closing_handle (d : TunDevice) (w : World) :
  is_open_ d = true ->
  0 <= fd_ d ->
  polling_invariant d w ->
  let '(o, d', w') := Close d w in
  o = Returned (JsBoolean true) /\
  map ev_call (events_since w w') = stop_calls d ++ [Cclose (fd_ d)] /\
  d' = mkTunDevice (-1) (name_ d) false None None /\
  live_tsfns (trace w') = [] /\ live_polls (trace w') = [] /\
  active_polls (trace w') = [].
Proof.
  intros Ho Hfd Hinv.
  pose proof (step_polling_invariant Linux OpClose d w Hinv) as Hinv'.
  cbn [step] in Hinv'.
  unfold Close, CloseInternal in *. rewrite Ho in *.
  unfold FileDescriptor.reset in *.
  assert (Hv : (0 <=? fd_ d) = true) by (apply Z.leb_le; exact Hfd).
  cbn [StopPolling fd_ name_ is_open_ poll_handle_ tsfn_ fst snd] in *.
  rewrite Hv in *.
  split; [reflexivity | split; [| split; [reflexivity | exact Hinv']]].
  unfold stop_calls.
  destruct (poll_handle_ d) as [h |], (tsfn_ d) as [t |];
    match goal with
    | |- map ev_call (events_since w ?w') = ?l =>
        let evs := fresh "evs" in
        evar (evs : list Event);
        assert (Ht : trace w' = trace w ++ evs)
          by (rewrite !trace_next, <- ?app_assoc; cbn [app]; subst evs; reflexivity);
        rewrite (events_since_app w w' evs Ht); subst evs; reflexivity
    end.
Qed.

Lemma close_stops_polling_before_closing_handle_witness :
  let d := polling_device (quiet_kernel Linux) in
  let w := polling_world (quiet_kernel Linux) in
  poll_handle_ d = Some 1%nat /\ tsfn_ d = Some 0%nat /\
  map ev_call (events_since w (snd (Close d w)))
  = [Cuv_poll_stop 1; Cdelete_uv_poll 1; Ctsfn_Release 0; Cclose 5].
Proof.
  cbv zeta.
  split; [reflexivity | split; [reflexivity |]].
  pose proof (close_stops_polling_before_closing_handle
                (polling_device (quiet_kernel Linux))
                (polling_world (quiet_kernel Linux)) eq_refl) as H.
  destruct (Close (polling_device (quiet_kernel Linux))
              (polling_world (quiet_kernel Linux))) as [[o d'] w'].
  cbn [snd].
  destruct H as (_ & Hcalls & _).
  - vm_compute. discriminate.
  - repeat split.
  - exact Hcalls.
Defined.

(** X7.  [PollCallback] hands data to the callback only after a [read] that
    returned a positive count (more than 4 on Darwin), on a readiness event
    without error status for an open device that has a thread-safe function;
    and then the callback of the loop completed after exactly two calls, that
    [read] of at most 4096 bytes and one [BlockingCall] on the device's
    thread-safe function. *)
Theorem poll_callback_delivers_after_positive_read
    (p : Platform) (self : TunDevice) (status events : Z) (w : World)
    (e : Event) (t : nat) (payload : list byte) :
  In e (events_since w (world_of (PollCallback p self status events w))) ->
  ev_call e = Ctsfn_BlockingCall t payload ->
  let c := Cread (fd_ self) 4096 in
  0 <= status /\ Z.land events UV_READABLE <> 0 /\ device_usable self = true /\
  tsfn_ self = Some t /\
  (match p with Darwin => 4 | Linux => 0 end) < r_ret (reply c w) /\
  exists w', PollCallback p self status events w = Completed w' /\
             events_since w w' = [event c w; e].
Proof.
  intros Hin Hcall c. unfold PollCallback in *. fold c in Hin. fold c.
  destruct (status <? 0) eqn:Est.
  { cbn [world_of] in Hin. rewrite events_since_next in Hin.
    destruct Hin as [<- | []]. discriminate Hcall. }
  destruct (Z.land events UV_READABLE =? 0) eqn:Eev.
  { cbn [world_of] in Hin. rewrite events_since_refl in Hin. destruct Hin. }
  destruct (negb (is_open_ self) || negb (FileDescriptor.is_valid (fd_ self))) eqn:Eg.
  { cbn [world_of] in Hin. rewrite events_since_refl in Hin. destruct Hin. }
  assert (Hu : device_usable self = true).
  { unfold device_usable. apply orb_false_iff in Eg. destruct Eg as [E1 E2].
    apply negb_false_iff in E1. apply negb_false_iff in E2.
    rewrite E1, E2. reflexivity. }
  apply Z.ltb_ge in Est. apply Z.eqb_neq in Eev.
  destruct (r_ret (reply c w) <=? 0) eqn:E0.
  { destruct (negb (would_block p (errno (next c w)))); cbn [world_of] in Hin;
      [rewrite events_since_next2 in Hin | rewrite events_since_next in Hin];
      repeat (destruct Hin as [<- | Hin]; [discriminate Hcall |]); destruct Hin. }
  apply Z.leb_gt in E0.
  unfold BlockingCall in *.
  destruct p.
  - destruct (4 <? r_ret (reply c w)) eqn:E4.
    + apply Z.ltb_lt in E4.
      destruct (tsfn_ self) as [t0 |]; cbn [world_of] in Hin.
      * rewrite events_since_next2 in Hin.
        destruct Hin as [<- | [<- | []]]; [discriminate Hcall |].
        injection Hcall as <- _.
        repeat split; try assumption.
        eexists. split; [reflexivity | apply events_since_next2].
      * rewrite events_since_next in Hin. destruct Hin as [<- | []].
        discriminate Hcall.
    + cbn [world_of] in Hin. rewrite events_since_next in Hin.
      destruct Hin as [<- | []]. discriminate Hcall.
  - destruct (tsfn_ self) as [t0 |]; cbn [world_of] in Hin.
    + rewrite events_since_next2 in Hin.
      destruct Hin as [<- | [<- | []]]; [discriminate Hcall |].
      injection Hcall as <- _.
      repeat split; try assumption.
      eexists. split; [reflexivity | apply events_since_next2].
    + rewrite events_since_next in Hin. destruct Hin as [<- | []].
      discriminate Hcall.
Qed.

Lemma poll_callback_delivers_after_positive_read_witness :
  let k := packet_kernel Linux [x45; x00; x00] in
  tsfn_ (polling_device k) = Some 0%nat /\
  0 < r_ret (reply (Cread 5 4096) (polling_world k)).
Proof.
  cbv zeta.
  set (k := packet_kernel Linux [x45; x00; x00]).
  set (e := event (Ctsfn_BlockingCall 0 [x45; x00; x00])
                  (next (Cread 5 4096) (polling_world k))).
  assert (Hin : In e (events_since (polling_world k)
                        (world_of (PollCallback Linux (polling_device k) 0 UV_READABLE
                                     (polling_world k))))).
  { vm_compute. right. left. reflexivity. }
  destruct (poll_callback_delivers_after_positive_read Linux (polling_device k) 0
              UV_READABLE (polling_world k) e 0%nat [x45; x00; x00] Hin eq_refl)
    as (_ & _ & _ & Ht & Hpos & _).
  split; [exact Ht | exact Hpos].
Defined.

(** X8.  On Linux the callback receives the bytes of the [read] as they are:
    when the device has a thread-safe function and the kernel stores a
    datagram of 1 to 4096 bytes, the callback of the loop completes and the
    JavaScript callback is called once with exactly these bytes. *)
Theorem poll_linux_delivers_unmodified (self : TunDevice) (t : nat) (w : World) :
  device_usable self = true ->
  tsfn_ self = Some t ->
  let c := Cread (fd_ self) 4096 in
  r_ret (reply c w) = Z.of_nat (List.length (r_bytes (reply c w))) ->
  0 < r_ret (reply c w) <= 4096 ->
  PollCallback Linux self 0 UV_READABLE w
  = Completed (next (Ctsfn_BlockingCall t (r_bytes (reply c w))) (next c w)).
Proof.
  intros Hu Ht c Hlen Hr. unfold PollCallback.
  cbn [Z.ltb Z.compare Z.land UV_READABLE Pos.land Z.eqb].
  rewrite (usable_guard self Hu). fold c.
  destruct (r_ret (reply c w) <=? 0) eqn:E0; [apply Z.leb_le in E0; lia |].
  rewrite buffer_after_read_fits by (exact Hlen || lia).
  rewrite Hlen, Nat2Z.id, firstn_app, firstn_all, Nat.sub_diag.
  cbn [firstn]. rewrite app_nil_r, Ht. reflexivity.
Qed.

Lemma poll_linux_delivers_unmodified_witness :
  let k := packet_kernel Linux [x45; x00; x00] in
  PollCallback Linux (polling_device k) 0 UV_READABLE (polling_world k)
  = Completed (next (Ctsfn_BlockingCall 0 [x45; x00; x00])
                 (next (Cread 5 4096) (polling_world k))).
Proof.
  cbv zeta.
  apply (poll_linux_delivers_unmodified
           (polling_device (packet_kernel Linux [x45; x00; x00])) 0%nat
           (polling_world (packet_kernel Linux [x45; x00; x00])) eq_refl eq_refl eq_refl).
  vm_compute. split; [reflexivity | discriminate].
Defined.

(** ** The calls an operation makes *)

Lemma adds_refl P w : adds P w w.
Proof. exists []. rewrite app_nil_r. split; [reflexivity | constructor]. Qed.

Lemma adds_trans P w1 w2 w3 : adds P w1 w2 -> adds P w2 w3 -> adds P w1 w3.
Proof.
  intros (e1 & H1 & F1) (e2 & H2 & F2). exists (e1 ++ e2).
  split; [rewrite H2, H1, app_assoc; reflexivity | apply Forall_app; split; assumption].
Qed.

Lemma adds_next (P : Call -> Prop) c w : P c -> adds P w (next c w).
Proof.
  intros Hc. exists [event c w]. split; [reflexivity |].
  constructor; [exact Hc | constructor].
Qed.

Lemma adds_bump P w : adds P w (bump w).
Proof. apply (adds_refl P w). Qed.

Lemma adds_destroy (P : Call -> Prop) fd w :
  P (Cclose fd) -> adds P w (FileDescriptor.destroy fd w).
Proof.
  intros Hc. unfold FileDescriptor.destroy. destruct (0 <=? fd);
    [apply adds_next; exact Hc | apply adds_refl].
Qed.

Lemma adds_weaken (P Q : Call -> Prop) w w' :
  (forall c, P c -> Q c) -> adds P w w' -> adds Q w w'.
Proof.
  intros HPQ (evs & Ht & HF). exists evs. split; [exact Ht |].
  apply (Forall_impl _ (fun e => HPQ (ev_call e)) HF).
Qed.

Lemma adds_events_since P w w' :
  adds P w w' -> Forall (fun e => P (ev_call e)) (events_since w w').
Proof.
  intros (evs & Ht & HF). rewrite (events_since_app w w' evs Ht). exact HF.
Qed.

(** Calls that neither hand out nor close a descriptor leave [held] alone. *)
Lemma adds_held (P : Call -> Prop) w w' :
  (forall c, P c -> c <> Csocket /\ c <> Copen_dev_net_tun /\
                    forall fd, c <> Cclose fd) ->
  adds P w w' ->
  forall fd, held fd (trace w') = held fd (trace w).
Proof.
  intros HP (evs & Ht & HF) fd. rewrite Ht. clear Ht.
  induction evs as [| e evs IH] using rev_ind; [rewrite app_nil_r; reflexivity |].
  apply Forall_app in HF. destruct HF as [HF He].
  rewrite app_assoc, held_snoc, (IH HF).
  inversion He as [| e' l' Hpe _]; subst.
  destruct (HP _ Hpe) as (H1 & H2 & H3).
  unfold held_delta, acquires, closes.
  destruct (ev_call e); try lia; congruence.
Qed.

Ltac adds_step :=
  first
    [ apply adds_refl
    | apply adds_bump
    | match goal with
      | |- adds ?P ?w (next ?c ?w) => apply adds_next
      | |- adds ?P ?w (FileDescriptor.destroy ?fd ?w) => apply adds_destroy
      | |- adds ?P ?w (next ?c ?w1) =>
          apply (adds_trans P w w1); [| apply adds_next]
      | |- adds ?P ?w (bump ?w1) => apply (adds_trans P w w1); [| apply adds_bump]
      | |- adds ?P ?w (FileDescriptor.destroy ?fd ?w1) =>
          apply (adds_trans P w w1); [| apply adds_destroy]
      end ].

Lemma string_take_length (n : nat) (s : string) :
  (String.length (string_take n s) <= n)%nat.
Proof.
  revert s. induction n as [| n IH]; intros s; [cbn; lia |].
  destruct s as [| a s]; cbn [string_take String.length]; [lia |].
  specialize (IH s). lia.
Qed.

Lemma land_lor_same (a b : Z) : Z.land (Z.lor a b) b = b.
Proof.
  apply Z.bits_inj'. intros n Hn.
  rewrite Z.land_spec, Z.lor_spec. destruct (Z.testbit a n), (Z.testbit b n); reflexivity.
Qed.

Lemma adds_scan_units (P : Call -> Prop) fd sc_id fuel :
  (forall u, 1 <= u -> P (Cconnect fd sc_id u)) ->
  forall u w, 1 <= u -> adds P w (snd (scan_units fuel u fd sc_id w)).
Proof.
  intros HP. induction fuel as [| fuel IH]; intros u w Hu; cbn [scan_units];
    [apply adds_refl |].
  destruct (u <? 255); [| apply adds_refl].
  destruct (r_ret (reply (Cconnect fd sc_id u) w) =? 0);
    [apply adds_next, HP; exact Hu |].
  destruct (negb (errno (next (Cconnect fd sc_id u) w) =? EBUSY));
    [apply adds_next, HP; exact Hu |].
  apply (adds_trans _ _ (next (Cconnect fd sc_id u) w));
    [apply adds_next, HP; exact Hu | apply IH; lia].
Qed.

Lemma adds_connect_utun d fd sc_id w :
  adds (open_call Darwin d) w (snd (connect_utun (name_ d) fd sc_id w)).
Proof.
  unfold connect_utun. destruct (0 <? utun_unit_of (name_ d)) eqn:E.
  - apply Z.ltb_lt in E.
    destruct (r_ret (reply (Cconnect fd sc_id (utun_unit_of (name_ d))) w) <? 0);
      apply adds_next; split; [reflexivity | lia | reflexivity | lia].
  - apply adds_scan_units; [| lia]. intros u Hu. split; [reflexivity | exact Hu].
Qed.

Lemma adds_open_finish p temp_fd d w :
  adds (finish_call p) w (snd (open_finish p temp_fd d w)).
Proof.
  unfold open_finish, open_fail, FileDescriptor.move_assign.
  assert (Hset : forall fd flags,
            finish_call p (Cfcntl_SETFL fd (Z.lor flags (O_NONBLOCK p))))
    by (intros fd flags; apply land_lor_same).
  repeat match goal with
         | |- context [if (r_ret ?r <? 0) then _ else _] => destruct (r_ret r <? 0)
         end; cbn [snd].
  - repeat (adds_step; try exact I).
  - repeat (adds_step; try exact I; try apply Hset).
  - destruct (0 <=? fd_ d); repeat (adds_step; try exact I; try apply Hset).
Qed.

(** X9.  Every call [Open] makes is one of its platform's own: on Darwin
    [socket], the control-info ioctl, [connect] to a unit [>= 1], the name
    query; on Linux [stat], [open] and the configure ioctl, always with flags
    [IFF_TUN | IFF_NO_PI] and with the requested name cut to 15 bytes; on both
    [F_GETFL], [F_SETFL] with [O_NONBLOCK] among the flags, and [close].
    [Open] never reads, writes, polls or logs. *)
Theorem open_makes_only_setup_calls (p : Platform) (d : TunDevice) (w : World) :
  Forall (fun e => open_call p d (ev_call e)) (events_since w (snd (Open p d w))).
Proof.
  apply adds_events_since. unfold Open.
  destruct (is_open_ d); [apply adds_refl |].
  destruct (g_shutdown_requested w); [apply adds_refl |].
  destruct p.
  - unfold open_darwin, open_fail.
    destruct (negb (FileDescriptor.is_valid (r_ret (reply Csocket w))));
      [cbn [snd]; repeat (adds_step; try exact I; try reflexivity) |].
    match goal with |- context [if ?b then _ else _] => destruct b end;
      [cbn [snd]; repeat (adds_step; try exact I; try reflexivity) |].
    match goal with
    | |- context [connect_utun ?n ?f ?i ?w2] =>
        pose proof (adds_connect_utun d f i w2) as Hc;
        destruct (connect_utun n f i w2) as [[m |] w3]
    end; cbn [snd] in Hc.
    + cbn [snd]. apply (adds_trans _ _ w3); [| apply adds_destroy; exact I].
      eapply adds_trans; [| exact Hc].
      repeat (adds_step; try exact I; try reflexivity).
    + assert (H3 : adds (open_call Darwin d) w w3).
      { eapply adds_trans; [| exact Hc].
        repeat (adds_step; try exact I; try reflexivity). }
      match goal with |- context [if ?b then _ else _] => destruct b end.
      * cbn [snd]. apply (adds_trans _ _ w3); [exact H3 |].
        repeat (adds_step; try exact I; try reflexivity).
      * match goal with
        | |- adds _ _ (snd (open_finish ?pp ?t ?d' ?w4)) =>
            apply (adds_trans _ _ w4);
              [| apply (adds_weaken (finish_call pp)); [| apply adds_open_finish]]
        end.
        -- apply (adds_trans _ _ w3); [exact H3 |].
           repeat (adds_step; try exact I; try reflexivity).
        -- intros c. destruct c; cbn; intros H; solve [exact H | destruct H].
  - unfold open_linux, open_fail.
    assert (Hifr : forall fd,
              open_call Linux d
                (Cioctl_TUNSETIFF fd
                   (if negb (String.eqb (name_ d) EmptyString)
                    then string_take (IFNAMSIZ - 1) (c_str (name_ d))
                    else EmptyString)
                   (Z.lor IFF_TUN IFF_NO_PI))).
    { intros fd. cbn [open_call]. split; [reflexivity |].
      destruct (String.eqb (name_ d) EmptyString) eqn:E; cbn [negb].
      - apply String.eqb_eq in E. rewrite E. repeat split. cbn. lia.
      - repeat split. apply string_take_length. }
    destruct (negb (r_ret (reply Cstat_dev_net_tun w) =? 0));
      [cbn [snd]; repeat (adds_step; try exact I; try reflexivity) |].
    destruct (negb (FileDescriptor.is_valid
                      (r_ret (reply Copen_dev_net_tun (next Cstat_dev_net_tun w)))));
      [cbn [snd]; repeat (adds_step; try exact I; try reflexivity) |].
    match goal with
    | |- context [if (r_ret ?r <? 0) then _ else _] => destruct (r_ret r <? 0)
    end.
    + cbn [snd].
      repeat (adds_step; try exact I; try reflexivity; try apply Hifr).
    + match goal with
      | |- adds _ _ (snd (open_finish ?pp ?t ?d' ?w4)) =>
          apply (adds_trans _ _ w4);
            [| apply (adds_weaken (finish_call pp)); [| apply adds_open_finish]]
      end.
      * repeat (adds_step; try exact I; try reflexivity; try apply Hifr).
      * intros c. destruct c; cbn; intros H; solve [exact H | destruct H].
Qed.

(** ** Open: the step that failed *)

Lemma grows_by_refl (P : Event -> Prop) w : grows_by P w w.
Proof. exists []. rewrite app_nil_r. split; [reflexivity | constructor]. Qed.

Lemma grows_by_trans (P : Event -> Prop) w1 w2 w3 :
  grows_by P w1 w2 -> grows_by P w2 w3 -> grows_by P w1 w3.
Proof.
  intros (e1 & H1 & F1) (e2 & H2 & F2). exists (e1 ++ e2).
  split; [rewrite H2, H1, app_assoc; reflexivity | apply Forall_app; split; assumption].
Qed.

Lemma grows_by_next (P : Event -> Prop) c w : P (event c w) -> grows_by P w (next c w).
Proof.
  intros Hc. exists [event c w]. split; [reflexivity |].
  constructor; [exact Hc | constructor].
Qed.

Lemma grows_by_step (P : Event -> Prop) c w w1 :
  grows_by P w w1 -> P (event c w1) -> grows_by P w (next c w1).
Proof.
  intros H Hc. apply (grows_by_trans P w w1); [exact H | apply grows_by_next; exact Hc].
Qed.

Lemma grows_by_destroy (P : Event -> Prop) fd w :
  (forall w0, P (event (Cclose fd) w0)) -> grows_by P w (FileDescriptor.destroy fd w).
Proof.
  intros Hc. unfold FileDescriptor.destroy. destruct (0 <=? fd);
    [apply grows_by_next, Hc | apply grows_by_refl].
Qed.

Lemma grows_by_weaken (P Q : Event -> Prop) w w' :
  (forall e, P e -> Q e) -> grows_by P w w' -> grows_by Q w w'.
Proof.
  intros HPQ (evs & Ht & HF). exists evs. split; [exact Ht |].
  apply (Forall_impl _ HPQ HF).
Qed.

Lemma grows_by_events_since (P : Event -> Prop) w w' :
  grows_by P w w' -> Forall P (events_since w w').
Proof.
  intros (evs & Ht & HF). rewrite (events_since_app w w' evs Ht). exact HF.
Qed.

Lemma grows_by_scan_units (P : Event -> Prop) fd sc_id fuel :
  (forall u w0, P (event (Cconnect fd sc_id u) w0)) ->
  forall u w, grows_by P w (snd (scan_units fuel u fd sc_id w)).
Proof.
  intros HP. induction fuel as [| fuel IH]; intros u w; cbn [scan_units];
    [apply grows_by_refl |].
  destruct (u <? 255); [| apply grows_by_refl].
  destruct (r_ret (reply (Cconnect fd sc_id u) w) =? 0);
    [apply grows_by_next, HP |].
  destruct (negb (errno (next (Cconnect fd sc_id u) w) =? EBUSY));
    [apply grows_by_next, HP |].
  apply (grows_by_trans _ _ (next (Cconnect fd sc_id u) w));
    [apply grows_by_next, HP | apply IH].
Qed.

Lemma grows_by_connect_utun (P : Event -> Prop) name fd sc_id w :
  (forall u w0, P (event (Cconnect fd sc_id u) w0)) ->
  grows_by P w (snd (connect_utun name fd sc_id w)).
Proof.
  intros HP. unfold connect_utun. destruct (0 <? utun_unit_of name).
  - destruct (r_ret (reply (Cconnect fd sc_id (utun_unit_of name)) w) <? 0);
      apply grows_by_next, HP.
  - apply grows_by_scan_units. exact HP.
Qed.

(** "Set non-blocking mode": either both calls succeed and the handle is
    handed over, or the first that fails raises and leaves the device as it
    was given, that is, under its new name. *)
Lemma open_finish_cases p temp_fd d w :
  let r := open_finish p temp_fd d w in
  (fst (fst r) = Returned (JsBoolean true) /\
   grows_by (fun e => step_failed e = false) w (snd r)) \/
  (exists msg, fst (fst r) = Thrown JsError msg /\
               nonblocking_failure msg = true /\ snd (fst r) = d /\
               grows_by (fun e => step_failed e = true ->
                                  sets_nonblocking (ev_call e) = true) w (snd r)).
Proof.
  cbv zeta. unfold open_finish, open_fail, FileDescriptor.move_assign.
  set (c1 := Cfcntl_GETFL temp_fd).
  destruct (r_ret (reply c1 w) <? 0) eqn:E1.
  { right. eexists. cbn [fst snd].
    split; [reflexivity | split; [reflexivity | split; [reflexivity |]]].
    apply (grows_by_trans _ _ (next c1 w));
      [apply grows_by_next | apply grows_by_destroy; intros w0];
      intros H; solve [reflexivity | discriminate H]. }
  match goal with
  | |- context [Cfcntl_SETFL temp_fd ?f] => set (c2 := Cfcntl_SETFL temp_fd f)
  end.
  destruct (r_ret (reply c2 (next c1 w)) <? 0) eqn:E2.
  { right. eexists. cbn [fst snd].
    split; [reflexivity | split; [reflexivity | split; [reflexivity |]]].
    apply (grows_by_trans _ _ (next c2 (next c1 w)));
      [| apply grows_by_destroy; intros w0 H; discriminate H].
    apply grows_by_step; [apply grows_by_next |]; intros _; reflexivity. }
  left. cbn [fst snd]. split; [reflexivity |].
  assert (H2 : grows_by (fun e => step_failed e = false) w (next c2 (next c1 w))).
  { apply grows_by_step; [apply grows_by_next |]; assumption. }
  unfold FileDescriptor.destroy. cbn [Z.leb Z.compare].
  destruct (0 <=? fd_ d); [| exact H2].
  apply grows_by_step; [exact H2 | reflexivity].
Qed.

Lemma open_linux_cases d w :
  let r := open_linux d w in
  (fst (fst r) = Returned (JsBoolean true) /\
   grows_by (fun e => step_failed e = false) w (snd r)) \/
  (exists msg, fst (fst r) = Thrown JsError msg /\
               nonblocking_failure msg = false /\ snd (fst r) = d /\
               grows_by (fun e => sets_nonblocking (ev_call e) = false) w (snd r)) \/
  (exists msg, fst (fst r) = Thrown JsError msg /\
               nonblocking_failure msg = true /\
               renamed_by_kernel d (snd (fst r)) w (snd r) /\
               grows_by (fun e => step_failed e = true ->
                                  sets_nonblocking (ev_call e) = true) w (snd r)).
Proof.
  cbv zeta. unfold open_linux, open_fail, FileDescriptor.is_valid.
  set (c1 := Cstat_dev_net_tun).
  destruct (negb (r_ret (reply c1 w) =? 0)) eqn:E1.
  { right. left. eexists. cbn [fst snd].
    split; [reflexivity | split; [reflexivity | split; [reflexivity |]]].
    apply grows_by_next. reflexivity. }
  set (w1 := next c1 w).
  set (c2 := Copen_dev_net_tun).
  set (temp_fd := r_ret (reply c2 w1)).
  destruct (0 <=? temp_fd) eqn:Hv; cbn [negb].
  2:{ right. left. eexists. cbn [fst snd].
      split; [reflexivity | split; [reflexivity | split; [reflexivity |]]].
      apply (grows_by_trans _ _ (next c2 w1));
        [| apply grows_by_destroy; reflexivity].
      apply grows_by_step; [apply grows_by_next |]; reflexivity. }
  match goal with
  | |- context [Cioctl_TUNSETIFF temp_fd ?n ?f] => set (c3 := Cioctl_TUNSETIFF temp_fd n f)
  end.
  set (w2 := next c2 w1).
  destruct (r_ret (reply c3 w2) <? 0) eqn:E3.
  { right. left. eexists. cbn [fst snd].
    split; [reflexivity | split; [reflexivity | split; [reflexivity |]]].
    apply (grows_by_trans _ _ (next c3 w2));
      [| apply grows_by_destroy; reflexivity].
    apply grows_by_step; [apply grows_by_step; [apply grows_by_next |] |];
      reflexivity. }
  assert (H3 : grows_by (fun e => step_failed e = false) w (next c3 w2)).
  { apply grows_by_step; [apply grows_by_step; [apply grows_by_next |] |].
    - cbn [step_failed event ev_call ev_ret]. exact E1.
    - cbn [step_failed event ev_call ev_ret]. fold temp_fd.
      apply Z.ltb_ge. apply Z.leb_le in Hv. exact Hv.
    - exact E3. }
  match goal with
  | |- context [open_finish Linux temp_fd ?dn ?w3] =>
      destruct (open_finish_cases Linux temp_fd dn w3)
        as [(Ho & Hg) | (msg & Ho & Hnb & Hd & Hg)]
  end.
  - left. split; [exact Ho |]. apply (grows_by_trans _ _ (next c3 w2)); assumption.
  - right. right. exists msg.
    split; [exact Ho | split; [exact Hnb | split]].
    + destruct Hg as (post & Hpost & _).
      exists w2, c3, [event c1 w; event c2 w1], post.
      split; [reflexivity | split; [reflexivity | split]];
        [unfold w2, w1; rewrite !trace_next, <- app_assoc; reflexivity |].
      split; [rewrite Hpost, trace_next, <- app_assoc; reflexivity |].
      split; [apply Z.ltb_ge; exact E3 | exact Hd].
    + apply (grows_by_trans _ _ (next c3 w2)); [| exact Hg].
      apply (grows_by_weaken (fun e => step_failed e = false)); [| exact H3].
      intros e He Hf. rewrite He in Hf. discriminate Hf.
Qed.

Lemma open_darwin_cases d w :
  let r := open_darwin d w in
  (fst (fst r) = Returned (JsBoolean true) /\
   grows_by (fun e => step_failed e = false) w (snd r)) \/
  (exists msg, fst (fst r) = Thrown JsError msg /\
               nonblocking_failure msg = false /\ snd (fst r) = d /\
               grows_by (fun e => sets_nonblocking (ev_call e) = false) w (snd r)) \/
  (exists msg, fst (fst r) = Thrown JsError msg /\
               nonblocking_failure msg = true /\
               renamed_by_kernel d (snd (fst r)) w (snd r) /\
               grows_by (fun e => step_failed e = true ->
                                  sets_nonblocking (ev_call e) = true) w (snd r)).
Proof.
  cbv zeta. unfold open_darwin, open_fail, FileDescriptor.is_valid.
  set (c1 := Csocket).
  set (temp_fd := r_ret (reply c1 w)).
  destruct (0 <=? temp_fd) eqn:Hv; cbn [negb].
  2:{ right. left. eexists. cbn [fst snd].
      split; [reflexivity | split; [reflexivity | split; [reflexivity |]]].
      apply (grows_by_trans _ _ (next c1 w));
        [apply grows_by_next | apply grows_by_destroy]; reflexivity. }
  set (w1 := next c1 w).
  set (c2 := Cioctl_CTLIOCGINFO temp_fd).
  destruct (r_ret (reply c2 w1) <? 0) eqn:E2.
  { right. left. eexists. cbn [fst snd].
    split; [reflexivity | split; [reflexivity | split; [reflexivity |]]].
    apply (grows_by_trans _ _ (next c2 w1));
      [| apply grows_by_destroy; reflexivity].
    apply grows_by_step; [apply grows_by_next |]; reflexivity. }
  set (w2 := next c2 w1).
  assert (H2 : grows_by (fun e => step_failed e = false) w w2).
  { apply grows_by_step; [apply grows_by_next |].
    - cbn [step_failed event ev_call ev_ret]. fold temp_fd.
      apply Z.ltb_ge. apply Z.leb_le in Hv. exact Hv.
    - exact E2. }
  assert (H2' : grows_by (fun e => sets_nonblocking (ev_call e) = false) w w2).
  { apply grows_by_step; [apply grows_by_next |]; reflexivity. }
  pose proof (grows_by_connect_utun (fun e => step_failed e = false) (name_ d) temp_fd
                (r_id (reply c2 w1)) w2 (fun _ _ => eq_refl)) as Hc.
  pose proof (grows_by_connect_utun (fun e => sets_nonblocking (ev_call e) = false)
                (name_ d) temp_fd (r_id (reply c2 w1)) w2 (fun _ _ => eq_refl)) as Hc'.
  pose proof (frame_connect_utun (name_ d) temp_fd (r_id (reply c2 w1)) w2) as Hf.
  destruct (connect_utun (name_ d) temp_fd (r_id (reply c2 w1)) w2)
    as [[m |] w3] eqn:Ec; cbn [snd] in Hc, Hc', Hf.
  { right. left. exists m. cbn [fst snd].
    split; [reflexivity | split; [| split; [reflexivity |]]].
    - apply (connect_utun_message _ _ _ _ m (f_equal fst Ec)).
    - apply (grows_by_trans _ _ w3); [| apply grows_by_destroy; reflexivity].
      apply (grows_by_trans _ _ w2); assumption. }
  set (c4 := Cgetsockopt_IFNAME temp_fd).
  destruct (r_ret (reply c4 w3) <? 0) eqn:E4.
  { right. left. eexists. cbn [fst snd].
    split; [reflexivity | split; [reflexivity | split; [reflexivity |]]].
    apply (grows_by_trans _ _ (next c4 w3)); [| apply grows_by_destroy; reflexivity].
    apply grows_by_step; [| reflexivity].
    apply (grows_by_trans _ _ w2); assumption. }
  assert (H3 : grows_by (fun e => step_failed e = false) w w3)
    by (apply (grows_by_trans _ _ w2); assumption).
  match goal with
  | |- context [open_finish Darwin temp_fd ?dn ?w4] =>
      destruct (open_finish_cases Darwin temp_fd dn w4)
        as [(Ho & Hg) | (msg & Ho & Hnb & Hd & Hg)]
  end.
  - left. split; [exact Ho |]. apply (grows_by_trans _ _ (next c4 w3)); [| exact Hg].
    apply grows_by_step; [exact H3 | exact E4].
  - right. right. exists msg.
    split; [exact Ho | split; [exact Hnb | split]].
    + destruct Hg as (post & Hpost & _).
      destruct H3 as (pre & Hpre & _).
      exists w3, c4, pre, post.
      split; [reflexivity | split; [exact (proj1 Hf) | split; [exact Hpre |]]].
      split; [rewrite Hpost, trace_next, <- app_assoc; reflexivity |].
      split; [apply Z.ltb_ge; exact E4 | exact Hd].
    + apply (grows_by_trans _ _ (next c4 w3)); [| exact Hg].
      apply (grows_by_weaken (fun e => step_failed e = false));
        [| apply grows_by_step; [exact H3 | exact E4]].
      intros e He Hf'. rewrite He in Hf'. discriminate Hf'.
Qed.

(** The three ways a call of [Open] on a device that is not open can end:
    with [true] after steps that all succeeded; with an error from a step
    before "Set non-blocking mode", the device untouched; with an error from
    "Set non-blocking mode", the device under the kernel's name. *)
Lemma Open_cases p d w :
  is_open_ d = false ->
  let r := Open p d w in
  (fst (fst r) = Returned (JsBoolean true) /\
   grows_by (fun e => step_failed e = false) w (snd r)) \/
  (exists msg, fst (fst r) = Thrown JsError msg /\
               nonblocking_failure msg = false /\ snd (fst r) = d /\
               grows_by (fun e => sets_nonblocking (ev_call e) = false) w (snd r)) \/
  (exists msg, fst (fst r) = Thrown JsError msg /\
               nonblocking_failure msg = true /\
               renamed_by_kernel d (snd (fst r)) w (snd r) /\
               grows_by (fun e => step_failed e = true ->
                                  sets_nonblocking (ev_call e) = true) w (snd r)).
Proof.
  intros Hc. cbv zeta. unfold Open. rewrite Hc.
  destruct (g_shutdown_requested w).
  - right. left. eexists. cbn [fst snd].
    split; [reflexivity | split; [reflexivity | split; [reflexivity |]]].
    apply grows_by_refl.
  - destruct p; [apply open_darwin_cases | apply open_linux_cases].
Qed.

(** Whichever step of [Open] fails ([socket], the control-info query, the
    name query, the check or the [open] of the device node, the configure
    ioctl, [F_GETFL], [F_SETFL]; for the connect phase see
    [connect_failure_fails_open]), [Open] raises an [Error] with a non-empty
    message and leaves the device closed: flag, descriptor and poll fields
    as they were, every descriptor obtained closed again.  Unless the step
    is one of "Set non-blocking mode", the device is unchanged as a whole. *)
Lemma failing_step_makes_open_throw
    (p : Platform) (d : TunDevice) (w : World) (e : Event) :
  is_open_ d = false ->
  In e (events_since w (snd (Open p d w))) ->
  step_failed e = true ->
  let '(o, d', w') := Open p d w in
  (exists msg, o = Thrown JsError msg /\ msg <> EmptyString) /\
  is_open_ d' = false /\ fd_ d' = fd_ d /\
  poll_handle_ d' = poll_handle_ d /\ tsfn_ d' = tsfn_ d /\
  (forall fd, held fd (trace w') = held fd (trace w)) /\
  (sets_nonblocking (ev_call e) = false -> d' = d).
Proof.
  intros Hc Hin Hfail.
  pose proof (Open_cases p d w Hc) as Hcases. cbv zeta in Hcases.
  destruct (Open p d w) as [[o d'] w'] eqn:E. cbn [fst snd] in *.
  assert (Hthrown : forall msg, o = Thrown JsError msg ->
            msg <> EmptyString /\ is_open_ d' = false /\ fd_ d' = fd_ d /\
            poll_handle_ d' = poll_handle_ d /\ tsfn_ d' = tsfn_ d /\
            (forall fd, held fd (trace w') = held fd (trace w))).
  { intros msg ->.
    destruct (failed_open_leaves_device_closed p d w _ _ _ _ Hc E)
      as (_ & H1 & H2 & H3 & H4 & H5 & H6 & _).
    repeat split; assumption. }
  destruct Hcases as [(_ & Hg) | [(msg & Ho & _ & Hd & _) | (msg & Ho & _ & _ & Hg)]].
  - apply grows_by_events_since in Hg.
    rewrite Forall_forall in Hg. rewrite (Hg e Hin) in Hfail. discriminate Hfail.
  - destruct (Hthrown msg Ho) as (H1 & H2 & H3 & H4 & H5 & H6).
    split; [exists msg; split; assumption |].
    repeat split; try assumption. intros _. exact Hd.
  - destruct (Hthrown msg Ho) as (H1 & H2 & H3 & H4 & H5 & H6).
    split; [exists msg; split; assumption |].
    repeat split; try assumption.
    apply grows_by_events_since in Hg. rewrite Forall_forall in Hg.
    intros Hn. rewrite (Hg e Hin Hfail) in Hn. discriminate Hn.
Qed.

(** C1.  "No state change" holds for every failing step but the two of
    "Set non-blocking mode".  When [F_GETFL] or [F_SETFL] fails during [Open] on a device that is not open,
    [Open] raises an [Error] and leaves the device closed, with [fd_] as it
    was and every descriptor obtained closed again; but the device is not
    what it was before the call: [name_] was assigned before these two
    checks and now holds what the kernel stored at the name query (utun) or
    the configure ioctl (Linux), which had succeeded. *)
Theorem failed_nonblocking_step_changes_name
    (p : Platform) (d : TunDevice) (w : World) (e : Event) :
  is_open_ d = false ->
  In e (events_since w (snd (Open p d w))) ->
  sets_nonblocking (ev_call e) = true ->
  ev_ret e < 0 ->
  let '(o, d', w') := Open p d w in
  (exists msg, o = Thrown JsError msg /\ nonblocking_failure msg = true) /\
  is_open_ d' = false /\ fd_ d' = fd_ d /\
  (forall fd, held fd (trace w') = held fd (trace w)) /\
  renamed_by_kernel d d' w w'.
Proof.
  intros Hc Hin Hnb Hret.
  assert (Hfail : step_failed e = true).
  { unfold step_failed. destruct (ev_call e); try discriminate Hnb;
      apply Z.ltb_lt; exact Hret. }
  pose proof (Open_cases p d w Hc) as Hcases. cbv zeta in Hcases.
  destruct (Open p d w) as [[o d'] w'] eqn:E. cbn [fst snd] in *.
  destruct Hcases as [(_ & Hg) | [(msg & _ & _ & _ & Hg) | (msg & Ho & Hm & Hr & _)]].
  - apply grows_by_events_since in Hg.
    rewrite Forall_forall in Hg. rewrite (Hg e Hin) in Hfail. discriminate Hfail.
  - apply grows_by_events_since in Hg.
    rewrite Forall_forall in Hg. rewrite (Hg e Hin) in Hnb. discriminate Hnb.
  - subst o.
    destruct (failed_open_leaves_device_closed p d w _ _ _ _ Hc E)
      as (_ & _ & H2 & H3 & _ & _ & H6 & _).
    split; [exists msg; split; [reflexivity | exact Hm] |].
    repeat split; assumption.
Qed.

Lemma failed_nonblocking_step_changes_name_witness :
  let '(o, d', _) := Open Linux (TunDevice_new []) (boot (getfl_fails_kernel Linux)) in
  name_ (TunDevice_new []) = EmptyString /\ name_ d' = "tun0"%string /\
  is_open_ d' = false /\ fd_ d' = -1 /\
  exists msg, o = Thrown JsError msg /\ nonblocking_failure msg = true.
Proof.
  assert (Hin : In (mkEvent (Cfcntl_GETFL 5) (-1) 9)
                   (events_since (boot (getfl_fails_kernel Linux))
                      (snd (Open Linux (TunDevice_new [])
                              (boot (getfl_fails_kernel Linux)))))).
  { vm_compute. right. right. right. left. reflexivity. }
  pose proof (failed_nonblocking_step_changes_name Linux (TunDevice_new [])
                (boot (getfl_fails_kernel Linux)) _ eq_refl Hin eq_refl eq_refl) as H.
  destruct (Open Linux (TunDevice_new []) (boot (getfl_fails_kernel Linux)))
    as [[o d'] w'] eqn:E.
  destruct H as (Hm & Ho & Hfd & _ & _).
  split; [reflexivity | split; [| split; [exact Ho | split; [exact Hfd | exact Hm]]]].
  apply (f_equal (fun x => name_ (snd (fst x)))) in E.
  vm_compute in E. symmetry. exact E.
Defined.

Lemma buffer_size_of_nonneg (info : list JsValue) : 0 <= buffer_size_of info.
Proof.
  unfold buffer_size_of.
  destruct ((0 <? Z.of_nat (List.length info)) && IsNumber (info0 info)); [| lia].
  unfold Uint32Value. destruct (info0 info); try lia.
  apply Z.mod_pos_bound. lia.
Qed.

Lemma adds_Read p d info w : adds (io_call d) w (snd (Read p d info w)).
Proof.
  pose proof (buffer_size_of_nonneg info) as Hsz.
  unfold Read, read_darwin, read_linux.
  destruct p;
    repeat match goal with
           | |- context [if ?b then _ else _] => destruct b
           end; cbn [snd]; adds_step; cbn [io_call]; split; (reflexivity || lia).
Qed.

Lemma adds_Write p d info w : adds (io_call d) w (snd (Write p d info w)).
Proof.
  unfold Write, write_darwin, write_linux.
  destruct info as [| [| | | | | data |] rest]; destruct p;
    repeat match goal with
           | |- context [if ?b then _ else _] => destruct b
           end; cbn [snd]; adds_step; reflexivity.
Qed.

Lemma adds_StopPolling (P : Call -> Prop) d w :
  (forall h, P (Cuv_poll_stop h)) -> (forall h, P (Cdelete_uv_poll h)) ->
  (forall t, P (Ctsfn_Release t)) ->
  adds P w (snd (StopPolling d w)).
Proof.
  intros H1 H2 H3. unfold StopPolling. cbn [snd].
  destruct (tsfn_ d), (poll_handle_ d); repeat (adds_step; auto).
Qed.

Lemma adds_StartPolling d info w :
  adds (io_call d) w (snd (StartPolling d info w)).
Proof.
  unfold StartPolling.
  destruct (negb (is_open_ d) || negb (FileDescriptor.is_valid (fd_ d)));
    [apply adds_refl |].
  destruct (info0 info); try apply adds_refl.
  pose proof (adds_StopPolling (io_call d) d w
                (fun _ => I) (fun _ => I) (fun _ => I)) as Hs.
  destruct (StopPolling d w) as [d1 w1] eqn:E.
  assert (Hfd : fd_ d1 = fd_ d)
    by (unfold StopPolling in E; injection E as <- _; reflexivity).
  cbn [snd] in Hs. cbn [set_tsfn fd_]. rewrite Hfd.
  repeat match goal with
         | |- context [if ?b then _ else _] => destruct b
         end; cbn [snd]; (eapply adds_trans; [exact Hs |]);
    repeat (adds_step; try exact I; try reflexivity).
Qed.

Lemma adds_PollCallback p d status events w :
  adds (io_call d) w (world_of (PollCallback p d status events w)).
Proof.
  unfold PollCallback, BlockingCall.
  destruct p, (tsfn_ d);
    repeat match goal with
           | |- context [if ?b then _ else _] => destruct b
           end; cbn [world_of];
    repeat (adds_step; try exact I; try (split; [reflexivity | lia])).
Qed.

Lemma adds_io_step p o d w :
  is_open_or_close o = false ->
  adds (io_call d) w (snd (step p o d w)).
Proof.
  intros Ho. destruct o; try discriminate Ho; cbn [step].
  - pose proof (adds_Read p d info w) as H. destruct (Read p d info w). exact H.
  - pose proof (adds_Write p d info w) as H. destruct (Write p d info w). exact H.
  - apply adds_refl.
  - apply adds_refl.
  - apply adds_StartPolling.
  - destruct (poll_handle_ d); [| apply adds_refl].
    pose proof (adds_PollCallback p d status events w) as H.
    destruct (PollCallback p d status events w); exact H.
Qed.

(** X10.  [Read], [Write], [GetName], [GetFd], [StartPolling] and
    [PollCallback] touch no descriptor but the device's own and neither
    obtain nor close one: their [read], [write] and [uv_poll_init] calls are
    on [fd_], every other call they make is to the thread-safe function, to
    a poll handle or to stderr, and for every descriptor the number handed
    out and not closed is what it was. *)
Theorem io_keeps_descriptors
    (p : Platform) (o : Op) (d : TunDevice) (w : World) :
  is_open_or_close o = false ->
  Forall (fun e => io_call d (ev_call e)) (events_since w (snd (step p o d w))) /\
  (forall fd, held fd (trace (snd (step p o d w))) = held fd (trace w)) /\
  fd_ (snd (fst (step p o d w))) = fd_ d.
Proof.
  intros Ho. pose proof (adds_io_step p o d w Ho) as Ha.
  split; [apply adds_events_since; exact Ha | split].
  - apply (adds_held (io_call d)); [| exact Ha].
    intros c Hc. destruct c; cbn in Hc; try contradiction;
      repeat split; try discriminate; intros; discriminate.
  - destruct o; try discriminate Ho; cbn [step]; try reflexivity.
    + destruct (Read p d info w). reflexivity.
    + destruct (Write p d info w). reflexivity.
    + apply StartPolling_keeps_device.
    + poll_cases; reflexivity.
Qed.

Lemma io_keeps_descriptors_witness :
  held 5 (trace (snd (step Linux (OpRead [JsNumber 1500]) open_device
                        (boot (quiet_kernel Linux)))))
  = held 5 (trace (boot (quiet_kernel Linux))).
Proof.
  apply (io_keeps_descriptors Linux (OpRead [JsNumber 1500]) open_device
           (boot (quiet_kernel Linux)) eq_refl).
Defined.

(** ** A requested utun unit *)

Lemma digit_of_digit (n : nat) :
  (n < 10)%nat -> digit_of (ascii_of_nat (48 + n)) = Some (Z.of_nat n).
Proof.
  intros Hn. do 10 (destruct n as [| n]; [reflexivity |]). lia.
Qed.

Lemma read_digits_digits (ds : list nat) :
  Forall (fun n => (n < 10)%nat) ds ->
  forall a, read_digits (digits_string ds) (Some a)
            = Some (fold_left (fun a n => 10 * a + Z.of_nat n) ds a).
Proof.
  induction 1 as [| n ds Hn _ IH]; intros a; [reflexivity |].
  cbn [digits_string read_digits fold_left].
  rewrite (digit_of_digit n Hn). apply IH.
Qed.

Lemma fold_digits_nonneg (ds : list nat) :
  forall a, 0 <= a -> 0 <= fold_left (fun a n => 10 * a + Z.of_nat n) ds a.
Proof.
  induction ds as [| n ds IH]; intros a Ha; cbn [fold_left]; [exact Ha |].
  apply IH. lia.
Qed.

Lemma stoi_digits (ds : list nat) :
  ds <> [] ->
  Forall (fun n => (n < 10)%nat) ds ->
  digits_value ds <= INT_MAX ->
  stoi (digits_string ds) = Some (digits_value ds).
Proof.
  intros Hne Hd Hmax. destruct ds as [| n ds]; [contradiction Hne; reflexivity |].
  inversion Hd as [| n' ds' Hn Hds]; subst.
  assert (Hrd : read_digits (digits_string (n :: ds)) None
                = Some (digits_value (n :: ds))).
  { cbn [digits_string read_digits]. rewrite (digit_of_digit n Hn).
    rewrite (read_digits_digits ds Hds). reflexivity. }
  assert (Hnn : 0 <= digits_value (n :: ds)).
  { apply fold_digits_nonneg. lia. }
  assert (Hst : forall s, stoi (String (ascii_of_nat (48 + n)) s)
                          = match read_digits (String (ascii_of_nat (48 + n)) s) None with
                            | None => None
                            | Some v => if (INT_MIN <=? v) && (v <=? INT_MAX)
                                        then Some v else None
                            end).
  { intros s. do 10 (destruct n as [| n]; [reflexivity |]). lia. }
  change (digits_string (n :: ds))
    with (String (ascii_of_nat (48 + n)) (digits_string ds)) in *.
  rewrite Hst, Hrd.
  assert (H1 : (INT_MIN <=? digits_value (n :: ds)) = true)
    by (apply Z.leb_le; unfold INT_MIN; lia).
  assert (H2 : (digits_value (n :: ds) <=? INT_MAX) = true)
    by (apply Z.leb_le; exact Hmax).
  rewrite H1, H2. reflexivity.
Qed.

Lemma utun_unit_of_digits (ds : list nat) :
  ds <> [] ->
  Forall (fun n => (n < 10)%nat) ds ->
  digits_value ds < INT_MAX ->
  utun_unit_of ("utun" +++ digits_string ds) = digits_value ds + 1.
Proof.
  intros Hne Hd Hmax. unfold utun_unit_of.
  cbn [String.append String.eqb negb andb starts_with Ascii.eqb Bool.eqb substr].
  rewrite (stoi_digits ds Hne Hd) by lia.
  assert (Hnn : 0 <= digits_value ds) by (apply fold_digits_nonneg; lia).
  unfold wrap_int. unfold INT_MAX in Hmax.
  rewrite Z.mod_small by lia. lia.
Qed.

(** X11.  A device named "utun" followed by the decimal numeral of [N]
    ([N < 2^31 - 1]) asks for unit [N + 1]: the connect phase of [Open] makes
    exactly one [connect], to that unit, and does not scan.  A non-negative
    return connects; a negative one is fatal whatever [errno] says, [EBUSY]
    included. *)
Theorem utun_name_selects_unit
    (ds : list nat) (fd sc_id : Z) (w : World) :
  ds <> [] ->
  Forall (fun n => (n < 10)%nat) ds ->
  digits_value ds < INT_MAX ->
  let c := Cconnect fd sc_id (digits_value ds + 1) in
  let result := connect_utun ("utun" +++ digits_string ds) fd sc_id w in
  snd result = next c w /\
  (0 <= r_ret (reply c w) -> fst result = None) /\
  (r_ret (reply c w) < 0 ->
   fst result
   = Some ("Failed to connect to utun control socket with specified unit: "
             +++ strerror w (errno_after c w))).
Proof.
  intros Hne Hd Hmax c result. unfold result, connect_utun.
  rewrite (utun_unit_of_digits ds Hne Hd Hmax). fold c.
  assert (Hnn : 0 <= digits_value ds) by (apply fold_digits_nonneg; lia).
  destruct (0 <? digits_value ds + 1) eqn:E; [| apply Z.ltb_ge in E; lia].
  destruct (r_ret (reply c w) <? 0) eqn:Er; cbn [fst snd].
  - apply Z.ltb_lt in Er.
    split; [reflexivity | split; [intros H; lia | intros _; reflexivity]].
  - apply Z.ltb_ge in Er.
    split; [reflexivity | split; [intros _; reflexivity | intros H; lia]].
Qed.

Lemma utun_name_selects_unit_witness :
  map ev_call (trace (snd (connect_utun "utun12" 5 7 (boot (quiet_kernel Darwin)))))
  = [Cconnect 5 7 13] /\
  fst (connect_utun "utun12" 5 7 (boot (quiet_kernel Darwin))) = None.
Proof.
  destruct (utun_name_selects_unit [1%nat; 2%nat] 5 7 (boot (quiet_kernel Darwin)))
    as (Hw & Hok & _).
  - discriminate.
  - repeat constructor.
  - vm_compute. reflexivity.
  - change ("utun" +++ digits_string [1%nat; 2%nat]) with "utun12"%string in *.
    split; [rewrite Hw; reflexivity | apply Hok; vm_compute; discriminate].
Defined.

(** ** What a successful Open leaves *)

Lemma open_finish_success_world p temp_fd d w v d' w' :
  fd_ d = -1 ->
  open_finish p temp_fd d w = (Returned v, d', w') ->
  let c1 := Cfcntl_GETFL temp_fd in
  let flags := r_ret (reply c1 w) in
  let c2 := Cfcntl_SETFL temp_fd (Z.lor flags (O_NONBLOCK p)) in
  w' = next c2 (next c1 w) /\ 0 <= flags /\ 0 <= r_ret (reply c2 (next c1 w)) /\
  fd_ d' = temp_fd.
Proof.
  intros Hfd. unfold open_finish, open_fail, FileDescriptor.move_assign,
    FileDescriptor.destroy.
  rewrite Hfd. cbn [Z.leb Z.compare].
  destruct (r_ret (reply (Cfcntl_GETFL temp_fd) w) <? 0) eqn:E1; [discriminate |].
  match goal with
  | |- context [if (r_ret ?r <? 0) then _ else _] => destruct (r_ret r <? 0) eqn:E2
  end; [discriminate |].
  intros H. injection H as <- <- <-.
  apply Z.ltb_ge in E1. apply Z.ltb_ge in E2. repeat split; assumption.
Qed.

Lemma held_two_inert (fd : Z) (c1 c2 : Call) (w : World) :
  held_delta fd (event c1 w) = 0 ->
  held_delta fd (event c2 (next c1 w)) = 0 ->
  held fd (trace (next c2 (next c1 w))) = held fd (trace w).
Proof. intros H1 H2. rewrite !held_next, H1, H2. lia. Qed.

(** X12.  When [Open] returns [true] on a device that was not open (and
    whose descriptor is -1, as the invariant has it), the device holds a
    descriptor [>= 0]; it is the only one obtained and not closed again
    during the call; and the last two calls were [F_GETFL] on it, which
    returned flags [>= 0], and [F_SETFL] on it with these flags and
    [O_NONBLOCK], which succeeded. *)
Theorem successful_open_holds_nonblocking_handle
    (p : Platform) (d : TunDevice) (w : World)
    (v : JsValue) (d' : TunDevice) (w' : World) :
  is_open_ d = false ->
  fd_ d = -1 ->
  Open p d w = (Returned v, d', w') ->
  0 <= fd_ d' /\
  (forall fd, held fd (trace w')
              = held fd (trace w) + (if fd_ d' =? fd then 1 else 0)) /\
  exists w0,
    let c1 := Cfcntl_GETFL (fd_ d') in
    let flags := r_ret (reply c1 w0) in
    let c2 := Cfcntl_SETFL (fd_ d') (Z.lor flags (O_NONBLOCK p)) in
    w' = next c2 (next c1 w0) /\ 0 <= flags /\ 0 <= r_ret (reply c2 (next c1 w0)).
Proof.
  intros Hc Hfd. unfold Open. rewrite Hc.
  destruct (g_shutdown_requested w); [discriminate |].
  assert (Hfin : forall temp_fd n w4,
            0 <= temp_fd ->
            (forall fd, held fd (trace w4)
                        = held fd (trace w) + (if temp_fd =? fd then 1 else 0)) ->
            open_finish p temp_fd (set_name d n) w4 = (Returned v, d', w') ->
            0 <= fd_ d' /\
            (forall fd, held fd (trace w')
                        = held fd (trace w) + (if fd_ d' =? fd then 1 else 0)) /\
            exists w0,
              let c1 := Cfcntl_GETFL (fd_ d') in
              let flags := r_ret (reply c1 w0) in
              let c2 := Cfcntl_SETFL (fd_ d') (Z.lor flags (O_NONBLOCK p)) in
              w' = next c2 (next c1 w0) /\ 0 <= flags /\
              0 <= r_ret (reply c2 (next c1 w0))).
  { intros temp_fd n w4 Ht H4 E.
    apply open_finish_success_world in E; [| exact Hfd].
    destruct E as (Hw & Hfl & Hset & Hfd').
    rewrite Hfd'. split; [exact Ht | split].
    - intros fd. rewrite Hw, held_two_inert by reflexivity. apply H4.
    - exists w4. cbv zeta. repeat split; assumption. }
  destruct p.
  - unfold open_darwin, open_fail, FileDescriptor.is_valid.
    set (temp_fd := r_ret (reply Csocket w)).
    assert (Hsock : forall fd, held fd (trace (next Csocket w))
                      = held fd (trace w)
                        + (if (0 <=? temp_fd) && (temp_fd =? fd) then 1 else 0)).
    { intros fd. apply held_socket. left. reflexivity. }
    destruct (0 <=? temp_fd) eqn:Hv; cbn [negb]; [| discriminate].
    set (c2 := Cioctl_CTLIOCGINFO temp_fd).
    destruct (r_ret (reply c2 (next Csocket w)) <? 0); [discriminate |].
    pose proof (fun fd => connect_utun_held (name_ d) temp_fd
                  (r_id (reply c2 (next Csocket w))) fd
                  (next c2 (next Csocket w))) as Hh.
    destruct (connect_utun (name_ d) temp_fd
                (r_id (reply c2 (next Csocket w))) (next c2 (next Csocket w)))
      as [[m |] w3]; [discriminate |].
    cbn [snd] in Hh.
    destruct (r_ret (reply (Cgetsockopt_IFNAME temp_fd) w3) <? 0); [discriminate |].
    apply Hfin; [apply Z.leb_le; exact Hv |].
    intros fd. rewrite held_next, Hh, held_next, Hsock.
    unfold held_delta. cbn. lia.
  - unfold open_linux, open_fail, FileDescriptor.is_valid.
    destruct (negb (r_ret (reply Cstat_dev_net_tun w) =? 0)); [discriminate |].
    set (w1 := next Cstat_dev_net_tun w).
    set (temp_fd := r_ret (reply Copen_dev_net_tun w1)).
    assert (Hopen : forall fd, held fd (trace (next Copen_dev_net_tun w1))
                      = held fd (trace w)
                        + (if (0 <=? temp_fd) && (temp_fd =? fd) then 1 else 0)).
    { intros fd.
      assert (H1 : held fd (trace w1) = held fd (trace w)).
      { unfold w1. rewrite held_next. unfold held_delta. cbn. lia. }
      rewrite <- H1. apply held_socket. right. reflexivity. }
    destruct (0 <=? temp_fd) eqn:Hv; cbn [negb]; [| discriminate].
    match goal with
    | |- context [if (r_ret ?r <? 0) then _ else _] => destruct (r_ret r <? 0)
    end; [discriminate |].
    apply Hfin; [apply Z.leb_le; exact Hv |].
    intros fd. rewrite held_next, Hopen. unfold held_delta. cbn. lia.
Qed.

Lemma successful_open_holds_nonblocking_handle_witness :
  held 5 (trace (snd (Open Linux (TunDevice_new []) (boot (quiet_kernel Linux))))) = 1.
Proof.
  destruct (Open Linux (TunDevice_new []) (boot (quiet_kernel Linux)))
    as [[o d'] w'] eqn:E.
  assert (Ho : o = Returned (JsBoolean true) /\ fd_ d' = 5).
  { apply (f_equal fst) in E. vm_compute in E. injection E as <- <-.
    split; reflexivity. }
  destruct Ho as [-> Hfd].
  destruct (successful_open_holds_nonblocking_handle Linux (TunDevice_new [])
              (boot (quiet_kernel Linux)) _ d' w' eq_refl eq_refl E)
    as (_ & Hheld & _).
  cbn [snd]. rewrite (Hheld 5), Hfd. reflexivity.
Defined.

(** ** The registry functions *)

Lemma filter_not_in (this : nat) (l : list nat) :
  ~ In this l -> filter (fun d => negb (Nat.eqb d this)) l = l.
Proof.
  induction l as [| x l IH]; intros Hn; [reflexivity |].
  cbn [filter]. destruct (Nat.eqb x this) eqn:E.
  - apply Nat.eqb_eq in E. subst x. contradiction Hn. left. reflexivity.
  - cbn [negb]. rewrite IH; [reflexivity |]. intros H. apply Hn. right. exact H.
Qed.

(** X13.  [UnregisterDevice] erases every entry equal to the device and
    keeps the others in their order; [RegisterDevice] appends one entry.  So
    unregistering after registering, once or twice, gives back a registry
    that did not hold the device, and the rest of the world is untouched. *)
Theorem unregister_undoes_register (this : nat) (w : World) :
  ~ In this (g_active_devices w) ->
  UnregisterDevice this (RegisterDevice this w) = w /\
  UnregisterDevice this (RegisterDevice this (RegisterDevice this w)) = w /\
  (forall other, other <> this ->
     g_active_devices (UnregisterDevice this (RegisterDevice other (RegisterDevice this w)))
     = g_active_devices w ++ [other]) /\
  (forall x, In x (g_active_devices (UnregisterDevice this (RegisterDevice this w)))
             <-> In x (g_active_devices (RegisterDevice this w)) /\ x <> this).
Proof.
  intros Hn.
  assert (Hf : forall l, filter (fun d => negb (Nat.eqb d this)) (l ++ [this])
                         = filter (fun d => negb (Nat.eqb d this)) l).
  { intros l. rewrite filter_app. cbn [filter]. rewrite Nat.eqb_refl.
    cbn [negb]. apply app_nil_r. }
  destruct w as [k se ue tr en sh reg nid]. cbn [g_active_devices] in Hn.
  unfold UnregisterDevice, RegisterDevice.
  cbn [kernel strerror uv_strerror trace errno g_shutdown_requested
       g_active_devices next_id].
  split; [| split; [| split]].
  - rewrite Hf, (filter_not_in this reg Hn). reflexivity.
  - rewrite !Hf, (filter_not_in this reg Hn). reflexivity.
  - intros other Ho. rewrite filter_app, Hf, (filter_not_in this reg Hn).
    cbn [filter]. destruct (Nat.eqb other this) eqn:E; [| reflexivity].
    apply Nat.eqb_eq in E. contradiction.
  - intros x. rewrite filter_In, negb_true_iff, Nat.eqb_neq. reflexivity.
Qed.

Lemma unregister_undoes_register_witness :
  UnregisterDevice 7 (RegisterDevice 7 (RegisterDevice 3 (boot (quiet_kernel Linux))))
  = RegisterDevice 3 (boot (quiet_kernel Linux)).
Proof.
  apply (unregister_undoes_register 7 (RegisterDevice 3 (boot (quiet_kernel Linux)))).
  intros [H | []]. discriminate H.
Defined.

(** ** The RAII wrapper *)

(** X14.  The wrapper closes what it holds exactly once and nothing else.
    After a move assignment and the destruction of both objects, and after a
    [reset] and the destruction of the object, [close] was called once on each
    valid descriptor involved and on no other; a [release]d descriptor is
    returned and never closed by the object. *)
Theorem wrapper_closes_each_handle_once (fd other : Z) (w : World) (g : Z) :
  let once (x : Z) := if (0 <=? x) && (x =? g) then 1%nat else 0%nat in
  (let '(target, source, w1) := FileDescriptor.move_assign fd other w in
   source = -1 /\ target = other /\
   close_count g (trace (FileDescriptor.destroy target
                           (FileDescriptor.destroy source w1)))
   = (close_count g (trace w) + once fd + once other)%nat) /\
  (let '(held_fd, w1) := FileDescriptor.reset fd other w in
   held_fd = other /\
   close_count g (trace (FileDescriptor.destroy held_fd w1))
   = (close_count g (trace w) + once fd + once other)%nat) /\
  (let '(returned, kept) := FileDescriptor.release fd in
   returned = fd /\ FileDescriptor.destroy kept w = w).
Proof.
  assert (Hd : forall x w0,
            close_count g (trace (FileDescriptor.destroy x w0))
            = (close_count g (trace w0)
               + (if ((0 <=? x) && (x =? g))%Z then 1 else 0))%nat).
  { intros x w0. unfold FileDescriptor.destroy. destruct (0 <=? x); cbn [andb].
    - rewrite close_count_next. cbn [closes event ev_call]. reflexivity.
    - lia. }
  cbv zeta. unfold FileDescriptor.move_assign, FileDescriptor.reset,
    FileDescriptor.release.
  change (if 0 <=? fd then next (Cclose fd) w else w)
    with (FileDescriptor.destroy fd w).
  repeat split.
  - rewrite !Hd. cbn [Z.leb Z.compare andb]. lia.
  - rewrite !Hd. lia.
Qed.

(** ** The shutdown flag and the name *)

(** X15.  No operation of the add-on writes the shutdown flag: after any
    sequence of calls on a device the flag is what it was, so a device that
    could be opened before the sequence is not refused for shutdown after
    it, and one that was refused is still refused. *)
Theorem operations_keep_shutdown_flag
    (p : Platform) (ops : list Op) (d : TunDevice) (w : World) :
  let '(_, d', w') := run p ops d w in
  g_shutdown_requested w' = g_shutdown_requested w /\
  (g_shutdown_requested w = true -> is_open_ d' = false ->
   Open p d' w' = (Thrown JsError "Shutdown in progress", d', w')).
Proof.
  pose proof (frame_run p ops d w) as (_ & _ & Hs & _).
  destruct (run p ops d w) as [[outs d'] w']. cbn [snd] in Hs.
  split; [exact Hs |].
  intros Hw Hc. unfold Open. rewrite Hc, Hs, Hw. reflexivity.
Qed.

Lemma step_keeps_name p o d w :
  is_open_op o = false ->
  name_ (snd (fst (step p o d w))) = name_ d.
Proof.
  intros Ho. destruct o; try discriminate Ho; cbn [step]; try reflexivity.
  - unfold Close, CloseInternal, FileDescriptor.reset.
    destruct (is_open_ d); reflexivity.
  - destruct (Read p d info w). reflexivity.
  - destruct (Write p d info w). reflexivity.
  - apply StartPolling_keeps_device.
  - poll_cases; reflexivity.
Qed.

(** X16.  Only [Open] writes the name.  Over any sequence of calls without
    [Open] the name stays what it was; in particular [Close] does not clear
    it, and [GetName] on a closed device still returns what it returned
    after the last [Open]: the name read as UTF-8, which is the name itself
    when all its characters are 7-bit. *)
Theorem only_open_changes_name
    (p : Platform) (ops : list Op) (d : TunDevice) (w : World) :
  no_open ops = true ->
  let '(_, d', _) := run p ops d w in
  name_ d' = name_ d /\
  GetName d' = Returned (JsString (utf8_to_js (name_ d))) /\
  (seven_bit (name_ d) = true -> GetName d' = Returned (JsString (name_ d))).
Proof.
  intros Hn.
  assert (Hname : name_ (snd (fst (run p ops d w))) = name_ d).
  { revert d w. induction ops as [| o ops IH]; intros d w; cbn [run]; [reflexivity |].
    cbn [no_open forallb] in Hn. apply andb_prop in Hn. destruct Hn as [Ho Hn].
    apply negb_true_iff in Ho.
    pose proof (step_keeps_name p o d w Ho) as H1.
    destruct (step p o d w) as [[r d1] w1]. cbn [fst snd] in H1.
    destruct (is_aborted r); [exact H1 |].
    specialize (IH Hn d1 w1).
    destruct (run p ops d1 w1) as [[rs d2] w2]. cbn [fst snd] in *.
    rewrite IH. exact H1. }
  destruct (run p ops d w) as [[rs d'] w']. cbn [fst snd] in Hname.
  unfold GetName. rewrite Hname.
  split; [reflexivity | split; [reflexivity |]].
  intros H7. rewrite (utf8_to_js_seven_bit _ H7). reflexivity.
Qed.

Lemma only_open_changes_name_witness :
  let '(_, d', _) :=
    run Linux [OpStartPolling [JsFunction 1]; OpRead []; OpClose; OpGetName]
        open_device (boot (quiet_kernel Linux)) in
  is_open_ d' = false /\ name_ d' = "tun0"%string /\
  GetName d' = Returned (JsString "tun0").
Proof.
  pose proof (only_open_changes_name Linux
                [OpStartPolling [JsFunction 1]; OpRead []; OpClose; OpGetName]
                open_device (boot (quiet_kernel Linux)) eq_refl) as H.
  destruct (run Linux [OpStartPolling [JsFunction 1]; OpRead []; OpClose; OpGetName]
              open_device (boot (quiet_kernel Linux))) as [[rs d'] w'] eqn:E.
  destruct H as (Hn & _ & H7).
  split; [| split; [exact Hn | exact (H7 eq_refl)]].
  apply (f_equal (fun x => is_open_ (snd (fst x)))) in E.
  vm_compute in E. symmetry. exact E.
Defined.

(** A name cut inside a character is not what [GetName] returns: the two
    bytes C3 A9 of an e with acute accent come back as they are, the first
    one alone as U+FFFD. *)
Example get_name_of_cut_character :
  let e_acute := String (ascii_of_nat 195) (String (ascii_of_nat 169) EmptyString) in
  let cut := String (ascii_of_nat 195) EmptyString in
  GetName (mkTunDevice 5 ("t" +++ e_acute) true None None)
  = Returned (JsString ("t" +++ e_acute)) /\
  GetName (mkTunDevice 5 ("t" +++ cut) true None None)
  = Returned (JsString ("t" +++ replacement)).
Proof. split; reflexivity. Qed.

(** ** Read on Linux *)

(** X17.  On Linux, for an open device outside shutdown, [Read] asks the
    kernel for the requested number of bytes (4096 when no number is given)
    and returns the datagram the kernel stored, whole and unframed. *)
Theorem read_linux_returns_datagram
    (d : TunDevice) (info : list JsValue) (w : World) :
  device_usable d = true ->
  g_shutdown_requested w = false ->
  let c := Cread (fd_ d) (buffer_size_of info) in
  r_ret (reply c w) = Z.of_nat (List.length (r_bytes (reply c w))) ->
  r_ret (reply c w) <= buffer_size_of info ->
  Read Linux d info w = (Returned (JsBuffer (r_bytes (reply c w))), next c w) /\
  (info = [] -> buffer_size_of info = 4096).
Proof.
  intros Hu Hs c Hlen Hfit. split; [| intros ->; reflexivity].
  unfold Read. rewrite (usable_guard d Hu), Hs.
  unfold read_linux. fold c.
  destruct (r_ret (reply c w) <? 0) eqn:E; [apply Z.ltb_lt in E; lia |].
  rewrite buffer_after_read_fits by assumption.
  rewrite Hlen, Nat2Z.id, firstn_app, firstn_all, Nat.sub_diag.
  cbn [firstn]. rewrite app_nil_r. reflexivity.
Qed.

Lemma read_linux_returns_datagram_witness :
  Read Linux open_device [] (boot (packet_kernel Linux [x45; x00; x00; x14]))
  = (Returned (JsBuffer [x45; x00; x00; x14]),
     next (Cread 5 4096) (boot (packet_kernel Linux [x45; x00; x00; x14]))).
Proof.
  apply (read_linux_returns_datagram open_device []
           (boot (packet_kernel Linux [x45; x00; x00; x14])) eq_refl eq_refl eq_refl).
  vm_compute. discriminate.
Defined.

(** ** Read on Darwin: witnesses *)

Lemma read_darwin_strips_header_witness :
  Read Darwin open_device []
       (boot (packet_kernel Darwin [x00; x00; x00; x1e; x60; x00]))
  = (Returned (JsBuffer [x60; x00]),
     next (Cread 5 4100) (boot (packet_kernel Darwin [x00; x00; x00; x1e; x60; x00]))).
Proof.
  apply (read_darwin_strips_header open_device []
           (boot (packet_kernel Darwin [x00; x00; x00; x1e; x60; x00]))
           [x00; x00; x00; x1e] [x60; x00] eq_refl eq_refl eq_refl eq_refl).
  - cbn. lia.
  - reflexivity.
  - vm_compute. discriminate.
Defined.

Lemma read_darwin_failure_witness :
  Read Darwin open_device [] (boot (quiet_kernel Darwin))
  = (Returned (JsBuffer []), next (Cread 5 4100) (boot (quiet_kernel Darwin))).
Proof.
  apply (read_darwin_failure open_device [] (boot (quiet_kernel Darwin))
           eq_refl eq_refl).
  vm_compute. reflexivity.
Defined.

Lemma poll_darwin_delivery_witness :
  let k := packet_kernel Darwin [x00; x00; x00; x1e; x60; x00] in
  PollCallback Darwin (polling_device k) 0 UV_READABLE (polling_world k)
  = Completed (next (Ctsfn_BlockingCall 0 [x60; x00])
                 (next (Cread 5 4096) (polling_world k))).
Proof.
  cbv zeta.
  apply (poll_darwin_delivery
           (polling_device (packet_kernel Darwin [x00; x00; x00; x1e; x60; x00]))
           0%nat
           (polling_world (packet_kernel Darwin [x00; x00; x00; x1e; x60; x00]))
           eq_refl eq_refl eq_refl).
  vm_compute. split; [reflexivity | discriminate].
Defined.

(** ** Polling only while open *)

Lemma step_polling_only_while_open p o d w :
  polling_only_while_open d ->
  polling_only_while_open (snd (fst (step p o d w))).
Proof.
  intros Hinv. unfold polling_only_while_open in *.
  destruct o; [cbn [step] .. | rewrite step_poll_keeps_device; exact Hinv].
  - (* Open keeps the poll fields; a closed result was closed before *)
    destruct (Open_keeps_polling p d w) as [Hp Ht].
    destruct (Open p d w) as [[r d'] w'] eqn:E. cbn [fst snd] in *.
    intros Hc. rewrite Hp, Ht. apply Hinv.
    destruct (is_open_ d) eqn:Ho; [| reflexivity].
    unfold Open in E. rewrite Ho in E. injection E as _ <- _.
    rewrite Ho in Hc. discriminate Hc.
  - unfold Close, CloseInternal, FileDescriptor.reset.
    destruct (is_open_ d) eqn:Ho; cbn [StopPolling fst snd];
      [intros _; split; reflexivity | rewrite Ho; exact Hinv].
  - destruct (Read p d info w). exact Hinv.
  - destruct (Write p d info w). exact Hinv.
  - exact Hinv.
  - exact Hinv.
  - destruct (StartPolling_keeps_device d info w) as (Ho & _).
    rewrite Ho. intros Hc.
    unfold StartPolling. rewrite Hc. cbn [negb orb fst snd]. apply Hinv. exact Hc.
Qed.

Lemma run_polling_only_while_open p ops :
  forall d w,
    polling_only_while_open d ->
    polling_only_while_open (snd (fst (run p ops d w))).
Proof.
  induction ops as [| o ops IH]; intros d w H0; cbn [run]; [exact H0 |].
  pose proof (step_polling_only_while_open p o d w H0) as H1.
  destruct (step p o d w) as [[r d1] w1]. cbn [fst snd] in H1.
  destruct (is_aborted r); [exact H1 |].
  specialize (IH d1 w1 H1).
  destruct (run p ops d1 w1) as [[rs d2] w2]. exact IH.
Qed.

(** X18.  Over the whole life of a device, from its construction in a
    process that has not polled yet and through any sequence of calls: the
    device's fields name exactly the poll handles and thread-safe functions
    that are live, so there is never more than one of each; and whenever the
    device is not open it has neither and none is live. *)
Theorem polling_exists_only_while_open
    (p : Platform) (info : list JsValue) (ops : list Op) (w : World) :
  trace w = [] ->
  let '(_, d', w') := run p ops (TunDevice_new info) w in
  polling_invariant d' w' /\
  at_most_one_live (trace w') /\
  (is_open_ d' = false ->
   poll_handle_ d' = None /\ tsfn_ d' = None /\
   live_polls (trace w') = [] /\ active_polls (trace w') = [] /\
   live_tsfns (trace w') = []).
Proof.
  intros Htr.
  assert (Hinv0 : polling_invariant (TunDevice_new info) w).
  { unfold polling_invariant. rewrite Htr. repeat split. }
  pose proof (run_polling_invariant p ops (TunDevice_new info) w Hinv0) as Hinv.
  assert (Hpo : polling_only_while_open (snd (fst (run p ops (TunDevice_new info) w)))).
  { apply run_polling_only_while_open. intros _. split; reflexivity. }
  destruct (run p ops (TunDevice_new info) w) as [[outs d'] w'].
  cbn [fst snd] in Hinv, Hpo.
  split; [exact Hinv | split; [apply (polling_invariant_at_most_one d' w' Hinv) |]].
  intros Hc. destruct (Hpo Hc) as [Hp Ht].
  destruct Hinv as (It & Ip & Ia). rewrite Hp in Ip, Ia. rewrite Ht in It.
  repeat split; assumption.
Qed.

Lemma polling_exists_only_while_open_witness :
  let '(_, d', w') :=
    run Linux [OpOpen; OpStartPolling [JsFunction 1]; OpStartPolling [JsFunction 2];
               OpClose]
        (TunDevice_new []) (boot (quiet_kernel Linux)) in
  live_polls (trace w') = [] /\ live_tsfns (trace w') = [].
Proof.
  pose proof (polling_exists_only_while_open Linux []
                [OpOpen; OpStartPolling [JsFunction 1];
                 OpStartPolling [JsFunction 2]; OpClose]
                (boot (quiet_kernel Linux)) eq_refl) as H.
  destruct (run Linux [OpOpen; OpStartPolling [JsFunction 1];
                       OpStartPolling [JsFunction 2]; OpClose]
              (TunDevice_new []) (boot (quiet_kernel Linux)))
    as [[outs d'] w'] eqn:E.
  destruct H as (_ & _ & H).
  assert (Hc : is_open_ d' = false).
  { apply (f_equal (fun x => is_open_ (snd (fst x)))) in E. vm_compute in E.
    symmetry. exact E. }
  destruct (H Hc) as (_ & _ & Hp & _ & Ht). split; assumption.
Defined.

(** ** Setup errors on Linux *)

(** X19.  On Linux, [Open] on a closed device outside shutdown first checks
    the device node.  If [stat] fails it throws the hint to load the kernel
    module after that single call, without trying to open the node.  If
    [stat] succeeds and [open] fails it throws the system's message followed
    by the hint about permissions, after these two calls; there is nothing
    to close.  The device is unchanged in both cases. *)
Theorem linux_open_setup_errors (d : TunDevice) (w : World) :
  is_open_ d = false ->
  g_shutdown_requested w = false ->
  let w1 := next Cstat_dev_net_tun w in
  let w2 := next Copen_dev_net_tun w1 in
  (r_ret (reply Cstat_dev_net_tun w) <> 0 ->
   Open Linux d w = (Thrown JsError no_tun_msg, d, w1)) /\
  (r_ret (reply Cstat_dev_net_tun w) = 0 ->
   r_ret (reply Copen_dev_net_tun w1) < 0 ->
   Open Linux d w
   = (Thrown JsError ("Failed to open /dev/net/tun: "
                        +++ strerror w (errno_after Copen_dev_net_tun w1)
                        +++ permission_hint), d, w2)).
Proof.
  intros Hc Hs w1 w2. unfold Open. rewrite Hc, Hs. unfold open_linux, open_fail.
  fold w1. split.
  - intros Hst. apply Z.eqb_neq in Hst. rewrite Hst. reflexivity.
  - intros Hst Hop. rewrite Hst. cbn [Z.eqb negb].
    unfold FileDescriptor.is_valid, FileDescriptor.destroy.
    destruct (0 <=? r_ret (reply Copen_dev_net_tun w1)) eqn:E;
      [apply Z.leb_le in E; lia |].
    reflexivity.
Qed.

Lemma linux_open_setup_errors_witness :
  Open Linux (TunDevice_new [JsString "probe0"]) (boot no_tun_kernel)
  = (Thrown JsError no_tun_msg, TunDevice_new [JsString "probe0"],
     next Cstat_dev_net_tun (boot no_tun_kernel)) /\
  fst (fst (Open Linux (TunDevice_new [JsString "probe0"]) (boot no_permission_kernel)))
  = Thrown JsError ("Failed to open /dev/net/tun: Unknown error" +++ permission_hint).
Proof.
  split.
  - apply (linux_open_setup_errors (TunDevice_new [JsString "probe0"])
             (boot no_tun_kernel) eq_refl eq_refl).
    vm_compute. discriminate.
  - destruct (linux_open_setup_errors (TunDevice_new [JsString "probe0"])
                (boot no_permission_kernel) eq_refl eq_refl) as [_ H].
    rewrite H; [reflexivity | reflexivity | vm_compute; reflexivity].
Defined.
